(** * TradingAgents: the OpenBB data provider and the vendor router

    A shallow embedding of [tradingagents/dataflows/openbb_provider.py]:
    the lazy SDK singleton [_get_obb] and the adapter functions built on
    it, together with the properties the specification states about them.
    The router of [tradingagents/dataflows/interface.py], whose source is
    not at hand, is modelled from the specification.

    Python strings are modelled as Rocq [string]s (byte strings, so
    [upper] and [lower] act on ASCII letters); the effects of the module
    (the global [_obb], the calls into the SDK, logging, the environment)
    are threaded through a small state-and-exception monad whose state
    keeps a chronological trace of what the code did.  The dates of
    [get_global_news] are parsed, shifted and printed by a model of
    [datetime] and [dateutil]; the rounding of [get_stock_data] can fail,
    as that of pandas does on a column that holds text. *)

From Stdlib Require Import String Ascii List ZArith Bool Arith Lia.
From Stdlib Require Import DecimalString.
Import ListNotations.
Local Open Scope list_scope.
Local Open Scope string_scope.

Set Implicit Arguments.

(* ===================================================================== *)
(** * Strings *)
(* ===================================================================== *)

Module Str.

(** The line feed and the double quote, which a string literal cannot
    hold directly. *)
Definition LF : string := String (ascii_of_nat 10) EmptyString.
Definition CR : string := String (ascii_of_nat 13) EmptyString.
Definition DQ : string := String (ascii_of_nat 34) EmptyString.

(** [c.upper()] and [c.lower()] on one ASCII character. *)
Definition upper_ascii (c : ascii) : ascii :=
  let n := nat_of_ascii c in
  if Nat.leb 97 n && Nat.leb n 122 then ascii_of_nat (n - 32) else c.

Definition lower_ascii (c : ascii) : ascii :=
  let n := nat_of_ascii c in
  if Nat.leb 65 n && Nat.leb n 90 then ascii_of_nat (n + 32) else c.

(** [s.upper()], [s.lower()]. *)
Fixpoint upper (s : string) : string :=
  match s with
  | EmptyString => EmptyString
  | String c s' => String (upper_ascii c) (upper s')
  end.

Fixpoint lower (s : string) : string :=
  match s with
  | EmptyString => EmptyString
  | String c s' => String (lower_ascii c) (lower s')
  end.

(** [str(n)] for a non-negative and for an arbitrary integer. *)
Definition of_nat (n : nat) : string := NilZero.string_of_uint (Nat.to_uint n).
Definition of_Z (z : Z) : string := NilZero.string_of_int (Z.to_int z).

(** [s[:n]]. *)
Fixpoint take (n : nat) (s : string) : string :=
  match n, s with
  | S n', String c s' => String c (take n' s')
  | _, _ => EmptyString
  end.

(** [sep.join(ls)]. *)
Definition join (sep : string) (ls : list string) : string := String.concat sep ls.

(** [s2.startswith(s1)]. *)
Fixpoint startswith (s1 s2 : string) : bool :=
  match s1, s2 with
  | EmptyString, _ => true
  | String a s1', String b s2' => Ascii.eqb a b && startswith s1' s2'
  | String _ _, EmptyString => false
  end.

(** [needle in hay], as a proposition and as the test that decides it. *)
Definition occurs (needle hay : string) : Prop :=
  exists pre post, hay = pre ++ needle ++ post.

Fixpoint occursb (needle hay : string) : bool :=
  startswith needle hay ||
  match hay with
  | EmptyString => false
  | String _ hay' => occursb needle hay'
  end.

(** [c in s] for one character. *)
Fixpoint has_char (c : ascii) (s : string) : bool :=
  match s with
  | EmptyString => false
  | String d s' => Ascii.eqb c d || has_char c s'
  end.

(** [s.replace(c, r)] for a one-character pattern. *)
Fixpoint replace_char (c : ascii) (r : string) (s : string) : string :=
  match s with
  | EmptyString => EmptyString
  | String d s' => (if Ascii.eqb c d then r else String d EmptyString) ++ replace_char c r s'
  end.

(** [repr(s)]: the string between quotes, as the [%r] of an error
    message prints it.  Single quotes are used unless the string holds a
    single quote and no double quote; the quote in use and the backslash
    are escaped, as are the control characters. *)
Definition hex_digit (n : nat) : ascii :=
  ascii_of_nat (if Nat.ltb n 10 then 48 + n else 87 + n).

Definition repr_char (quote : ascii) (c : ascii) : string :=
  let n := nat_of_ascii c in
  let backslash := ascii_of_nat 92 in
  let escaped (x : string) := String backslash x in
  if Ascii.eqb c quote || Ascii.eqb c backslash then escaped (String c EmptyString)
  else if Nat.eqb n 9 then escaped "t"
  else if Nat.eqb n 10 then escaped "n"
  else if Nat.eqb n 13 then escaped "r"
  else if Nat.ltb n 32 || Nat.eqb n 127
       then escaped ("x" ++ String (hex_digit (n / 16))
                             (String (hex_digit (n mod 16)) EmptyString))
       else String c EmptyString.

Fixpoint repr_body (quote : ascii) (s : string) : string :=
  match s with
  | EmptyString => EmptyString
  | String c s' => repr_char quote c ++ repr_body quote s'
  end.

Definition repr (s : string) : string :=
  let quote : ascii :=
    if has_char "'"%char s && negb (has_char (ascii_of_nat 34) s)
    then ascii_of_nat 34 else "'"%char in
  String quote (repr_body quote s ++ String quote EmptyString).

End Str.

(* ===================================================================== *)
(** * Python values and exceptions *)
(* ===================================================================== *)

(** The exception classes the module tells apart.  [except Exception]
    catches every class below except [KeyboardInterrupt] and
    [SystemExit], which derive from [BaseException] only;
    [except ImportError] catches [ImportError] and its subclass
    [ModuleNotFoundError]. *)
Inductive exc_class : Type :=
  | KeyboardInterrupt
  | SystemExit
  | ImportError
  | ModuleNotFoundError
  | ValueError
  | IndexError
  | TypeError
  | OverflowError
  | RuntimeError
  | Exception.

(** A raised exception: its class and [str(e)]. *)
Record exc : Type := Exc { exc_cls : exc_class; exc_msg : string }.

Definition isinstance_Exception (e : exc) : bool :=
  match exc_cls e with
  | KeyboardInterrupt | SystemExit => false
  | _ => true
  end.

Definition isinstance_ImportError (e : exc) : bool :=
  match exc_cls e with
  | ImportError | ModuleNotFoundError => true
  | _ => false
  end.

(** The outcome of a Python call: a value, or a raised exception. *)
Inductive result (A : Type) : Type :=
  | Return (a : A)
  | Raise (e : exc).
Arguments Return {A} a.
Arguments Raise {A} e.

(** Argument values passed to the adapters and on to the SDK. *)
Inductive pyarg : Type :=
  | ANone
  | AStr (s : string)
  | AInt (z : Z).

(** Keyword arguments of an SDK call, in insertion order. *)
Definition kwargs : Type := list (string * pyarg).

(** What the adapters ask of a table cell.  The cells of a [DataFrame]
    are pandas values (numbers, strings, missing values); the adapters
    only format them, test them and round them, so they are kept behind
    this interface. *)
Class PyValue (V : Type) : Type := {
  py_str : V -> string;       (* str(v), and {v} inside an f-string *)
  py_truthy : V -> bool;      (* bool(v), as tested by [if v:] *)
  py_is_None : V -> bool;     (* v is None *)
  py_of_str : string -> V;    (* a Python str used as a value *)
  py_round2 : V -> option V;  (* Series.round(2) on one element of a column; None
                                 for a value that makes pandas refuse the column,
                                 such as text *)
  py_round2_error : string;   (* the message of the TypeError pandas raises then;
                                 its wording depends on the version of pandas *)
  csv_text : V -> string      (* the text to_csv writes for v, before quoting *)
}.

(** A small concrete value domain: [None], strings and integers.  An
    integer is its own rounding, a missing value stays missing, and text
    cannot be rounded (the message is the one of recent versions of
    pandas). *)
Inductive pyval : Type :=
  | PNone
  | PStr (s : string)
  | PInt (z : Z).

#[export] Instance PyValue_pyval : PyValue pyval := {
  py_str v := match v with PNone => "None" | PStr s => s | PInt z => Str.of_Z z end;
  py_truthy v :=
    match v with
    | PNone => false
    | PStr s => negb (String.eqb s "")
    | PInt z => negb (Z.eqb z 0)
    end;
  py_is_None v := match v with PNone => true | _ => false end;
  py_of_str := PStr;
  py_round2 v := match v with PStr _ => None | _ => Some v end;
  py_round2_error := "Expected numeric dtype, got object instead.";
  csv_text v := match v with PNone => "" | PStr s => s | PInt z => Str.of_Z z end
}.

(* ===================================================================== *)
(** * pandas tables *)
(* ===================================================================== *)

Module Pandas.

Section Frames.
Context {V : Type} `{PyValue V}.

(** A row as [iterrows] and [iloc] give it: a Series indexed by the
    column names. *)
Definition Series : Type := list (string * V).

(** A table: the name of the index (empty when it has none), the column
    names, and the rows, each with its index label and one cell per
    column. *)
Record DataFrame : Type := {
  index_name : string;
  columns : list string;
  rows : list (V * list V)
}.

(** [len(df)]. *)
Definition len (df : DataFrame) : nat := List.length (rows df).

(** [df.empty]: one of the two axes has length 0. *)
Definition empty (df : DataFrame) : bool :=
  Nat.eqb (List.length (rows df)) 0 || Nat.eqb (List.length (columns df)) 0.

Definition series_of (df : DataFrame) (r : V * list V) : Series :=
  combine (columns df) (snd r).

(** The Series of [for _, row in df.iterrows()]. *)
Definition iterrows (df : DataFrame) : list Series :=
  map (series_of df) (rows df).

(** [df.iloc[0]] and [df.iloc[-1]]; out of range raises IndexError. *)
Definition iloc_first (df : DataFrame) : result Series :=
  match rows df with
  | r :: _ => Return (series_of df r)
  | [] => Raise (Exc IndexError "single positional indexer is out-of-bounds")
  end.

Definition iloc_last (df : DataFrame) : result Series :=
  match List.rev (rows df) with
  | r :: _ => Return (series_of df r)
  | [] => Raise (Exc IndexError "single positional indexer is out-of-bounds")
  end.

(** [row.get(key)]: the value under [key], or None. *)
Fixpoint get (row : Series) (key : string) : option V :=
  match row with
  | [] => None
  | (k, v) :: row' => if String.eqb k key then Some v else get row' key
  end.

(** [row.get(key, default)]. *)
Definition get_default (row : Series) (key : string) (default : V) : V :=
  match get row key with
  | Some v => v
  | None => default
  end.

(** [df.tail(n)]: the last [n] rows. *)
Definition tail (n : nat) (df : DataFrame) : DataFrame :=
  {| index_name := index_name df;
     columns := columns df;
     rows := skipn (List.length (rows df) - n) (rows df) |}.

Fixpoint lookup (m : list (string * string)) (k : string) : option string :=
  match m with
  | [] => None
  | (k', v) :: m' => if String.eqb k' k then Some v else lookup m' k
  end.

(** [df.rename(columns=m, inplace=True)]: a column named by a key of
    [m] takes the mapped name. *)
Definition rename (m : list (string * string)) (df : DataFrame) : DataFrame :=
  {| index_name := index_name df;
     columns := map (fun c => match lookup m c with Some c' => c' | None => c end)
                    (columns df);
     rows := rows df |}.

(** ** Rounding a column

    pandas rounds a column as a whole: a column of numbers, with or
    without missing values, is rounded element by element; a column that
    holds anything else has no numeric type, and [round] raises a
    TypeError.  The model goes cell by cell: the column is rounded when
    each of its cells can be, and the TypeError is raised otherwise. *)

(** The cells of one row with those under the column [col] rounded;
    None when one of them cannot be rounded. *)
Fixpoint round2_cells (col : string) (cols : list string) (cells : list V)
    : option (list V) :=
  match cols, cells with
  | c :: cols', v :: cells' =>
      match (if String.eqb c col then py_round2 v else Some v),
            round2_cells col cols' cells' with
      | Some v', Some rest => Some (v' :: rest)
      | _, _ => None
      end
  | _, _ => Some cells
  end.

Fixpoint round2_rows (col : string) (cols : list string) (rs : list (V * list V))
    : option (list (V * list V)) :=
  match rs with
  | [] => Some []
  | r :: rs' =>
      match round2_cells col cols (snd r), round2_rows col cols rs' with
      | Some cells, Some rest => Some ((fst r, cells) :: rest)
      | _, _ => None
      end
  end.

(** The TypeError pandas raises when it is asked to round a column that
    holds something else than numbers. *)
Definition not_numeric : exc := Exc TypeError py_round2_error.

(** [if col in df.columns: df[col] = df[col].round(2)]: nothing to do
    when no column has that name; a TypeError when the column holds a
    value that cannot be rounded. *)
Definition round2_column (col : string) (df : DataFrame) : result DataFrame :=
  match round2_rows col (columns df) (rows df) with
  | Some rs => Return {| index_name := index_name df; columns := columns df; rows := rs |}
  | None => Raise not_numeric
  end.

(** [for col in cols: if col in df.columns: df[col] = df[col].round(2)];
    the first column that cannot be rounded ends the loop. *)
Fixpoint round2_columns (cols : list string) (df : DataFrame) : result DataFrame :=
  match cols with
  | [] => Return df
  | col :: cols' =>
      match round2_column col df with
      | Return df' => round2_columns cols' df'
      | Raise e => Raise e
      end
  end.

(** [df[col].iloc[-1]]: the cell of the last row under [col]. *)
Definition column_last (df : DataFrame) (col : string) : result V :=
  match iloc_last df with
  | Return row =>
      match get row col with
      | Some v => Return v
      | None => Raise (Exc IndexError col)
      end
  | Raise e => Raise e
  end.

(** ** [to_csv]

    [df.to_csv()] with its defaults: a header line with the index name
    and the column names, then one line per row with the index label and
    the cells; fields separated by commas, lines ended by a line feed,
    and the [csv] module's minimal quoting: a field holding a comma, a
    double quote or a line break is enclosed in double quotes, with every
    double quote inside written twice.  (Which characters make [csv]
    quote a field has varied a little between Python versions; the facts
    proved below only rest on a field without a double quote being
    written unchanged, bare or between quotes.)  The adapters only reach
    [to_csv] on tables with at least one column, so every line has at
    least two fields. *)
Definition needs_quote (s : string) : bool :=
  Str.has_char "," s || Str.has_char (ascii_of_nat 34) s ||
  Str.has_char (ascii_of_nat 10) s || Str.has_char (ascii_of_nat 13) s.

Definition csv_quote (s : string) : string :=
  if needs_quote s
  then Str.DQ ++ Str.replace_char (ascii_of_nat 34) (Str.DQ ++ Str.DQ) s ++ Str.DQ
  else s.

Definition csv_line (fields : list string) : string :=
  Str.join "," (map csv_quote fields) ++ Str.LF.

Definition csv_row (r : V * list V) : string :=
  csv_line (csv_text (fst r) :: map csv_text (snd r)).

Definition to_csv (df : DataFrame) : string :=
  csv_line (index_name df :: columns df) ++ String.concat "" (map csv_row (rows df)).

End Frames.

Arguments Series V : clear implicits.
Arguments DataFrame V : clear implicits.

End Pandas.

(* ===================================================================== *)
(** * Calendar dates *)
(* ===================================================================== *)

(** What [get_global_news] asks of [datetime] and [dateutil]: parsing a
    date with [strptime(s, "%Y-%m-%d")], going back a number of days, and
    printing the result with [strftime("%Y-%m-%d")].  Only the date part
    of the [datetime] matters, the time of day staying at midnight. *)
Module Dates.

Local Open Scope Z_scope.

(** A date of the proleptic Gregorian calendar. *)
Record date : Type := { year : Z; month : Z; day : Z }.

Definition is_leap (y : Z) : bool :=
  (y mod 4 =? 0) && (negb (y mod 100 =? 0) || (y mod 400 =? 0)).

Definition days_in_month (y m : Z) : Z :=
  if m =? 2 then (if is_leap y then 29 else 28)
  else if (m =? 4) || (m =? 6) || (m =? 9) || (m =? 11) then 30
  else 31.

(** A month and a day that exist, in any year. *)
Definition well_formed (d : date) : Prop :=
  1 <= month d <= 12 /\ 1 <= day d <= days_in_month (year d) (month d).

(** A date [datetime] can hold: the years 1 to 9999. *)
Definition valid (d : date) : Prop :=
  1 <= year d <= 9999 /\ well_formed d.

(** [datetime(y, m, d)], with the checks of the constructor in their
    order. *)
Definition make (y m d : Z) : result date :=
  if (y <? 1) || (9999 <? y)
  then Raise (Exc ValueError ("year " ++ Str.of_Z y ++ " is out of range"))
  else if (m <? 1) || (12 <? m)
  then Raise (Exc ValueError "month must be in 1..12")
  else if (d <? 1) || (days_in_month y m <? d)
  then Raise (Exc ValueError "day is out of range for month")
  else Return {| year := y; month := m; day := d |}.

(** ** [strptime]

    The format "%Y-%m-%d" is matched as the regular expression
    [(?P<Y>\d\d\d\d)-(?P<m>1[0-2]|0[1-9]|[1-9])-(?P<d>3[01]|[12]\d|0[1-9]|[1-9]| [1-9])]
    at the start of the string: the alternatives of a group are tried in
    their order, and the first way through wins.  (Digits are the ASCII
    ones here.) *)
Definition digit (c : ascii) : option Z :=
  let n := nat_of_ascii c in
  if Nat.leb 48 n && Nat.leb n 57 then Some (Z.of_nat (n - 48)) else None.

(** A digit between [lo] and [hi] at the head of the string. *)
Definition digit_in (lo hi : Z) (s : string) : option (Z * string) :=
  match s with
  | String c rest =>
      match digit c with
      | Some n => if (lo <=? n) && (n <=? hi) then Some (n, rest) else None
      | None => None
      end
  | EmptyString => None
  end.

(** Two digits, the first within [lo1..hi1] and the second within
    [lo2..hi2], read as a number. *)
Definition two_digits (lo1 hi1 lo2 hi2 : Z) (s : string) : list (Z * string) :=
  match digit_in lo1 hi1 s with
  | Some (a, rest) =>
      match digit_in lo2 hi2 rest with
      | Some (b, rest') => [(10 * a + b, rest')]
      | None => []
      end
  | None => []
  end.

Definition one_digit (lo hi : Z) (s : string) : list (Z * string) :=
  match digit_in lo hi s with
  | Some (a, rest) => [(a, rest)]
  | None => []
  end.

(** A given character at the head of the string. *)
Definition literal (c : ascii) (s : string) : option string :=
  match s with
  | String c' rest => if Ascii.eqb c c' then Some rest else None
  | EmptyString => None
  end.

(** [(?P<Y>\d\d\d\d)]. *)
Definition group_Y (s : string) : option (Z * string) :=
  match digit_in 0 9 s with
  | Some (a, s1) =>
      match digit_in 0 9 s1 with
      | Some (b, s2) =>
          match digit_in 0 9 s2 with
          | Some (c, s3) =>
              match digit_in 0 9 s3 with
              | Some (d, s4) => Some (1000 * a + 100 * b + 10 * c + d, s4)
              | None => None
              end
          | None => None
          end
      | None => None
      end
  | None => None
  end.

(** The ways through [(?P<m>1[0-2]|0[1-9]|[1-9])], in order. *)
Definition group_m (s : string) : list (Z * string) :=
  (two_digits 1 1 0 2 s ++ two_digits 0 0 1 9 s ++ one_digit 1 9 s)%list.

(** The ways through [(?P<d>3[01]|[12]\d|0[1-9]|[1-9]| [1-9])], in order. *)
Definition group_d (s : string) : list (Z * string) :=
  (two_digits 3 3 0 1 s ++ two_digits 1 2 0 9 s ++ two_digits 0 0 1 9 s ++
   one_digit 1 9 s ++
   match literal " " s with
   | Some rest => one_digit 1 9 rest
   | None => []
   end)%list.

(** The first element of a list on which [f] gives something. *)
Fixpoint first_of {A B : Type} (f : A -> option B) (l : list A) : option B :=
  match l with
  | [] => None
  | x :: l' =>
      match f x with
      | Some b => Some b
      | None => first_of f l'
      end
  end.

(** The match of the whole expression: year, month, day, and what is
    left of the string. *)
Definition regex_match (s : string) : option (Z * Z * Z * string) :=
  match group_Y s with
  | Some (y, s1) =>
      match literal "-" s1 with
      | Some s2 =>
          first_of
            (fun ms =>
               match literal "-" (snd ms) with
               | Some s3 =>
                   match group_d s3 with
                   | (d, rest) :: _ => Some (y, fst ms, d, rest)
                   | [] => None
                   end
               | None => None
               end)
            (group_m s2)
      | None => None
      end
  | None => None
  end.

(** [datetime.strptime(s, "%Y-%m-%d")]: a ValueError when the string
    does not match, when something is left after the match, or when the
    numbers are not a date. *)
Definition strptime (s : string) : result date :=
  match regex_match s with
  | None =>
      Raise (Exc ValueError
               ("time data " ++ Str.repr s ++ " does not match format '%Y-%m-%d'"))
  | Some (y, m, d, rest) =>
      match rest with
      | EmptyString => make y m d
      | _ => Raise (Exc ValueError ("unconverted data remains: " ++ rest))
      end
  end.

(** ** Counting days

    [date.toordinal()]: the number of the day, 1 being January 1 of
    year 1; this is how [datetime] adds days to a date. *)
Definition days_before_year (y : Z) : Z :=
  365 * (y - 1) + (y - 1) / 4 - (y - 1) / 100 + (y - 1) / 400.

Definition days_before_month (y m : Z) : Z :=
  match m with
  | 1 => 0 | 2 => 31 | 3 => 59 | 4 => 90 | 5 => 120 | 6 => 151
  | 7 => 181 | 8 => 212 | 9 => 243 | 10 => 273 | 11 => 304 | _ => 334
  end + (if (2 <? m) && is_leap y then 1 else 0).

Definition toordinal (d : date) : Z :=
  days_before_year (year d) + days_before_month (year d) (month d) + day d.

(** ** Going back and forth by days *)

Definition next_day (d : date) : date :=
  if day d <? days_in_month (year d) (month d)
  then {| year := year d; month := month d; day := day d + 1 |}
  else if month d <? 12
  then {| year := year d; month := month d + 1; day := 1 |}
  else {| year := year d + 1; month := 1; day := 1 |}.

Definition prev_day (d : date) : date :=
  if 1 <? day d
  then {| year := year d; month := month d; day := day d - 1 |}
  else if 1 <? month d
  then {| year := year d; month := month d - 1;
          day := days_in_month (year d) (month d - 1) |}
  else {| year := year d - 1; month := 12; day := 31 |}.

(** The last day [datetime] can hold, December 31 of year 9999. *)
Definition max_ordinal : Z := 3652059.

(** [d + timedelta(days=k)]: an OverflowError when [k] is no C int, when
    it is beyond what a timedelta holds, or when the day it leads to is
    not one of the days 1 to [max_ordinal]; otherwise the date that many
    days after [d], or before it. *)
Definition plus_days (d : date) (k : Z) : result date :=
  if (k <? -2147483648) || (2147483647 <? k)
  then Raise (Exc OverflowError "Python int too large to convert to C int")
  else if 999999999 <? Z.abs k
  then Raise (Exc OverflowError
                ("days=" ++ Str.of_Z k ++ "; must have magnitude <= 999999999"))
  else if (toordinal d + k <? 1) || (max_ordinal <? toordinal d + k)
  then Raise (Exc OverflowError "date value out of range")
  else if 0 <=? k then Return (Nat.iter (Z.to_nat k) next_day d)
  else Return (Nat.iter (Z.to_nat (- k)) prev_day d).

(** [d - relativedelta(days=n)], which dateutil computes as
    [d + timedelta(days=-n)]. *)
Definition minus_relativedelta_days (d : date) (n : Z) : result date :=
  plus_days d (- n).

(** ** [strftime]

    [strftime("%Y-%m-%d")]: month and day on two digits; the year as the
    C library prints it, which is on four digits from the year 1000 on
    and is left to [small_year] below (glibc prints such a year bare,
    other libraries pad it with zeros). *)
Definition two (n : Z) : string :=
  if n <? 10 then "0" ++ Str.of_Z n else Str.of_Z n.

Definition strftime (small_year : Z -> string) (d : date) : string :=
  (if 1000 <=? year d then Str.of_Z (year d) else small_year (year d)) ++
  "-" ++ two (month d) ++ "-" ++ two (day d).

End Dates.

(* ===================================================================== *)
(** * The effects of the provider module *)
(* ===================================================================== *)

(** The SDK endpoints the module calls, named by their attribute path
    under [obb]. *)
Inductive endpoint : Type :=
  | equity_price_historical
  | equity_profile
  | equity_fundamental_metrics
  | equity_fundamental_balance
  | equity_fundamental_cash
  | equity_fundamental_income
  | equity_fundamental_filings
  | equity_ownership_insider_trading
  | news_company
  | news_world
  | economy_fred_series.

Inductive loglevel : Type := INFO | WARNING.

(** What the module does to the world around it, in the order it does it. *)
Inductive event : Type :=
  | EvImport                                 (* from openbb import obb *)
  | EvGetenv (name : string)                 (* os.getenv(name) *)
  | EvSetFredApiKey (key : string)           (* obb.user.credentials.fred_api_key = key *)
  | EvLog (lvl : loglevel) (msg : string)    (* logger.info / logger.warning *)
  | EvCall (ep : endpoint) (kw : kwargs)     (* obb.<ep> called with keywords kw *)
  | EvInvoke (method vendor : string).       (* the router invokes a vendor's implementation *)

Module Effects.

Section Monad.
Context {V : Type}.

(** The SDK object.  What an endpoint answers (the table of
    [result.to_dataframe()], or an exception) may depend on everything
    that happened before, so that stateful and mocked SDKs are covered. *)
Record Obb : Type := {
  obb_id : nat;
  obb_call : list event -> endpoint -> kwargs -> result (Pandas.DataFrame V)
}.

(** The surroundings of a call: whether the SDK package can be imported,
    the process environment, the clock as
    [datetime.now().strftime('%Y-%m-%d %H:%M:%S')] prints it, the way the
    C library's [strftime] prints a year below 1000 under [%Y], and the
    stockstats implementation of the sibling module [y_finance]. *)
Record World : Type := {
  import_openbb : result Obb;
  environ : string -> option string;
  now : string;
  strftime_small_year : Z -> string;
  get_stock_stats_indicators_window : string -> string -> string -> Z -> result string
}.

(** The start of the window of [get_global_news], as the function
    computes it:
    [curr_dt = datetime.strptime(curr_date, "%Y-%m-%d")],
    [start_dt = curr_dt - relativedelta(days=look_back_days)],
    [start_date = start_dt.strftime("%Y-%m-%d")]. *)
Definition days_before (w : World) (curr_date : string) (look_back_days : Z)
    : result string :=
  match Dates.strptime curr_date with
  | Return curr_dt =>
      match Dates.minus_relativedelta_days curr_dt look_back_days with
      | Return start_dt => Return (Dates.strftime (strftime_small_year w) start_dt)
      | Raise e => Raise e
      end
  | Raise e => Raise e
  end.

(** The module's global [_obb] and the trace of effects so far. *)
Record State : Type := {
  _obb : option Obb;
  trace : list event
}.

Definition M (A : Type) : Type := State -> result A * State.

Definition ret {A : Type} (a : A) : M A := fun st => (Return a, st).

Definition bind {A B : Type} (c : M A) (k : A -> M B) : M B :=
  fun st =>
    match c st with
    | (Return a, st') => k a st'
    | (Raise e, st') => (Raise e, st')
    end.

Definition raise {A : Type} (e : exc) : M A := fun st => (Raise e, st).

Definition lift {A : Type} (r : result A) : M A := fun st => (r, st).

(** [try: body / except <class> as e: handler e]: exceptions the clause
    does not match keep propagating. *)
Definition try_except {A : Type} (body : M A) (catches : exc -> bool)
    (handler : exc -> M A) : M A :=
  fun st =>
    match body st with
    | (Return a, st') => (Return a, st')
    | (Raise e, st') => if catches e then handler e st' else (Raise e, st')
    end.

Definition emit (ev : event) : M unit :=
  fun st => (Return tt, {| _obb := _obb st; trace := (trace st ++ [ev])%list |}).

Definition read_obb : M (option Obb) := fun st => (Return (_obb st), st).

Definition write_obb (o : option Obb) : M unit :=
  fun st => (Return tt, {| _obb := o; trace := trace st |}).

Definition logger_info (msg : string) : M unit := emit (EvLog INFO msg).
Definition logger_warning (msg : string) : M unit := emit (EvLog WARNING msg).

(** [os.getenv(name)]. *)
Definition os_getenv (w : World) (name : string) : M (option string) :=
  fun st =>
    (Return (environ w name), {| _obb := _obb st; trace := (trace st ++ [EvGetenv name])%list |}).

(** The endpoint [ep] of [obb] called with the keywords [kw], followed
    by [to_dataframe()]: the call is recorded, and answered from the
    history before it. *)
Definition call (obb : Obb) (ep : endpoint) (kw : kwargs) : M (Pandas.DataFrame V) :=
  fun st =>
    (obb_call obb (trace st) ep kw,
     {| _obb := _obb st; trace := (trace st ++ [EvCall ep kw])%list |}).

(** A computation that leaves the global [_obb] as it found it. *)
Definition keeps_obb {A : Type} (m : M A) : Prop :=
  forall st r st', m st = (r, st') -> _obb st' = _obb st.

(** Run a loop body over a list, concatenating what each round appends. *)
Fixpoint for_each {X : Type} (xs : list X) (body : X -> M (list string)) : M (list string) :=
  match xs with
  | [] => ret []
  | x :: xs' =>
      bind (body x) (fun l => bind (for_each xs' body) (fun ls => ret (l ++ ls)%list))
  end.

End Monad.

Arguments Obb V : clear implicits.
Arguments World V : clear implicits.
Arguments State V : clear implicits.
Arguments M V A : clear implicits.

End Effects.

Declare Scope py_scope.
Delimit Scope py_scope with py.
Notation "x <- c ;; k" := (Effects.bind c (fun x => k))
  (at level 61, c at next level, right associativity) : py_scope.
Notation "c ;;; k" := (Effects.bind c (fun _ => k))
  (at level 61, right associativity) : py_scope.

(* ===================================================================== *)
(** * [tradingagents/dataflows/openbb_provider.py] *)
(* ===================================================================== *)

Module openbb_provider.

Import Effects.
Local Open Scope py_scope.

Section Adapters.
Context {V : Type} `{PyValue V}.
Variable w : World V.

(** [if x:] on an optional string: neither None nor empty. *)
Definition truthy (x : option string) : bool :=
  match x with
  | Some s => negb (String.eqb s "")
  | None => false
  end.

(** ** The lazy singleton *)

Definition not_installed : string :=
  "openbb is not installed. Install with: pip install 'openbb[yfinance,sec,fred]'".

Definition _get_obb : M V (Obb V) :=
  cur <- read_obb ;;
  match cur with
  | Some obb => ret obb
  | None =>
      try_except
        (emit EvImport ;;;
         obb <- lift (import_openbb w) ;;
         k1 <- os_getenv w "FRED_API_KEY" ;;
         fred_key <- (if truthy k1 then ret k1 else os_getenv w "OPENBB_FRED_API_KEY") ;;
         match fred_key with
         | Some key => if truthy fred_key then emit (EvSetFredApiKey key) else ret tt
         | None => ret tt
         end ;;;
         write_obb (Some obb) ;;;
         logger_info "OpenBB SDK initialized successfully" ;;;
         ret obb)
        isinstance_ImportError
        (fun _ => raise (Exc ImportError not_installed))
  end.

(** The timestamp line every header ends with. *)
Definition retrieved_on : string :=
  "# Data retrieved on: " ++ now w ++ Str.LF ++ Str.LF.

(** ** Core stock data *)

Definition col_map : list (string * string) :=
  [("open", "Open"); ("high", "High"); ("low", "Low"); ("close", "Close");
   ("volume", "Volume")].

Definition numeric_cols : list string := ["Open"; "High"; "Low"; "Close"].

Definition get_stock_data (symbol start_date end_date : string) : M V string :=
  obb <- _get_obb ;;
  try_except
    (df <- call obb equity_price_historical
             [("symbol", AStr (Str.upper symbol)); ("start_date", AStr start_date);
              ("end_date", AStr end_date); ("provider", AStr "yfinance")] ;;
     if Pandas.empty df then
       ret ("No data found for symbol '" ++ symbol ++ "' " ++
            "between " ++ start_date ++ " and " ++ end_date)
     else
       let df := Pandas.rename col_map df in
       df <- lift (Pandas.round2_columns numeric_cols df) ;;
       let csv_string := Pandas.to_csv df in
       let header :=
         "# Stock data for " ++ Str.upper symbol ++ " from " ++ start_date ++
           " to " ++ end_date ++ Str.LF ++
         "# Total records: " ++ Str.of_nat (Pandas.len df) ++ Str.LF ++
         "# Source: OpenBB (yfinance provider)" ++ Str.LF ++
         retrieved_on in
       ret (header ++ csv_string))
    isinstance_Exception
    (fun e =>
       logger_warning ("OpenBB get_stock_data failed for " ++ symbol ++ ": " ++ exc_msg e) ;;;
       ret ("Error fetching stock data for " ++ symbol ++ ": " ++ exc_msg e)).

(** ** Technical indicators: delegated to the stockstats implementation. *)

Definition get_indicators (symbol indicator curr_date : string) (look_back_days : Z)
    : M V string :=
  lift (get_stock_stats_indicators_window w symbol indicator curr_date look_back_days).

(** ** Fundamentals *)

Definition field_map : list (string * string) :=
  [("name", "Name"); ("sector", "Sector"); ("industry", "Industry");
   ("market_cap", "Market Cap"); ("beta", "Beta")].

Definition metric_fields : list (string * string) :=
  [("pe_ratio", "PE Ratio (TTM)"); ("forward_pe", "Forward PE");
   ("peg_ratio", "PEG Ratio"); ("eps_ttm", "EPS (TTM)");
   ("dividend_yield", "Dividend Yield"); ("return_on_equity", "Return on Equity");
   ("debt_to_equity", "Debt to Equity"); ("current_ratio", "Current Ratio");
   ("revenue_per_share_ttm", "Revenue Per Share (TTM)");
   ("price_to_book", "Price to Book")].

(** The loop [for src, label in fields.items()] over one row. *)
Definition field_lines (fields : list (string * string)) (row : Pandas.Series V)
    : list string :=
  flat_map
    (fun sl =>
       match Pandas.get row (fst sl) with
       | Some val =>
           if negb (py_is_None val) && negb (String.eqb (py_str val) "nan")
           then [snd sl ++ ": " ++ py_str val]
           else []
       | None => []
       end)
    fields.

Definition get_fundamentals (ticker : string) (curr_date : option string) : M V string :=
  obb <- _get_obb ;;
  try_except
    (profile_df <- call obb equity_profile
                     [("symbol", AStr (Str.upper ticker)); ("provider", AStr "yfinance")] ;;
     if Pandas.empty profile_df then
       ret ("No fundamentals data found for symbol '" ++ ticker ++ "'")
     else
       row <- lift (Pandas.iloc_first profile_df) ;;
       let lines := field_lines field_map row in
       more <- try_except
                 (metrics_df <- call obb equity_fundamental_metrics
                                  [("symbol", AStr (Str.upper ticker));
                                   ("provider", AStr "yfinance")] ;;
                  if negb (Pandas.empty metrics_df) then
                    m <- lift (Pandas.iloc_first metrics_df) ;;
                    ret (field_lines metric_fields m)
                  else ret [])
                 isinstance_Exception
                 (fun _ => ret []) ;;
       let header :=
         "# Company Fundamentals for " ++ Str.upper ticker ++ Str.LF ++
         "# Source: OpenBB" ++ Str.LF ++
         retrieved_on in
       ret (header ++ Str.join Str.LF (lines ++ more)%list))
    isinstance_Exception
    (fun e =>
       logger_warning ("OpenBB get_fundamentals failed for " ++ ticker ++ ": " ++ exc_msg e) ;;;
       ret ("Error retrieving fundamentals for " ++ ticker ++ ": " ++ exc_msg e)).

(** [period = "quarter" if freq.lower() == "quarterly" else "annual"]. *)
Definition period_of (freq : string) : string :=
  if String.eqb (Str.lower freq) "quarterly" then "quarter" else "annual".

Definition get_balance_sheet (ticker freq : string) (curr_date : option string)
    : M V string :=
  obb <- _get_obb ;;
  try_except
    (let period := period_of freq in
     df <- call obb equity_fundamental_balance
             [("symbol", AStr (Str.upper ticker)); ("period", AStr period);
              ("provider", AStr "yfinance"); ("limit", AInt 8)] ;;
     if Pandas.empty df then
       ret ("No balance sheet data found for symbol '" ++ ticker ++ "'")
     else
       let csv_string := Pandas.to_csv df in
       let header :=
         "# Balance Sheet data for " ++ Str.upper ticker ++ " (" ++ freq ++ ")" ++ Str.LF ++
         "# Source: OpenBB" ++ Str.LF ++
         retrieved_on in
       ret (header ++ csv_string))
    isinstance_Exception
    (fun e =>
       logger_warning ("OpenBB get_balance_sheet failed for " ++ ticker ++ ": " ++ exc_msg e) ;;;
       ret ("Error retrieving balance sheet for " ++ ticker ++ ": " ++ exc_msg e)).

Definition get_cashflow (ticker freq : string) (curr_date : option string)
    : M V string :=
  obb <- _get_obb ;;
  try_except
    (let period := period_of freq in
     df <- call obb equity_fundamental_cash
             [("symbol", AStr (Str.upper ticker)); ("period", AStr period);
              ("provider", AStr "yfinance"); ("limit", AInt 8)] ;;
     if Pandas.empty df then
       ret ("No cash flow data found for symbol '" ++ ticker ++ "'")
     else
       let csv_string := Pandas.to_csv df in
       let header :=
         "# Cash Flow data for " ++ Str.upper ticker ++ " (" ++ freq ++ ")" ++ Str.LF ++
         "# Source: OpenBB" ++ Str.LF ++
         retrieved_on in
       ret (header ++ csv_string))
    isinstance_Exception
    (fun e =>
       logger_warning ("OpenBB get_cashflow failed for " ++ ticker ++ ": " ++ exc_msg e) ;;;
       ret ("Error retrieving cash flow for " ++ ticker ++ ": " ++ exc_msg e)).

Definition get_income_statement (ticker freq : string) (curr_date : option string)
    : M V string :=
  obb <- _get_obb ;;
  try_except
    (let period := period_of freq in
     df <- call obb equity_fundamental_income
             [("symbol", AStr (Str.upper ticker)); ("period", AStr period);
              ("provider", AStr "yfinance"); ("limit", AInt 8)] ;;
     if Pandas.empty df then
       ret ("No income statement data found for symbol '" ++ ticker ++ "'")
     else
       let csv_string := Pandas.to_csv df in
       let header :=
         "# Income Statement data for " ++ Str.upper ticker ++ " (" ++ freq ++ ")" ++ Str.LF ++
         "# Source: OpenBB" ++ Str.LF ++
         retrieved_on in
       ret (header ++ csv_string))
    isinstance_Exception
    (fun e =>
       logger_warning
         ("OpenBB get_income_statement failed for " ++ ticker ++ ": " ++ exc_msg e) ;;;
       ret ("Error retrieving income statement for " ++ ticker ++ ": " ++ exc_msg e)).

Definition get_insider_transactions (ticker : string) : M V string :=
  obb <- _get_obb ;;
  try_except
    (df <- call obb equity_ownership_insider_trading
             [("symbol", AStr (Str.upper ticker)); ("provider", AStr "sec");
              ("limit", AInt 50)] ;;
     if Pandas.empty df then
       ret ("No insider transactions data found for symbol '" ++ ticker ++ "'")
     else
       let csv_string := Pandas.to_csv df in
       let header :=
         "# Insider Transactions data for " ++ Str.upper ticker ++ Str.LF ++
         "# Source: OpenBB (SEC)" ++ Str.LF ++
         retrieved_on in
       ret (header ++ csv_string))
    isinstance_Exception
    (fun e =>
       logger_warning
         ("OpenBB get_insider_transactions failed for " ++ ticker ++ ": " ++ exc_msg e) ;;;
       ret ("Error retrieving insider transactions for " ++ ticker ++ ": " ++ exc_msg e)).

(** ** News *)

(** One round of the loop of [get_news]: the text it appends for a row. *)
Definition news_item (row : Pandas.Series V) : string :=
  let title := Pandas.get_default row "title" (py_of_str "No title") in
  let source :=
    Pandas.get_default row "source"
      (Pandas.get_default row "publisher" (py_of_str "Unknown")) in
  let url := Pandas.get_default row "url" (Pandas.get_default row "link" (py_of_str "")) in
  let summary :=
    Pandas.get_default row "text" (Pandas.get_default row "summary" (py_of_str "")) in
  "### " ++ py_str title ++ " (source: " ++ py_str source ++ ")" ++ Str.LF ++
  (if py_truthy summary then Str.take 500 (py_str summary) ++ Str.LF else "") ++
  (if py_truthy url then "Link: " ++ py_str url ++ Str.LF else "") ++
  Str.LF.

Definition get_news (ticker start_date end_date : string) : M V string :=
  obb <- _get_obb ;;
  try_except
    (df <- call obb news_company
             [("symbol", AStr (Str.upper ticker)); ("start_date", AStr start_date);
              ("end_date", AStr end_date); ("provider", AStr "yfinance");
              ("limit", AInt 20)] ;;
     if Pandas.empty df then
       ret ("No news found for " ++ ticker ++ " between " ++ start_date ++
            " and " ++ end_date)
     else
       let news_str := String.concat "" (map news_item (Pandas.iterrows df)) in
       ret ("## " ++ ticker ++ " News, from " ++ start_date ++ " to " ++ end_date ++
            ":" ++ Str.LF ++ Str.LF ++ news_str))
    isinstance_Exception
    (fun e =>
       logger_warning ("OpenBB get_news failed for " ++ ticker ++ ": " ++ exc_msg e) ;;;
       ret ("Error fetching news for " ++ ticker ++ ": " ++ exc_msg e)).

(** One round of the loop of [get_global_news]. *)
Definition global_news_item (row : Pandas.Series V) : string :=
  let title := Pandas.get_default row "title" (py_of_str "No title") in
  let source :=
    Pandas.get_default row "source"
      (Pandas.get_default row "publisher" (py_of_str "Unknown")) in
  let url := Pandas.get_default row "url" (Pandas.get_default row "link" (py_of_str "")) in
  "### " ++ py_str title ++ " (source: " ++ py_str source ++ ")" ++ Str.LF ++
  (if py_truthy url then "Link: " ++ py_str url ++ Str.LF else "") ++
  Str.LF.

(** [look_back_days] defaults to 7 and [limit] to 10. *)
Definition get_global_news (curr_date : string) (look_back_days limit : Z) : M V string :=
  obb <- _get_obb ;;
  try_except
    (start_date <- lift (days_before w curr_date look_back_days) ;;
     df <- call obb news_world
             [("start_date", AStr start_date); ("end_date", AStr curr_date);
              ("provider", AStr "yfinance"); ("limit", AInt limit)] ;;
     if Pandas.empty df then
       ret ("No global news found for " ++ curr_date)
     else
       let news_str := String.concat "" (map global_news_item (Pandas.iterrows df)) in
       ret ("## Global Market News, from " ++ start_date ++ " to " ++ curr_date ++
            ":" ++ Str.LF ++ Str.LF ++ news_str))
    isinstance_Exception
    (fun e =>
       logger_warning ("OpenBB get_global_news failed: " ++ exc_msg e) ;;;
       ret ("Error fetching global news: " ++ exc_msg e)).

(** ** SEC filings and FRED series *)

(** One round of the loop of [get_sec_filings]: the lines it appends. *)
Definition filing_lines (filing_type : string) (row : Pandas.Series V) : list string :=
  let date :=
    Pandas.get_default row "filing_date"
      (Pandas.get_default row "date" (py_of_str "Unknown")) in
  let url := Pandas.get_default row "link" (Pandas.get_default row "url" (py_of_str "")) in
  let desc :=
    Pandas.get_default row "description"
      (Pandas.get_default row "title" (py_of_str filing_type)) in
  ("- [" ++ py_str date ++ "] " ++ py_str desc) ::
  (if py_truthy url then ["  URL: " ++ py_str url] else []).

(** [filing_type] defaults to "10-K" and [limit] to 5. *)
Definition get_sec_filings (ticker filing_type : string) (limit : Z) : M V string :=
  obb <- _get_obb ;;
  try_except
    (df <- call obb equity_fundamental_filings
             [("symbol", AStr (Str.upper ticker)); ("type", AStr filing_type);
              ("provider", AStr "sec"); ("limit", AInt limit)] ;;
     if Pandas.empty df then
       ret ("No " ++ filing_type ++ " filings found for " ++ ticker)
     else
       let lines := flat_map (filing_lines filing_type) (Pandas.iterrows df) in
       let header :=
         "# SEC " ++ filing_type ++ " Filings for " ++ Str.upper ticker ++ Str.LF ++
         "# Source: OpenBB (SEC)" ++ Str.LF ++
         retrieved_on in
       ret (header ++ Str.join Str.LF lines))
    isinstance_Exception
    (fun e =>
       logger_warning ("OpenBB get_sec_filings failed for " ++ ticker ++ ": " ++ exc_msg e) ;;;
       ret ("Error retrieving SEC filings for " ++ ticker ++ ": " ++ exc_msg e)).

(** The keyword dictionary of [get_economic_indicators]: a date is added
    only when it is neither None nor empty. *)
Definition fred_kwargs (indicator : string) (start_date end_date : option string) : kwargs :=
  ([("symbol", AStr indicator); ("provider", AStr "fred")] ++
   match start_date with
   | Some d => if truthy start_date then [("start_date", AStr d)] else []
   | None => []
   end ++
   match end_date with
   | Some d => if truthy end_date then [("end_date", AStr d)] else []
   | None => []
   end)%list.

Definition get_economic_indicators (indicator : string)
    (start_date end_date : option string) : M V string :=
  obb <- _get_obb ;;
  try_except
    (let kwargs := fred_kwargs indicator start_date end_date in
     df <- call obb economy_fred_series kwargs ;;
     if Pandas.empty df then
       ret ("No data found for FRED series '" ++ indicator ++ "'")
     else
       let recent := Pandas.tail 20 df in
       let csv_string := Pandas.to_csv recent in
       let header :=
         "# FRED Economic Data: " ++ indicator ++ Str.LF ++
         "# Source: OpenBB (FRED)" ++ Str.LF ++
         "# Showing last " ++ Str.of_nat (Pandas.len recent) ++ " data points" ++ Str.LF ++
         retrieved_on in
       ret (header ++ csv_string))
    isinstance_Exception
    (fun e =>
       logger_warning
         ("OpenBB get_economic_indicators failed for " ++ indicator ++ ": " ++ exc_msg e) ;;;
       ret ("Error retrieving FRED data for " ++ indicator ++ ": " ++ exc_msg e)).

(** ** Market overview *)

Definition indices : list string := ["^GSPC"; "^DJI"; "^IXIC"; "^VIX"].

Definition index_names : list (string * string) :=
  [("^GSPC", "S&P 500"); ("^DJI", "Dow Jones"); ("^IXIC", "NASDAQ"); ("^VIX", "VIX")].

Definition fred_series : list (string * string) :=
  [("FEDFUNDS", "Fed Funds Rate"); ("DGS10", "10Y Treasury");
   ("UNRATE", "Unemployment Rate")].

(** One round of the loop over the indices; a failure is passed over. *)
Definition index_section (obb : Obb V) (idx : string) : M V (list string) :=
  try_except
    (df <- call obb equity_price_historical
             [("symbol", AStr idx); ("provider", AStr "yfinance"); ("limit", AInt 5)] ;;
     if negb (Pandas.empty df) then
       latest <- lift (Pandas.iloc_last df) ;;
       let name := match Pandas.lookup index_names idx with Some n => n | None => idx end in
       let close := Pandas.get_default latest "close" (py_of_str "N/A") in
       ret [name ++ ": " ++ py_str close]
     else ret [])
    isinstance_Exception
    (fun _ => ret []).

(** One round of the loop over the FRED series. *)
Definition fred_section (obb : Obb V) (sl : string * string) : M V (list string) :=
  try_except
    (df <- call obb economy_fred_series
             [("symbol", AStr (fst sl)); ("provider", AStr "fred")] ;;
     if negb (Pandas.empty df) then
       let data_cols := filter (fun c => negb (String.eqb c "date")) (Pandas.columns df) in
       match data_cols with
       | c :: _ =>
           val <- lift (Pandas.column_last df c) ;;
           ret [snd sl ++ ": " ++ py_str val]
       | [] => ret []
       end
     else ret [])
    isinstance_Exception
    (fun _ => ret []).

Definition get_market_overview : M V string :=
  obb <- _get_obb ;;
  s1 <- for_each indices (index_section obb) ;;
  s2 <- for_each fred_series (fred_section obb) ;;
  let sections := (s1 ++ s2)%list in
  match sections with
  | [] => ret "Unable to retrieve market overview data"
  | _ =>
      let header :=
        "# Market Overview" ++ Str.LF ++
        "# Source: OpenBB" ++ Str.LF ++
        retrieved_on in
      ret (header ++ Str.join Str.LF sections)
  end.

End Adapters.

End openbb_provider.

(* ===================================================================== *)
(** * The adapters as one family *)
(* ===================================================================== *)

Module Adapter.

Import Effects.

(** A call of one of the public functions of the provider module, with
    its arguments. *)
Inductive call : Type :=
  | GetStockData (symbol start_date end_date : string)
  | GetIndicators (symbol indicator curr_date : string) (look_back_days : Z)
  | GetFundamentals (ticker : string) (curr_date : option string)
  | GetBalanceSheet (ticker freq : string) (curr_date : option string)
  | GetCashflow (ticker freq : string) (curr_date : option string)
  | GetIncomeStatement (ticker freq : string) (curr_date : option string)
  | GetInsiderTransactions (ticker : string)
  | GetNews (ticker start_date end_date : string)
  | GetGlobalNews (curr_date : string) (look_back_days limit : Z)
  | GetSecFilings (ticker filing_type : string) (limit : Z)
  | GetEconomicIndicators (indicator : string) (start_date end_date : option string)
  | GetMarketOverview.

Definition run {V : Type} `{PyValue V} (w : World V) (c : call) : M V string :=
  match c with
  | GetStockData s a b => openbb_provider.get_stock_data w s a b
  | GetIndicators s i d n => openbb_provider.get_indicators w s i d n
  | GetFundamentals t d => openbb_provider.get_fundamentals w t d
  | GetBalanceSheet t f d => openbb_provider.get_balance_sheet w t f d
  | GetCashflow t f d => openbb_provider.get_cashflow w t f d
  | GetIncomeStatement t f d => openbb_provider.get_income_statement w t f d
  | GetInsiderTransactions t => openbb_provider.get_insider_transactions w t
  | GetNews t a b => openbb_provider.get_news w t a b
  | GetGlobalNews d n l => openbb_provider.get_global_news w d n l
  | GetSecFilings t f l => openbb_provider.get_sec_filings w t f l
  | GetEconomicIndicators i a b => openbb_provider.get_economic_indicators w i a b
  | GetMarketOverview => openbb_provider.get_market_overview w
  end.

(** The ten adapters that share the request / empty check / format /
    error-string pattern, with the request each of them makes first: the
    endpoint and the keywords.  [get_global_news] computes the start of
    its window before it asks, and makes no request when that fails;
    [get_indicators] and [get_market_overview] are of another kind. *)
Definition request {V : Type} (w : World V) (c : call) : option (endpoint * kwargs) :=
  match c with
  | GetStockData symbol start_date end_date =>
      Some (equity_price_historical,
            [("symbol", AStr (Str.upper symbol)); ("start_date", AStr start_date);
             ("end_date", AStr end_date); ("provider", AStr "yfinance")])
  | GetFundamentals ticker _ =>
      Some (equity_profile,
            [("symbol", AStr (Str.upper ticker)); ("provider", AStr "yfinance")])
  | GetBalanceSheet ticker freq _ =>
      Some (equity_fundamental_balance,
            [("symbol", AStr (Str.upper ticker));
             ("period", AStr (openbb_provider.period_of freq));
             ("provider", AStr "yfinance"); ("limit", AInt 8)])
  | GetCashflow ticker freq _ =>
      Some (equity_fundamental_cash,
            [("symbol", AStr (Str.upper ticker));
             ("period", AStr (openbb_provider.period_of freq));
             ("provider", AStr "yfinance"); ("limit", AInt 8)])
  | GetIncomeStatement ticker freq _ =>
      Some (equity_fundamental_income,
            [("symbol", AStr (Str.upper ticker));
             ("period", AStr (openbb_provider.period_of freq));
             ("provider", AStr "yfinance"); ("limit", AInt 8)])
  | GetInsiderTransactions ticker =>
      Some (equity_ownership_insider_trading,
            [("symbol", AStr (Str.upper ticker)); ("provider", AStr "sec");
             ("limit", AInt 50)])
  | GetNews ticker start_date end_date =>
      Some (news_company,
            [("symbol", AStr (Str.upper ticker)); ("start_date", AStr start_date);
             ("end_date", AStr end_date); ("provider", AStr "yfinance");
             ("limit", AInt 20)])
  | GetGlobalNews curr_date look_back_days limit =>
      match days_before w curr_date look_back_days with
      | Return start_date =>
          Some (news_world,
                [("start_date", AStr start_date); ("end_date", AStr curr_date);
                 ("provider", AStr "yfinance"); ("limit", AInt limit)])
      | Raise _ => None
      end
  | GetSecFilings ticker filing_type limit =>
      Some (equity_fundamental_filings,
            [("symbol", AStr (Str.upper ticker)); ("type", AStr filing_type);
             ("provider", AStr "sec"); ("limit", AInt limit)])
  | GetEconomicIndicators indicator start_date end_date =>
      Some (economy_fred_series,
            openbb_provider.fred_kwargs indicator start_date end_date)
  | GetIndicators _ _ _ _ | GetMarketOverview => None
  end.

(** Whether a call is one of those ten. *)
Definition request_adapter (c : call) : bool :=
  match c with
  | GetIndicators _ _ _ _ | GetMarketOverview => false
  | _ => true
  end.

(** The functions that go through the SDK singleton: all but
    [get_indicators]. *)
Definition uses_sdk (c : call) : bool :=
  match c with
  | GetIndicators _ _ _ _ => false
  | _ => true
  end.

(** The three financial-statement adapters, with the endpoint, the
    ticker and the frequency of the call. *)
Definition statement_call (c : call) : option (endpoint * string * string) :=
  match c with
  | GetBalanceSheet t f _ => Some (equity_fundamental_balance, t, f)
  | GetCashflow t f _ => Some (equity_fundamental_cash, t, f)
  | GetIncomeStatement t f _ => Some (equity_fundamental_income, t, f)
  | _ => None
  end.

(** The six adapters that answer with CSV. *)
Definition tabular (c : call) : bool :=
  match c with
  | GetStockData _ _ _ | GetBalanceSheet _ _ _ | GetCashflow _ _ _
  | GetIncomeStatement _ _ _ | GetInsiderTransactions _
  | GetEconomicIndicators _ _ _ => true
  | _ => false
  end.

(** The SDK calls recorded in a trace. *)
Definition sdk_calls (t : list event) : list (endpoint * kwargs) :=
  flat_map (fun ev => match ev with EvCall ep kw => [(ep, kw)] | _ => [] end) t.

(** The warnings recorded in a trace. *)
Definition warnings (t : list event) : list string :=
  flat_map (fun ev => match ev with EvLog WARNING m => [m] | _ => [] end) t.

(** A block of comment lines closed by an empty line. *)
Definition comment_block (lines : list string) : string :=
  String.concat "" (map (fun l => "# " ++ l ++ Str.LF) lines) ++ Str.LF.

(** The arguments the no-data message of an adapter names. *)
Definition named_arguments (c : call) : list string :=
  match c with
  | GetStockData s a b => [s; a; b]
  | GetNews t a b => [t; a; b]
  | GetFundamentals t _ | GetBalanceSheet t _ _ | GetCashflow t _ _
  | GetIncomeStatement t _ _ | GetInsiderTransactions t | GetSecFilings t _ _ => [t]
  | GetGlobalNews d _ _ => [d]
  | GetEconomicIndicators i _ _ => [i]
  | GetIndicators _ _ _ _ | GetMarketOverview => []
  end.

(** The string an adapter returns for an empty table. *)
Definition empty_message (c : call) : string :=
  match c with
  | GetStockData symbol start_date end_date =>
      "No data found for symbol '" ++ symbol ++ "' " ++
      "between " ++ start_date ++ " and " ++ end_date
  | GetFundamentals ticker _ => "No fundamentals data found for symbol '" ++ ticker ++ "'"
  | GetBalanceSheet ticker _ _ => "No balance sheet data found for symbol '" ++ ticker ++ "'"
  | GetCashflow ticker _ _ => "No cash flow data found for symbol '" ++ ticker ++ "'"
  | GetIncomeStatement ticker _ _ =>
      "No income statement data found for symbol '" ++ ticker ++ "'"
  | GetInsiderTransactions ticker =>
      "No insider transactions data found for symbol '" ++ ticker ++ "'"
  | GetNews ticker start_date end_date =>
      "No news found for " ++ ticker ++ " between " ++ start_date ++ " and " ++ end_date
  | GetGlobalNews curr_date _ _ => "No global news found for " ++ curr_date
  | GetSecFilings ticker filing_type _ =>
      "No " ++ filing_type ++ " filings found for " ++ ticker
  | GetEconomicIndicators indicator _ _ =>
      "No data found for FRED series '" ++ indicator ++ "'"
  | GetIndicators _ _ _ _ | GetMarketOverview => ""
  end.

(** A message of the form "No <subject> found ...". *)
Definition no_data_message (out : string) : Prop :=
  exists subject rest, out = "No " ++ subject ++ " found" ++ rest.

(** The table whose CSV a tabular adapter returns: [get_stock_data]
    renames the price columns and rounds them, which fails on a column
    that cannot be rounded; [get_economic_indicators] keeps the last 20
    rows; the others pass the table on. *)
Definition shown_table {V : Type} `{PyValue V} (c : call) (df : Pandas.DataFrame V)
    : result (Pandas.DataFrame V) :=
  match c with
  | GetStockData _ _ _ =>
      Pandas.round2_columns openbb_provider.numeric_cols
        (Pandas.rename openbb_provider.col_map df)
  | GetEconomicIndicators _ _ _ => Return (Pandas.tail 20 df)
  | _ => Return df
  end.

(** The header line that states how many records follow, for the two
    adapters that have one. *)
Definition count_line (c : call) (records : nat) : option string :=
  match c with
  | GetStockData _ _ _ => Some ("Total records: " ++ Str.of_nat records)
  | GetEconomicIndicators _ _ _ =>
      Some ("Showing last " ++ Str.of_nat records ++ " data points")
  | _ => None
  end.

(** The line of the header that names the source. *)
Definition source_line (c : call) : string :=
  match c with
  | GetStockData _ _ _ => "Source: OpenBB (yfinance provider)"
  | GetInsiderTransactions _ => "Source: OpenBB (SEC)"
  | GetEconomicIndicators _ _ _ => "Source: OpenBB (FRED)"
  | _ => "Source: OpenBB"
  end.

(** The comment lines a tabular adapter puts before a CSV of [records]
    rows, without their "# ". *)
Definition header_lines {V : Type} (w : World V) (c : call) (records : nat)
    : list string :=
  let retrieved := "Data retrieved on: " ++ now w in
  match c with
  | GetStockData symbol start_date end_date =>
      ["Stock data for " ++ Str.upper symbol ++ " from " ++ start_date ++ " to " ++ end_date;
       "Total records: " ++ Str.of_nat records;
       "Source: OpenBB (yfinance provider)";
       retrieved]
  | GetBalanceSheet ticker freq _ =>
      ["Balance Sheet data for " ++ Str.upper ticker ++ " (" ++ freq ++ ")";
       "Source: OpenBB"; retrieved]
  | GetCashflow ticker freq _ =>
      ["Cash Flow data for " ++ Str.upper ticker ++ " (" ++ freq ++ ")";
       "Source: OpenBB"; retrieved]
  | GetIncomeStatement ticker freq _ =>
      ["Income Statement data for " ++ Str.upper ticker ++ " (" ++ freq ++ ")";
       "Source: OpenBB"; retrieved]
  | GetInsiderTransactions ticker =>
      ["Insider Transactions data for " ++ Str.upper ticker;
       "Source: OpenBB (SEC)"; retrieved]
  | GetEconomicIndicators indicator _ _ =>
      ["FRED Economic Data: " ++ indicator;
       "Source: OpenBB (FRED)";
       "Showing last " ++ Str.of_nat records ++ " data points";
       retrieved]
  | _ => []
  end.

(** The string an adapter returns when it has caught the exception [e],
    and the warning it logs then. *)
Definition error_string (c : call) (e : exc) : string :=
  match c with
  | GetStockData symbol _ _ =>
      "Error fetching stock data for " ++ symbol ++ ": " ++ exc_msg e
  | GetFundamentals ticker _ =>
      "Error retrieving fundamentals for " ++ ticker ++ ": " ++ exc_msg e
  | GetBalanceSheet ticker _ _ =>
      "Error retrieving balance sheet for " ++ ticker ++ ": " ++ exc_msg e
  | GetCashflow ticker _ _ =>
      "Error retrieving cash flow for " ++ ticker ++ ": " ++ exc_msg e
  | GetIncomeStatement ticker _ _ =>
      "Error retrieving income statement for " ++ ticker ++ ": " ++ exc_msg e
  | GetInsiderTransactions ticker =>
      "Error retrieving insider transactions for " ++ ticker ++ ": " ++ exc_msg e
  | GetNews ticker _ _ => "Error fetching news for " ++ ticker ++ ": " ++ exc_msg e
  | GetGlobalNews _ _ _ => "Error fetching global news: " ++ exc_msg e
  | GetSecFilings ticker _ _ =>
      "Error retrieving SEC filings for " ++ ticker ++ ": " ++ exc_msg e
  | GetEconomicIndicators indicator _ _ =>
      "Error retrieving FRED data for " ++ indicator ++ ": " ++ exc_msg e
  | GetIndicators _ _ _ _ | GetMarketOverview => ""
  end.

Definition warning_logged (c : call) (e : exc) : string :=
  match c with
  | GetStockData symbol _ _ =>
      "OpenBB get_stock_data failed for " ++ symbol ++ ": " ++ exc_msg e
  | GetFundamentals ticker _ =>
      "OpenBB get_fundamentals failed for " ++ ticker ++ ": " ++ exc_msg e
  | GetBalanceSheet ticker _ _ =>
      "OpenBB get_balance_sheet failed for " ++ ticker ++ ": " ++ exc_msg e
  | GetCashflow ticker _ _ =>
      "OpenBB get_cashflow failed for " ++ ticker ++ ": " ++ exc_msg e
  | GetIncomeStatement ticker _ _ =>
      "OpenBB get_income_statement failed for " ++ ticker ++ ": " ++ exc_msg e
  | GetInsiderTransactions ticker =>
      "OpenBB get_insider_transactions failed for " ++ ticker ++ ": " ++ exc_msg e
  | GetNews ticker _ _ => "OpenBB get_news failed for " ++ ticker ++ ": " ++ exc_msg e
  | GetGlobalNews _ _ _ => "OpenBB get_global_news failed: " ++ exc_msg e
  | GetSecFilings ticker _ _ =>
      "OpenBB get_sec_filings failed for " ++ ticker ++ ": " ++ exc_msg e
  | GetEconomicIndicators indicator _ _ =>
      "OpenBB get_economic_indicators failed for " ++ indicator ++ ": " ++ exc_msg e
  | GetIndicators _ _ _ _ | GetMarketOverview => ""
  end.

(** All the cells of a table. *)
Definition cells {V : Type} (df : Pandas.DataFrame V) : list V :=
  flat_map snd (Pandas.rows df).

End Adapter.

(* ===================================================================== *)
(** * The vendor router of [tradingagents/dataflows/interface.py] *)
(* ===================================================================== *)

Module interface.

Import Effects.
Local Open Scope py_scope.

Section Router.
Context {V : Type}.

(** An implementation of a capability for one vendor; the router
    forwards the positional arguments as they are. *)
Definition impl : Type := list pyarg -> M V string.

(** Modelled from the spec: [VENDOR_METHODS] of [interface.py], which is
    not among the sources.  The registry maps a capability name to the
    vendors registered for it, in registration order, each with its
    implementation. *)
Definition registry : Type := list (string * list (string * impl)).

(** Modelled from the spec: [TOOLS_CATEGORIES] of [interface.py]; each
    category lists the capabilities it owns. *)
Definition categories : Type := list (string * list string).

(** Modelled from the spec: the configuration the router reads,
    [{"data_vendors": {category: vendor}, "tool_vendors": {capability: vendor}}]. *)
Record config : Type := {
  data_vendors : list (string * string);
  tool_vendors : list (string * string)
}.

Fixpoint assoc {A : Type} (k : string) (m : list (string * A)) : option A :=
  match m with
  | [] => None
  | (k', a) :: m' => if String.eqb k' k then Some a else assoc k m'
  end.

(** Modelled from the spec: [get_category_for_method] of [interface.py]
    returns the category owning the name, and fails with a "not found"
    error (a ValueError in the tests) when no category declares it. *)
Definition get_category_for_method (cats : categories) (method : string) : result string :=
  match find (fun ct => existsb (String.eqb method) (snd ct)) cats with
  | Some ct => Return (fst ct)
  | None => Raise (Exc ValueError ("Method '" ++ method ++ "' not found in any category"))
  end.

(** Modelled from the spec: the configured vendor of a capability, read
    from the configuration (the entry of the capability itself when
    there is one, else the entry of its category); None when unset. *)
Definition get_vendor (cfg : config) (category method : string) : option string :=
  match assoc method (tool_vendors cfg) with
  | Some v => Some v
  | None => assoc category (data_vendors cfg)
  end.

Definition vendors_of (reg : registry) (method : string) : list (string * impl) :=
  match assoc method reg with
  | Some vs => vs
  | None => []
  end.

(** Modelled from the spec: the candidate list of [route_to_vendor],
    "configured vendor first (if it has an implementation for this
    capability), then remaining registered vendors in registration
    order"; with no configured vendor the built-in order is taken to be
    the registration order. *)
Definition candidate_list (configured : option string) (registered : list string)
    : list string :=
  match configured with
  | Some v =>
      ((if existsb (String.eqb v) registered then [v] else []) ++
       filter (fun x => negb (String.eqb x v)) registered)%list
  | None => registered
  end.

(** Modelled from the spec: [route_to_vendor] "invokes candidates in
    order; on exception, logs and advances to the next candidate; if all
    candidates raise, propagates the last error".  The wording of the log
    line and the error for an empty candidate list are not specified. *)
Fixpoint invoke_in_order (method : string) (impls : list (string * impl))
    (cands : list string) (args : list pyarg) (last : exc) : M V string :=
  match cands with
  | [] => raise last
  | v :: rest =>
      match assoc v impls with
      | Some f =>
          emit (EvInvoke method v) ;;;
          try_except (f args) isinstance_Exception
            (fun e =>
               logger_warning (v ++ " failed for " ++ method ++ ": " ++ exc_msg e) ;;;
               invoke_in_order method impls rest args e)
      | None => invoke_in_order method impls rest args last
      end
  end.

(** Modelled from the spec: [route_to_vendor] of [interface.py]
    resolves the category, reads the configured vendor, builds the
    candidate list and invokes the candidates in order. *)
Definition route_to_vendor (cats : categories) (reg : registry) (cfg : config)
    (method : string) (args : list pyarg) : M V string :=
  category <- lift (get_category_for_method cats method) ;;
  let impls := vendors_of reg method in
  let cands := candidate_list (get_vendor cfg category method) (map fst impls) in
  invoke_in_order method impls cands args
    (Exc RuntimeError ("No available vendor for '" ++ method ++ "'")).

(** The vendors the router invoked, read off a trace. *)
Definition invoked (t : list event) : list string :=
  flat_map (fun ev => match ev with EvInvoke _ v => [v] | _ => [] end) t.

(** An implementation that fails on [args]: it raises an exception of
    the [Exception] hierarchy, and does not route a call itself. *)
Definition fails (args : list pyarg) (f : impl) : Prop :=
  forall s, exists e s',
    f args s = (Raise e, s') /\ isinstance_Exception e = true /\
    invoked (trace s') = invoked (trace s).

End Router.

Arguments impl V : clear implicits.
Arguments registry V : clear implicits.

End interface.

(* ===================================================================== *)
(** * Concrete tables, SDK objects and worlds *)
(* ===================================================================== *)

Module Fixture.

Import Effects.

(** The table of the balance-sheet test, under the default integer index. *)
Definition balance_table : Pandas.DataFrame pyval :=
  {| Pandas.index_name := "";
     Pandas.columns := ["total_assets"; "total_liabilities"];
     Pandas.rows := [(PInt 0, [PInt 100000; PInt 50000]);
                     (PInt 1, [PInt 110000; PInt 55000])] |}.

(** [pd.DataFrame()]. *)
Definition empty_table : Pandas.DataFrame pyval :=
  {| Pandas.index_name := ""; Pandas.columns := []; Pandas.rows := [] |}.

(** An SDK object that answers every request from [answer], whatever
    happened before. *)
Definition mock (answer : endpoint -> kwargs -> result (Pandas.DataFrame pyval))
    : Obb pyval :=
  {| obb_id := 1; obb_call := fun _ => answer |}.

(** A world where the SDK imports as [o], no credential is set, and the
    clock stands at a fixed time. *)
Definition world (o : Obb pyval) : World pyval :=
  {| import_openbb := Return o;
     environ := fun _ => None;
     now := "2025-01-15 09:30:00";
     strftime_small_year := Str.of_Z;
     get_stock_stats_indicators_window := fun _ _ _ _ => Return "" |}.

(** A world where the SDK package is absent. *)
Definition world_without_sdk : World pyval :=
  {| import_openbb := Raise (Exc ModuleNotFoundError "No module named 'openbb'");
     environ := fun _ => None;
     now := "2025-01-15 09:30:00";
     strftime_small_year := Str.of_Z;
     get_stock_stats_indicators_window := fun _ _ _ _ => Return "" |}.

(** Another instance of the SDK object, as a later import could give. *)
Definition second_sdk : Obb pyval :=
  {| obb_id := 2; obb_call := fun _ _ _ => Return empty_table |}.

(** A world where a FRED key is set in the environment. *)
Definition world_with_key (o : Obb pyval) : World pyval :=
  {| import_openbb := Return o;
     environ := fun name => if String.eqb name "FRED_API_KEY" then Some "abc123" else None;
     now := "2025-01-15 09:30:00";
     strftime_small_year := Str.of_Z;
     get_stock_stats_indicators_window := fun _ _ _ _ => Return "" |}.

(** The module right after import, and with the singleton in place. *)
Definition fresh : State pyval := {| _obb := None; trace := [] |}.
Definition ready (o : Obb pyval) : State pyval := {| _obb := Some o; trace := [] |}.

(** An SDK whose every endpoint yields an empty table. *)
Definition empty_sdk : Obb pyval := mock (fun _ _ => Return empty_table).

(** An SDK whose every endpoint raises, as in the error tests. *)
Definition failing_sdk : Obb pyval := mock (fun _ _ => Raise (Exc Exception "API error")).

(** An SDK that serves the balance-sheet table. *)
Definition balance_sdk : Obb pyval := mock (fun _ _ => Return balance_table).

(** A price table in the columns of the stock-data test, in whole
    numbers. *)
Definition price_table : Pandas.DataFrame pyval :=
  {| Pandas.index_name := "date";
     Pandas.columns := ["open"; "high"; "low"; "close"; "volume"];
     Pandas.rows :=
       [(PStr "2025-01-01", [PInt 150; PInt 155; PInt 149; PInt 154; PInt 1000000]);
        (PStr "2025-01-02", [PInt 151; PInt 156; PInt 150; PInt 155; PInt 1100000])] |}.

Definition price_sdk : Obb pyval := mock (fun _ _ => Return price_table).

(** A series of [n] observations under an integer index. *)
Definition series_table (n : nat) : Pandas.DataFrame pyval :=
  {| Pandas.index_name := "";
     Pandas.columns := ["date"; "value"];
     Pandas.rows := map (fun i => (PInt (Z.of_nat i), [PStr "2024-06-01"; PInt (Z.of_nat i)]))
                        (seq 0 n) |}.

Definition series_sdk (n : nat) : Obb pyval := mock (fun _ _ => Return (series_table n)).




(** The profile table of the fundamentals test (without its float column). *)
Definition profile_table : Pandas.DataFrame pyval :=
  {| Pandas.index_name := "";
     Pandas.columns := ["name"; "sector"; "industry"; "market_cap"];
     Pandas.rows := [(PInt 0, [PStr "Apple Inc."; PStr "Technology";
                               PStr "Consumer Electronics"; PInt 3000000000000])] |}.

(** The SDK of the fundamentals test: the profile is served, the metrics
    endpoint raises. *)
Definition metrics_failing_sdk : Obb pyval :=
  mock (fun ep _ =>
          match ep with
          | equity_fundamental_metrics => Raise (Exc Exception "not available")
          | _ => Return profile_table
          end).

(** An SDK call interrupted from the keyboard. *)
Definition interrupted_sdk : Obb pyval := mock (fun _ _ => Raise (Exc KeyboardInterrupt "")).

(** A registry in the shape the tests describe: stock data served by
    three vendors, the macro and SEC capabilities by OpenBB alone; every
    implementation here fails, to exercise the whole fallback chain. *)
Definition down (msg : string) : interface.impl pyval :=
  fun _ st => (Raise (Exc RuntimeError msg), st).

Definition vendor_methods : interface.registry pyval :=
  [("get_stock_data",
    [("yfinance", down "yfinance down"); ("alpha_vantage", down "rate limit");
     ("openbb", down "openbb down")]);
   ("get_economic_indicators", [("openbb", down "openbb down")]);
   ("get_sec_filings", [("openbb", down "openbb down")])].

Definition tools_categories : interface.categories :=
  [("core_stock_apis", ["get_stock_data"]);
   ("macro_data", ["get_economic_indicators"; "get_market_overview"]);
   ("sec_data", ["get_sec_filings"])].

Definition openbb_first : interface.config :=
  {| interface.data_vendors :=
       [("core_stock_apis", "openbb"); ("macro_data", "openbb"); ("sec_data", "openbb")];
     interface.tool_vendors := [] |}.

End Fixture.

(* ===================================================================== *)
(** * Notions for the behaviour of the whole module *)
(* ===================================================================== *)

Module Behaviour.

Import Effects.

(** A computation out of which only exceptions that [except Exception]
    does not catch can come. *)
Definition raises_only_base {V A : Type} (m : M V A) : Prop :=
  forall st e st', m st = (Raise e, st') -> isinstance_Exception e = false.

(** An SDK object that never raises outside the [Exception] hierarchy
    (no interrupt, no exit), whatever it is asked and whenever. *)
Definition sdk_well_behaved {V : Type} (obb : Obb V) : Prop :=
  forall h ep kw e, obb_call obb h ep kw = Raise e -> isinstance_Exception e = true.

(** The value a request carries under a keyword. *)
Fixpoint kwarg (key : string) (kw : kwargs) : option pyarg :=
  match kw with
  | [] => None
  | (k, v) :: kw' => if String.eqb k key then Some v else kwarg key kw'
  end.

(** The data provider the module names for each endpoint: the three free
    ones of its first phase. *)
Definition provider_of (ep : endpoint) : string :=
  match ep with
  | equity_fundamental_filings | equity_ownership_insider_trading => "sec"
  | economy_fred_series => "fred"
  | _ => "yfinance"
  end.

(** An effect that, if it is a request, names the provider of its
    endpoint. *)
Definition names_free_provider (ev : event) : Prop :=
  match ev with
  | EvCall ep kw => kwarg "provider" kw = Some (AStr (provider_of ep))
  | _ => True
  end.

(** A computation that only adds to the trace, and only effects that
    satisfy [P]. *)
Definition appends {V A : Type} (P : event -> Prop) (m : M V A) : Prop :=
  forall st r st', m st = (r, st') ->
    exists evs, trace st' = (trace st ++ evs)%list /\ Forall P evs.

(** A state with further effects recorded. *)
Definition extend {V : Type} (st : State V) (evs : list event) : State V :=
  {| _obb := _obb st; trace := (trace st ++ evs)%list |}.

(** The request get_market_overview makes for an index, and for a FRED
    series. *)
Definition index_request (idx : string) : event :=
  EvCall equity_price_historical
    [("symbol", AStr idx); ("provider", AStr "yfinance"); ("limit", AInt 5)].

Definition series_request (sl : string * string) : event :=
  EvCall economy_fred_series [("symbol", AStr (fst sl)); ("provider", AStr "fred")].

(** The seven requests of get_market_overview, in the order it makes
    them. *)
Definition overview_requests : list event :=
  (map index_request openbb_provider.indices ++
   map series_request openbb_provider.fred_series)%list.

(** An answer that brings no data: an empty table, or an exception that
    [except Exception] catches. *)
Definition no_data {V : Type} `{PyValue V} (answer : result (Pandas.DataFrame V)) : Prop :=
  match answer with
  | Return df => Pandas.empty df = true
  | Raise e => isinstance_Exception e = true
  end.

(** The name a column of the price table ends up with, and whether its
    cells get rounded: the columns called Open, High, Low or Close once
    renamed. *)
Definition renamed (c : string) : string :=
  match Pandas.lookup openbb_provider.col_map c with
  | Some c' => c'
  | None => c
  end.

Definition price_column (c : string) : bool :=
  existsb (String.eqb (renamed c)) openbb_provider.numeric_cols.

(** What rounding the column [col] does to the cell [v] under the
    column [c]: it goes through [round] when the column is [col], and is
    kept as it is otherwise. *)
Definition rounded_under {V : Type} `{PyValue V} (col c : string) (v v' : V) : Prop :=
  if String.eqb c col then py_round2 v = Some v' else v' = v.

(** The FRED key the initialisation settles on: FRED_API_KEY when it is
    set and not empty, else OPENBB_FRED_API_KEY when that one is, else
    none. *)
Definition fred_key {V : Type} (w : World V) : option string :=
  if openbb_provider.truthy (environ w "FRED_API_KEY")
  then environ w "FRED_API_KEY"
  else if openbb_provider.truthy (environ w "OPENBB_FRED_API_KEY")
       then environ w "OPENBB_FRED_API_KEY"
       else None.

(** The keys assigned to the SDK's credential store, read off a trace. *)
Definition keys_assigned (t : list event) : list string :=
  flat_map (fun ev => match ev with EvSetFredApiKey k => [k] | _ => [] end) t.

End Behaviour.

(** What Python guarantees of a [str] used as a value: it prints as
    itself, and it is true unless empty. *)
Class PyValueLaws (V : Type) `{PyValue V} : Prop := {
  str_of_str : forall s, py_str (py_of_str s) = s;
  truthy_of_str : forall s, py_truthy (py_of_str s) = negb (String.eqb s "")
}.

#[export] Instance PyValueLaws_pyval : @PyValueLaws pyval PyValue_pyval.
Proof. split; reflexivity. Qed.

Module MoreFixtures.

Import Effects.

(** A world where only the second variable holds a key, and the first is
    set but empty. *)
Definition world_with_second_key (o : Obb pyval) : World pyval :=
  {| import_openbb := Return o;
     environ := fun name =>
                  if String.eqb name "FRED_API_KEY" then Some ""
                  else if String.eqb name "OPENBB_FRED_API_KEY" then Some "xyz789"
                  else None;
     now := "2025-01-15 09:30:00";
     strftime_small_year := Str.of_Z;
     get_stock_stats_indicators_window := fun _ _ _ _ => Return "" |}.

(** A world where the package is installed but breaks while it loads. *)
Definition world_with_broken_sdk : World pyval :=
  {| import_openbb := Raise (Exc RuntimeError "extension failed to load");
     environ := fun _ => None;
     now := "2025-01-15 09:30:00";
     strftime_small_year := Str.of_Z;
     get_stock_stats_indicators_window := fun _ _ _ _ => Return "" |}.

(** The world of the calls to get_global_news with a date that does not
    parse. *)
Definition world_with_bad_date (o : Obb pyval) : World pyval := Fixture.world o.

(** An SDK that fails on one request only, the prices of AAPL; it
    serves the price table for every other symbol, and the balance table
    at every other endpoint. *)
Definition picky_sdk : Obb pyval :=
  Fixture.mock
    (fun ep kw =>
       match ep, Behaviour.kwarg "symbol" kw with
       | equity_price_historical, Some (AStr s) =>
           if String.eqb s "AAPL" then Raise (Exc Exception "API error")
           else Return Fixture.price_table
       | _, _ => Return Fixture.balance_table
       end).

(** An SDK that is interrupted on that request only. *)
Definition picky_interrupted_sdk : Obb pyval :=
  Fixture.mock
    (fun ep kw =>
       match ep, Behaviour.kwarg "symbol" kw with
       | equity_price_historical, Some (AStr s) =>
           if String.eqb s "AAPL" then Raise (Exc KeyboardInterrupt "")
           else Return Fixture.price_table
       | _, _ => Return Fixture.balance_table
       end).

(** An SDK that has nothing for FAKE and serves the balance table to
    every other request. *)
Definition picky_empty_sdk : Obb pyval :=
  Fixture.mock
    (fun ep kw =>
       match Behaviour.kwarg "symbol" kw with
       | Some (AStr s) =>
           if String.eqb s "FAKE" then Return Fixture.empty_table
           else Return Fixture.balance_table
       | _ => Return Fixture.balance_table
       end).

(** An SDK on which the requests of the market overview bring nothing
    (the index prices fail, the FRED series are empty), while every
    other request is served. *)
Definition overview_down_sdk : Obb pyval :=
  Fixture.mock
    (fun ep kw =>
       match ep, Behaviour.kwarg "limit" kw with
       | equity_price_historical, Some (AInt 5) => Raise (Exc Exception "rate limit")
       | economy_fred_series, None => Return Fixture.empty_table
       | _, _ => Return Fixture.balance_table
       end).

(** A price table whose close column holds a text. *)
Definition text_price_table : Pandas.DataFrame pyval :=
  {| Pandas.index_name := "date";
     Pandas.columns := ["open"; "close"; "volume"];
     Pandas.rows := [(PStr "2025-01-01", [PInt 150; PStr "n/a"; PInt 1000000])] |}.

Definition text_price_sdk : Obb pyval := Fixture.mock (fun _ _ => Return text_price_table).

(** The news table of the suite, with a third story that has only a
    publisher. *)
Definition news_table : Pandas.DataFrame pyval :=
  {| Pandas.index_name := "";
     Pandas.columns := ["title"; "source"; "url"; "text"];
     Pandas.rows :=
       [(PInt 0, [PStr "Apple beats earnings"; PStr "Reuters";
                  PStr "https://example.com/1"; PStr "Apple reported..."]);
        (PInt 1, [PStr "iPhone sales surge"; PStr "Bloomberg";
                  PStr "https://example.com/2"; PStr "iPhone sales..."])] |}.

Definition news_sdk : Obb pyval := Fixture.mock (fun _ _ => Return news_table).

(** The filings table of the suite. *)
Definition filings_table : Pandas.DataFrame pyval :=
  {| Pandas.index_name := "";
     Pandas.columns := ["filing_date"; "description"; "link"];
     Pandas.rows :=
       [(PInt 0, [PStr "2025-01-15"; PStr "Annual Report"; PStr "https://sec.gov/1"]);
        (PInt 1, [PStr "2024-10-30"; PStr "Quarterly Report"; PStr ""])] |}.

Definition filings_sdk : Obb pyval := Fixture.mock (fun _ _ => Return filings_table).

End MoreFixtures.

(* ===================================================================== *)
(** * Facts about strings *)
(* ===================================================================== *)

Module StrFacts.

Import Str.


Lemma app_nil_r (s : string) : s ++ "" = s.
Proof. induction s as [|c s IH]; simpl; [reflexivity | now rewrite IH]. Qed.

Lemma app_assoc (a b c : string) : (a ++ b) ++ c = a ++ (b ++ c).
Proof. induction a as [|x a IH]; simpl; [reflexivity | now rewrite IH]. Qed.

Lemma startswith_iff (a b : string) :
  startswith a b = true <-> exists post, b = a ++ post.
Proof.
  revert b; induction a as [|x a IH]; intros b; simpl.
  - split; [intros _; now exists b | reflexivity].
  - destruct b as [|y b].
    + split; [discriminate | intros [p Hp]; discriminate].
    + rewrite andb_true_iff, IH, Ascii.eqb_eq. split.
      * intros [-> [p ->]]. now exists p.
      * intros [p Hp]. injection Hp as -> ->. split; [reflexivity | now exists p].
Qed.

Lemma occursb_iff (needle hay : string) :
  occursb needle hay = true <-> occurs needle hay.
Proof.
  induction hay as [|c hay IH]; simpl.
  - rewrite orb_false_r, startswith_iff. split.
    + intros [p Hp]. exists "", p. exact Hp.
    + intros [pre [post H]]. destruct pre; [now exists post | discriminate].
  - rewrite orb_true_iff, startswith_iff, IH. split.
    + intros [[p Hp] | [pre [post H]]].
      * exists "", p. exact Hp.
      * exists (String c pre), post. simpl. now rewrite H.
    + intros [pre [post H]]. destruct pre as [|d pre].
      * left. now exists post.
      * right. simpl in H. injection H as _ H. now exists pre, post.
Qed.

Lemma not_occurs (needle hay : string) :
  occursb needle hay = false -> ~ occurs needle hay.
Proof.
  intros Hb Ho. apply occursb_iff in Ho. congruence.
Qed.

Lemma occurs_refl (s : string) : occurs s s.
Proof. exists "", "". simpl. now rewrite app_nil_r. Qed.

Lemma occurs_app_l (n a b : string) : occurs n a -> occurs n (a ++ b).
Proof.
  intros [pre [post ->]]. exists pre, (post ++ b).
  now rewrite !app_assoc.
Qed.

Lemma occurs_app_r (n a b : string) : occurs n b -> occurs n (a ++ b).
Proof.
  intros [pre [post ->]]. exists (a ++ pre), post.
  now rewrite !app_assoc.
Qed.


Lemma occurs_cons (n : string) (c : ascii) (s : string) :
  occurs n s -> occurs n (String c s).
Proof. intros H. apply (@occurs_app_r n (String c "") s H). Qed.


End StrFacts.

(* ===================================================================== *)
(** * Facts about dates *)
(* ===================================================================== *)

Module DateFacts.

Import Dates.
Local Open Scope Z_scope.

Lemma is_leap_cases (y : Z) :
  (is_leap y = true /\ (y - 1) / 4 + 1 = y / 4 /\
     ((y - 1) / 100 = y / 100 /\ (y - 1) / 400 = y / 400 \/
      (y - 1) / 100 + 1 = y / 100 /\ (y - 1) / 400 + 1 = y / 400)) \/
  (is_leap y = false /\
     ((y - 1) / 4 = y / 4 /\ (y - 1) / 100 = y / 100 /\ (y - 1) / 400 = y / 400 \/
      (y - 1) / 4 + 1 = y / 4 /\ (y - 1) / 100 + 1 = y / 100 /\ (y - 1) / 400 = y / 400)).
Proof.
  unfold is_leap.
  destruct (Z.eqb_spec (y mod 4) 0) as [H4 | H4];
    destruct (Z.eqb_spec (y mod 100) 0) as [H100 | H100];
    destruct (Z.eqb_spec (y mod 400) 0) as [H400 | H400]; cbn [andb orb negb];
    first [ left; split; [reflexivity |] | right; split; [reflexivity |] ];
    try (exfalso; Z.div_mod_to_equations; lia);
    Z.div_mod_to_equations; lia.
Qed.

Lemma days_before_year_succ (y : Z) :
  days_before_year (y + 1) = days_before_year y + 365 + (if is_leap y then 1 else 0).
Proof.
  unfold days_before_year. replace (y + 1 - 1) with y by lia.
  destruct (is_leap_cases y) as [[-> H] | [-> H]]; lia.
Qed.


Lemma days_before_year_pred (y : Z) :
  days_before_year (y - 1) = days_before_year y - 365 - (if is_leap (y - 1) then 1 else 0).
Proof.
  pose proof (days_before_year_succ (y - 1)) as E.
  replace (y - 1 + 1) with y in E by lia. lia.
Qed.

(** The day after: one more in the count of days, and still a date. *)
Lemma next_day_ordinal (d : date) :
  well_formed d ->
  toordinal (next_day d) = toordinal d + 1 /\ well_formed (next_day d).
Proof.
  destruct d as [y m dd]. unfold well_formed, next_day, toordinal. cbn [year month day].
  intros [Hm Hd].
  destruct (Z.ltb_spec dd (days_in_month y m)) as [Hlt | Hge]; cbn [year month day].
  - split; lia.
  - assert (dd = days_in_month y m) by lia. subst dd.
    destruct (Z.ltb_spec m 12) as [Hm12 | Hm12]; cbn [year month day].
    + assert (Hm' : 1 <= m <= 11) by lia. clear Hm Hm12 Hd Hge.
      assert (Hc : m = 1 \/ m = 2 \/ m = 3 \/ m = 4 \/ m = 5 \/ m = 6 \/
                   m = 7 \/ m = 8 \/ m = 9 \/ m = 10 \/ m = 11) by lia.
      repeat (destruct Hc as [-> | Hc]); try subst m;
        unfold days_before_month, days_in_month; cbn;
        destruct (is_leap y); cbn; (split; [lia | split; lia]).
    + assert (m = 12) by lia. subst m.
      rewrite days_before_year_succ.
      unfold days_before_month, days_in_month. cbn.
      destruct (is_leap y); cbn; (split; [lia | split; lia]).
Qed.

(** The day before, likewise. *)
Lemma prev_day_ordinal (d : date) :
  well_formed d ->
  toordinal (prev_day d) = toordinal d - 1 /\ well_formed (prev_day d).
Proof.
  destruct d as [y m dd]. unfold well_formed, prev_day, toordinal. cbn [year month day].
  intros [Hm Hd].
  destruct (Z.ltb_spec 1 dd) as [Hlt | Hge]; cbn [year month day].
  - split; lia.
  - assert (dd = 1) by lia. subst dd.
    destruct (Z.ltb_spec 1 m) as [Hm1 | Hm1]; cbn [year month day].
    + assert (Hc : m = 2 \/ m = 3 \/ m = 4 \/ m = 5 \/ m = 6 \/
                   m = 7 \/ m = 8 \/ m = 9 \/ m = 10 \/ m = 11 \/ m = 12) by lia.
      clear Hm Hm1 Hd Hge.
      repeat (destruct Hc as [-> | Hc]); try subst m;
        unfold days_before_month, days_in_month; cbn;
        destruct (is_leap y); cbn; (split; [lia | split; lia]).
    + assert (m = 1) by lia. subst m.
      rewrite days_before_year_pred.
      unfold days_before_month, days_in_month. cbn.
      destruct (is_leap (y - 1)); cbn; (split; [lia | split; lia]).
Qed.

Lemma iter_next_day (n : nat) (d : date) :
  well_formed d ->
  toordinal (Nat.iter n next_day d) = toordinal d + Z.of_nat n /\
  well_formed (Nat.iter n next_day d).
Proof.
  intros Hd. induction n as [| n [IHo IHw]].
  - simpl. split; [lia | exact Hd].
  - rewrite Nat.iter_succ. destruct (@next_day_ordinal _ IHw) as [Ho Hw].
    split; [lia | exact Hw].
Qed.

Lemma iter_prev_day (n : nat) (d : date) :
  well_formed d ->
  toordinal (Nat.iter n prev_day d) = toordinal d - Z.of_nat n /\
  well_formed (Nat.iter n prev_day d).
Proof.
  intros Hd. induction n as [| n [IHo IHw]].
  - simpl. split; [lia | exact Hd].
  - rewrite Nat.iter_succ. destruct (@prev_day_ordinal _ IHw) as [Ho Hw].
    split; [lia | exact Hw].
Qed.

Lemma make_valid (y m dd : Z) (d : date) :
  make y m dd = Return d -> valid d /\ d = {| year := y; month := m; day := dd |}.
Proof.
  unfold make, valid, well_formed.
  destruct (Z.ltb_spec y 1); [discriminate |].
  destruct (Z.ltb_spec 9999 y); [discriminate |]. cbn [orb].
  destruct (Z.ltb_spec m 1); [discriminate |].
  destruct (Z.ltb_spec 12 m); [discriminate |]. cbn [orb].
  destruct (Z.ltb_spec dd 1); [discriminate |].
  destruct (Z.ltb_spec (days_in_month y m) dd); [discriminate |]. cbn [orb].
  intros E. injection E as <-. cbn [year month day]. repeat split; lia.
Qed.

(** What strptime returns is a date datetime can hold. *)
Lemma strptime_valid (s : string) (d : date) :
  strptime s = Return d -> valid d.
Proof.
  unfold strptime.
  destruct (regex_match s) as [[[[y m] dd] rest] |]; [| discriminate].
  destruct rest; [| discriminate].
  intros E. now destruct (@make_valid _ _ _ _ E).
Qed.


Lemma days_before_year_mono (y y' : Z) :
  y <= y' -> days_before_year y <= days_before_year y'.
Proof. unfold days_before_year. intros Hy. Z.div_mod_to_equations. lia. Qed.

(** The days of a year are counted between its first and its last. *)
Lemma toordinal_within_year (d : date) :
  well_formed d ->
  days_before_year (year d) + 1 <= toordinal d <= days_before_year (year d + 1).
Proof.
  destruct d as [y m dd]. unfold well_formed, toordinal. cbn [year month day].
  intros [Hm Hd]. rewrite days_before_year_succ.
  assert (Hc : m = 1 \/ m = 2 \/ m = 3 \/ m = 4 \/ m = 5 \/ m = 6 \/
               m = 7 \/ m = 8 \/ m = 9 \/ m = 10 \/ m = 11 \/ m = 12) by lia.
  clear Hm. revert Hd.
  repeat (destruct Hc as [-> | Hc]); try subst m;
    unfold days_before_month, days_in_month; cbn;
    destruct (is_leap y); cbn; lia.
Qed.

(** The years datetime can hold are the days 1 to 3652059. *)
Lemma year_in_range (d : date) :
  well_formed d ->
  (1 <= year d <= 9999 <-> 1 <= toordinal d <= 3652059).
Proof.
  intros Hd. pose proof (toordinal_within_year Hd) as [Hlo Hhi].
  assert (H1 : days_before_year 1 = 0) by reflexivity.
  assert (H2 : days_before_year 10000 = 3652059) by reflexivity.
  split.
  - intros [Ha Hb].
    pose proof (@days_before_year_mono 1 (year d) Ha).
    pose proof (@days_before_year_mono (year d + 1) 10000 ltac:(lia)). lia.
  - intros [Ha Hb]. split.
    + destruct (Z.le_gt_cases 1 (year d)) as [Hy | Hy]; [exact Hy |].
      pose proof (@days_before_year_mono (year d + 1) 1 ltac:(lia)). lia.
    + destruct (Z.le_gt_cases (year d) 9999) as [Hy | Hy]; [exact Hy |].
      pose proof (@days_before_year_mono 10000 (year d) ltac:(lia)). lia.
Qed.

(** Adding days adds to the count of days, and gives a date datetime
    can hold. *)
Lemma plus_days_ordinal (d d' : date) (k : Z) :
  well_formed d ->
  plus_days d k = Return d' ->
  toordinal d' = toordinal d + k /\ valid d'.
Proof.
  intros Hd. unfold plus_days, max_ordinal.
  destruct ((k <? -2147483648) || (2147483647 <? k)); [discriminate |].
  destruct (999999999 <? Z.abs k); [discriminate |].
  destruct (Z.ltb_spec (toordinal d + k) 1); [discriminate |].
  destruct (Z.ltb_spec 3652059 (toordinal d + k)); [discriminate |]. cbn [orb].
  destruct (Z.leb_spec 0 k) as [Hk | Hk]; intros E; injection E as <-.
  - destruct (@iter_next_day (Z.to_nat k) _ Hd) as [Ho Hw].
    split; [lia |]. split; [apply (year_in_range Hw); lia | exact Hw].
  - destruct (@iter_prev_day (Z.to_nat (- k)) _ Hd) as [Ho Hw].
    split; [lia |]. split; [apply (year_in_range Hw); lia | exact Hw].
Qed.

(** Adding days succeeds when the day it leads to is one datetime can
    hold. *)
Lemma plus_days_succeeds (d : date) (k : Z) :
  valid d ->
  1 <= toordinal d + k <= 3652059 ->
  exists d', plus_days d k = Return d'.
Proof.
  intros [Hy Hd] Hk. pose proof (proj1 (year_in_range Hd) Hy) as Ho.
  unfold plus_days, max_ordinal.
  destruct (Z.ltb_spec k (-2147483648)); [lia |].
  destruct (Z.ltb_spec 2147483647 k); [lia |]. cbn [orb].
  destruct (Z.ltb_spec 999999999 (Z.abs k)); [lia |].
  destruct (Z.ltb_spec (toordinal d + k) 1); [lia |].
  destruct (Z.ltb_spec 3652059 (toordinal d + k)); [lia |]. cbn [orb].
  destruct (0 <=? k); now eexists.
Qed.

(** Two dates with the same count of days are the same date. *)
Lemma toordinal_injective (d1 d2 : date) :
  well_formed d1 -> well_formed d2 -> toordinal d1 = toordinal d2 -> d1 = d2.
Proof.
  intros H1 H2 E.
  pose proof (toordinal_within_year H1) as [L1 U1].
  pose proof (toordinal_within_year H2) as [L2 U2].
  assert (Hy : year d1 = year d2).
  { destruct (Z.lt_trichotomy (year d1) (year d2)) as [Hlt | [Heq | Hgt]];
      [| exact Heq |].
    - pose proof (@days_before_year_mono (year d1 + 1) (year d2) ltac:(lia)). lia.
    - pose proof (@days_before_year_mono (year d2 + 1) (year d1) ltac:(lia)). lia. }
  destruct d1 as [y1 m1 dd1], d2 as [y2 m2 dd2]. cbn [year] in Hy. subst y2.
  unfold well_formed, toordinal in *. cbn [year month day] in *.
  destruct H1 as [Hm1 Hd1], H2 as [Hm2 Hd2].
  assert (Hc1 : m1 = 1 \/ m1 = 2 \/ m1 = 3 \/ m1 = 4 \/ m1 = 5 \/ m1 = 6 \/
                m1 = 7 \/ m1 = 8 \/ m1 = 9 \/ m1 = 10 \/ m1 = 11 \/ m1 = 12) by lia.
  assert (Hc2 : m2 = 1 \/ m2 = 2 \/ m2 = 3 \/ m2 = 4 \/ m2 = 5 \/ m2 = 6 \/
                m2 = 7 \/ m2 = 8 \/ m2 = 9 \/ m2 = 10 \/ m2 = 11 \/ m2 = 12) by lia.
  clear Hm1 Hm2 L1 U1 L2 U2. revert Hd1 Hd2 E.
  repeat (destruct Hc1 as [-> | Hc1]); try subst m1;
    repeat (destruct Hc2 as [-> | Hc2]); try subst m2;
    unfold days_before_month, days_in_month; cbn;
    destruct (is_leap y1); cbn; intros Hd1 Hd2 E;
    first [ lia | f_equal; lia ].
Qed.

End DateFacts.


(* ===================================================================== *)
(** * The adapters: running them *)
(* ===================================================================== *)

Import Effects.

(** Find a needle in a concatenation of literals and variables. *)
Ltac occurs_here :=
  first [ apply StrFacts.occurs_refl
        | exists ""; eexists; reflexivity
        | apply StrFacts.occurs_cons; occurs_here
        | apply StrFacts.occurs_app_l; occurs_here
        | apply StrFacts.occurs_app_r; occurs_here ].

Section Running.
Context {V : Type} `{PyValue V}.
Variable w : World V.

(** With the singleton in place, [_get_obb] hands it out and touches
    nothing. *)
Lemma get_obb_cached (st : State V) (obb : Obb V) :
  _obb st = Some obb -> openbb_provider._get_obb w st = (Return obb, st).
Proof.
  intros Hc. unfold openbb_provider._get_obb, bind, read_obb. now rewrite Hc.
Qed.

Lemma warnings_after_call (t : list event) (ep : endpoint) (kw : kwargs) :
  Adapter.warnings (t ++ [EvCall ep kw]) = Adapter.warnings t.
Proof.
  unfold Adapter.warnings. rewrite flat_map_app. simpl. apply app_nil_r.
Qed.

Lemma sdk_calls_after_call (t : list event) (ep : endpoint) (kw : kwargs) :
  Adapter.sdk_calls (t ++ [EvCall ep kw]) = (Adapter.sdk_calls t ++ [(ep, kw)])%list.
Proof.
  unfold Adapter.sdk_calls. now rewrite flat_map_app.
Qed.

Lemma sdk_calls_after_log (t : list event) (lvl : loglevel) (m : string) :
  Adapter.sdk_calls (t ++ [EvLog lvl m]) = Adapter.sdk_calls t.
Proof.
  unfold Adapter.sdk_calls. rewrite flat_map_app. simpl. apply app_nil_r.
Qed.

End Running.

(** Unfold an adapter down to the answer of the SDK. *)
Ltac enter_adapter Hc :=
  unfold Adapter.run,
    openbb_provider.get_stock_data, openbb_provider.get_fundamentals,
    openbb_provider.get_balance_sheet, openbb_provider.get_cashflow,
    openbb_provider.get_income_statement, openbb_provider.get_insider_transactions,
    openbb_provider.get_news, openbb_provider.get_global_news,
    openbb_provider.get_sec_filings, openbb_provider.get_economic_indicators;
  unfold bind at 1; rewrite (get_obb_cached _ _ Hc);
  unfold try_except, bind, call, lift, ret, logger_warning, emit; cbn [fst snd].

(* ===================================================================== *)
(** * The request an adapter makes, and what it does with the answer *)
(* ===================================================================== *)

Lemma warnings_after_warning (t : list event) (m : string) :
  Adapter.warnings (t ++ [EvLog WARNING m]) = (Adapter.warnings t ++ [m])%list.
Proof.
  unfold Adapter.warnings. now rewrite flat_map_app.
Qed.

Lemma not_empty_has_row (V : Type) `{PyValue V} (df : Pandas.DataFrame V) :
  Pandas.empty df = false -> exists r rs, Pandas.rows df = r :: rs.
Proof.
  unfold Pandas.empty. destruct (Pandas.rows df) as [| r rs]; simpl; [discriminate |].
  intros _. now exists r, rs.
Qed.

Lemma iloc_first_not_empty (V : Type) `{PyValue V} (df : Pandas.DataFrame V) :
  Pandas.empty df = false -> exists row, Pandas.iloc_first df = Return row.
Proof.
  intros Hne. destruct (not_empty_has_row df Hne) as [r [rs Hr]].
  unfold Pandas.iloc_first. rewrite Hr. now eexists.
Qed.

(** Bring the request of an adapter out of [Adapter.request]. *)
Ltac take_request Hreq :=
  cbn [Adapter.request] in Hreq; try discriminate Hreq;
  try match type of Hreq with
      | match ?d with _ => _ end = _ =>
          let start := fresh "start" in
          let err := fresh "err" in
          let Hd := fresh "Hd" in
          destruct d as [start | err] eqn:Hd; [| discriminate Hreq]
      end;
  injection Hreq as <- <-.

(** Unfold a request adapter down to the answer to its request. *)
Ltac enter_request Hreq Hc :=
  take_request Hreq; enter_adapter Hc;
  try match goal with
      | Hd : days_before _ _ _ = Return _ |- _ => rewrite Hd
      end.

Section Requests.
Context {V : Type} `{PyValue V}.
Variable w : World V.

(** A failed request: the exception is turned into the error string and
    a warning when [except Exception] catches it, and leaves the adapter
    otherwise. *)
Lemma run_on_failure (c : Adapter.call) (ep : endpoint) (kw : kwargs) (obb : Obb V)
    (st : State V) (e : exc) :
  Adapter.request w c = Some (ep, kw) ->
  _obb st = Some obb ->
  obb_call obb (trace st) ep kw = Raise e ->
  Adapter.run w c st =
    if isinstance_Exception e
    then (Return (Adapter.error_string c e),
          Behaviour.extend st
            [EvCall ep kw; EvLog WARNING (Adapter.warning_logged c e)])
    else (Raise e, Behaviour.extend st [EvCall ep kw]).
Proof.
  intros Hreq Hc Hans.
  destruct c; enter_request Hreq Hc;
    rewrite Hans; destruct (isinstance_Exception e);
    unfold Behaviour.extend; cbn [trace _obb Adapter.error_string Adapter.warning_logged];
    rewrite <- ?app_assoc; reflexivity.
Qed.

(** An empty answer: the no-data message, and nothing else. *)
Lemma run_on_empty (c : Adapter.call) (ep : endpoint) (kw : kwargs) (obb : Obb V)
    (st : State V) (df : Pandas.DataFrame V) :
  Adapter.request w c = Some (ep, kw) ->
  _obb st = Some obb ->
  obb_call obb (trace st) ep kw = Return df ->
  Pandas.empty df = true ->
  Adapter.run w c st = (Return (Adapter.empty_message c), Behaviour.extend st [EvCall ep kw]).
Proof.
  intros Hreq Hc Hans Hemp.
  destruct c; enter_request Hreq Hc;
    rewrite Hans, Hemp; reflexivity.
Qed.

(** get_global_news with a date that gives no window: the error of the
    date arithmetic is reported, and the SDK is not asked. *)
Lemma run_on_bad_date (curr_date : string) (look_back_days limit : Z) (obb : Obb V)
    (st : State V) (e : exc) :
  _obb st = Some obb ->
  days_before w curr_date look_back_days = Raise e ->
  let c := Adapter.GetGlobalNews curr_date look_back_days limit in
  Adapter.run w c st =
    if isinstance_Exception e
    then (Return (Adapter.error_string c e),
          Behaviour.extend st [EvLog WARNING (Adapter.warning_logged c e)])
    else (Raise e, st).
Proof.
  intros Hc Hd c. unfold c. enter_adapter Hc. rewrite Hd.
  destruct (isinstance_Exception e); reflexivity.
Qed.

(** One round of the market overview on an answer that brings no data:
    the request is made and no line comes of it. *)
Lemma index_section_no_data (obb : Obb V) (idx : string) (st : State V) :
  Behaviour.no_data
    (obb_call obb (trace st) equity_price_historical
       [("symbol", AStr idx); ("provider", AStr "yfinance"); ("limit", AInt 5)]) ->
  openbb_provider.index_section obb idx st
    = (Return [], Behaviour.extend st [Behaviour.index_request idx]).
Proof.
  unfold openbb_provider.index_section, try_except, bind, call, lift, ret, Behaviour.no_data.
  destruct (obb_call obb (trace st) equity_price_historical _) as [df | e];
    intros Hno; rewrite Hno; reflexivity.
Qed.

Lemma fred_section_no_data (obb : Obb V) (sl : string * string) (st : State V) :
  Behaviour.no_data
    (obb_call obb (trace st) economy_fred_series
       [("symbol", AStr (fst sl)); ("provider", AStr "fred")]) ->
  openbb_provider.fred_section obb sl st
    = (Return [], Behaviour.extend st [Behaviour.series_request sl]).
Proof.
  unfold openbb_provider.fred_section, try_except, bind, call, lift, ret, Behaviour.no_data.
  destruct (obb_call obb (trace st) economy_fred_series _) as [df | e];
    intros Hno; rewrite Hno; reflexivity.
Qed.

(** The market overview when each of its seven requests, at the moment
    it is made, brings no data. *)
Lemma market_overview_no_data_run (obb : Obb V) (st : State V) :
  _obb st = Some obb ->
  (forall k ep kw,
      nth_error Behaviour.overview_requests k = Some (EvCall ep kw) ->
      Behaviour.no_data
        (obb_call obb (trace st ++ firstn k Behaviour.overview_requests) ep kw)) ->
  Adapter.run w Adapter.GetMarketOverview st
    = (Return "Unable to retrieve market overview data",
       Behaviour.extend st Behaviour.overview_requests).
Proof.
  intros Hc Hno. cbn [Adapter.run]. unfold openbb_provider.get_market_overview.
  unfold bind at 1. rewrite (get_obb_cached _ _ Hc).
  cbn [openbb_provider.indices openbb_provider.fred_series for_each]. unfold bind, ret.
  rewrite index_section_no_data
    by (rewrite <- (app_nil_r (trace st)); exact (Hno 0%nat _ _ eq_refl)).
  rewrite index_section_no_data by exact (Hno 1%nat _ _ eq_refl).
  rewrite index_section_no_data
    by (cbn [Behaviour.extend trace]; rewrite <- app_assoc; exact (Hno 2%nat _ _ eq_refl)).
  rewrite index_section_no_data
    by (cbn [Behaviour.extend trace]; rewrite <- !app_assoc; exact (Hno 3%nat _ _ eq_refl)).
  rewrite fred_section_no_data
    by (cbn [Behaviour.extend trace fst]; rewrite <- !app_assoc; exact (Hno 4%nat _ _ eq_refl)).
  rewrite fred_section_no_data
    by (cbn [Behaviour.extend trace fst]; rewrite <- !app_assoc; exact (Hno 5%nat _ _ eq_refl)).
  rewrite fred_section_no_data
    by (cbn [Behaviour.extend trace fst]; rewrite <- !app_assoc; exact (Hno 6%nat _ _ eq_refl)).
  cbv zeta. cbn [app]. f_equal.
  unfold Behaviour.extend. cbn [trace _obb]. rewrite <- !app_assoc. reflexivity.
Qed.

End Requests.

(** The no-data messages all have the form "No <subject> found ...",
    and what follows names the arguments. *)
Lemma empty_message_form (c : Adapter.call) :
  Adapter.request_adapter c = true ->
  exists subject rest,
    Adapter.empty_message c = "No " ++ subject ++ " found" ++ rest /\
    forall a, In a (Adapter.named_arguments c) -> Str.occurs a rest.
Proof.
  intros Hc. destruct c; try discriminate Hc; cbn [Adapter.empty_message];
    [ exists "data" | exists "fundamentals data" | exists "balance sheet data"
    | exists "cash flow data" | exists "income statement data"
    | exists "insider transactions data" | exists "news" | exists "global news"
    | exists (filing_type ++ " filings") | exists "data" ];
    eexists;
    (split; [first [reflexivity | rewrite StrFacts.app_assoc; reflexivity] |]);
    simpl; intros a Ha;
    repeat (destruct Ha as [<- | Ha]; [occurs_here |]); contradiction.
Qed.

Lemma request_adapter_of_request (V : Type) (w : World V) (c : Adapter.call)
    (req : endpoint * kwargs) :
  Adapter.request w c = Some req -> Adapter.request_adapter c = true.
Proof. destruct c; simpl; intros E; try reflexivity; discriminate E. Qed.

Lemma warnings_of_requests (t : list event) (reqs : list event) :
  Forall (fun ev => match ev with EvCall _ _ => True | _ => False end) reqs ->
  Adapter.warnings (t ++ reqs) = Adapter.warnings t.
Proof.
  intros Hr. unfold Adapter.warnings. rewrite flat_map_app.
  replace (flat_map _ reqs) with (@nil string); [apply app_nil_r |].
  induction Hr as [| ev reqs Hev _ IH]; [reflexivity |].
  destruct ev; try contradiction. simpl. exact IH.
Qed.

(* ===================================================================== *)
(** * Empty results *)
(* ===================================================================== *)

(** C2 (as amended).  With the singleton in place:
    (1) for each of the ten request adapters (get_stock_data,
    get_fundamentals, get_balance_sheet, get_cashflow,
    get_income_statement, get_insider_transactions, get_news,
    get_global_news, get_sec_filings, get_economic_indicators), when the
    request the adapter makes is answered with an empty table, the
    adapter returns, without raising, a message of the form
    "No <subject> found ..." whose remainder names the arguments; that
    request is all it does, and no warning is logged, so the outcome is
    not treated as an error;
    (2) get_market_overview, when each of its seven requests is answered
    with an empty table or an [Exception], returns "Unable to retrieve
    market overview data", which is not of that form, and logs no
    warning either. *)
Theorem empty_result_message (V : Type) `{PyValue V} (w : World V) (obb : Obb V)
    (st : State V) :
  _obb st = Some obb ->
  (forall c ep kw df,
      Adapter.request w c = Some (ep, kw) ->
      obb_call obb (trace st) ep kw = Return df ->
      Pandas.empty df = true ->
      exists subject rest,
        Adapter.run w c st
          = (Return ("No " ++ subject ++ " found" ++ rest),
             Behaviour.extend st [EvCall ep kw]) /\
        (forall a, In a (Adapter.named_arguments c) -> Str.occurs a rest) /\
        Adapter.warnings (trace st ++ [EvCall ep kw]) = Adapter.warnings (trace st)) /\
  ((forall k ep kw,
       nth_error Behaviour.overview_requests k = Some (EvCall ep kw) ->
       Behaviour.no_data
         (obb_call obb (trace st ++ firstn k Behaviour.overview_requests) ep kw)) ->
   Adapter.run w Adapter.GetMarketOverview st
     = (Return "Unable to retrieve market overview data",
        Behaviour.extend st Behaviour.overview_requests) /\
   ~ Adapter.no_data_message "Unable to retrieve market overview data" /\
   Adapter.warnings (trace st ++ Behaviour.overview_requests)
     = Adapter.warnings (trace st)).
Proof.
  intros Hc. split.
  - intros c ep kw df Hreq Hans Hemp.
    destruct (@empty_message_form c (@request_adapter_of_request _ w c _ Hreq))
      as [subject [rest [Hform Hargs]]].
    exists subject, rest. rewrite <- Hform.
    split; [exact (@run_on_empty _ _ w c ep kw obb st df Hreq Hc Hans Hemp) |].
    split; [exact Hargs | apply warnings_after_call].
  - intros Hno. split; [exact (@market_overview_no_data_run _ _ w obb st Hc Hno) |].
    split.
    + intros [subject [rest Hout]]. discriminate Hout.
    + apply warnings_of_requests. repeat constructor.
Qed.

(** C2, the adapter that falls outside the claim as stated: with every
    SDK request succeeding on an empty table, get_market_overview returns
    "Unable to retrieve market overview data", which is not a
    "No <subject> found" message. *)
Lemma market_overview_empty_result :
  (forall h ep kw, exists df,
      obb_call Fixture.empty_sdk h ep kw = Return df /\ Pandas.empty df = true) /\
  exists out st',
    Adapter.run (Fixture.world Fixture.empty_sdk) Adapter.GetMarketOverview
      (Fixture.ready Fixture.empty_sdk) = (Return out, st') /\
    out = "Unable to retrieve market overview data" /\
    ~ Adapter.no_data_message out.
Proof.
  split.
  - intros h ep kw. exists Fixture.empty_table. split; reflexivity.
  - eexists. eexists. split; [vm_compute; reflexivity |].
    split; [reflexivity |].
    intros [subject [rest Hout]]. discriminate Hout.
Qed.

(** The instance of the amended claim the specification quotes,
    get_balance_sheet("FAKE"), on an SDK that has nothing for FAKE only;
    and the market overview on an SDK that is down for its seven
    requests only. *)
Lemma empty_result_message_witness :
  (exists subject rest,
      Adapter.run (Fixture.world MoreFixtures.picky_empty_sdk)
        (Adapter.GetBalanceSheet "FAKE" "quarterly" None)
        (Fixture.ready MoreFixtures.picky_empty_sdk)
        = (Return ("No " ++ subject ++ " found" ++ rest),
           Behaviour.extend (Fixture.ready MoreFixtures.picky_empty_sdk)
             [EvCall equity_fundamental_balance
                [("symbol", AStr "FAKE"); ("period", AStr "quarter");
                 ("provider", AStr "yfinance"); ("limit", AInt 8)]]) /\
      (forall a, In a ["FAKE"] -> Str.occurs a rest) /\
      Adapter.warnings
        ([] ++ [EvCall equity_fundamental_balance
                  [("symbol", AStr "FAKE"); ("period", AStr "quarter");
                   ("provider", AStr "yfinance"); ("limit", AInt 8)]]) = []) /\
  (Adapter.run (Fixture.world MoreFixtures.overview_down_sdk) Adapter.GetMarketOverview
     (Fixture.ready MoreFixtures.overview_down_sdk)
     = (Return "Unable to retrieve market overview data",
        Behaviour.extend (Fixture.ready MoreFixtures.overview_down_sdk)
          Behaviour.overview_requests) /\
   ~ Adapter.no_data_message "Unable to retrieve market overview data" /\
   Adapter.warnings ([] ++ Behaviour.overview_requests) = []).
Proof.
  split.
  - exact (proj1 (@empty_result_message pyval _ (Fixture.world MoreFixtures.picky_empty_sdk)
                    MoreFixtures.picky_empty_sdk
                    (Fixture.ready MoreFixtures.picky_empty_sdk) eq_refl)
             (Adapter.GetBalanceSheet "FAKE" "quarterly" None)
             _ _ Fixture.empty_table eq_refl eq_refl eq_refl).
  - apply (proj2 (@empty_result_message pyval _ (Fixture.world MoreFixtures.overview_down_sdk)
                    MoreFixtures.overview_down_sdk
                    (Fixture.ready MoreFixtures.overview_down_sdk) eq_refl)).
    intros k ep kw Hk.
    do 7 (destruct k as [| k]; [injection Hk as <- <-; reflexivity |]).
    destruct k; discriminate Hk.
Defined.

(** What the first of these calls returns, character for character. *)
Lemma balance_sheet_fake_message :
  fst (Adapter.run (Fixture.world Fixture.empty_sdk)
         (Adapter.GetBalanceSheet "FAKE" "quarterly" None)
         (Fixture.ready Fixture.empty_sdk))
  = Return "No balance sheet data found for symbol 'FAKE'".
Proof. vm_compute. reflexivity. Qed.

(* ===================================================================== *)
(** * Failing requests *)
(* ===================================================================== *)

Lemma error_string_form (c : Adapter.call) (e : exc) :
  Adapter.request_adapter c = true ->
  Str.occurs "Error" (Adapter.error_string c e) /\
  Str.occurs (exc_msg e) (Adapter.error_string c e) /\
  Str.occurs (exc_msg e) (Adapter.warning_logged c e).
Proof.
  intros Hc. destruct c; try discriminate Hc;
    cbn [Adapter.error_string Adapter.warning_logged];
    (split; [occurs_here |]); (split; occurs_here).
Qed.

(** The report of get_fundamentals when the profile has data and the
    metrics request raises an [Exception]: header and profile lines, two
    requests, nothing logged. *)
Lemma fundamentals_metrics_failure (V : Type) `{PyValue V} (w : World V) (ticker : string)
    (curr_date : option string) (obb : Obb V) (st : State V) (df : Pandas.DataFrame V)
    (row : Pandas.Series V) (e : exc) :
  _obb st = Some obb ->
  let kw := [("symbol", AStr (Str.upper ticker)); ("provider", AStr "yfinance")] in
  obb_call obb (trace st) equity_profile kw = Return df ->
  Pandas.empty df = false ->
  Pandas.iloc_first df = Return row ->
  obb_call obb (trace st ++ [EvCall equity_profile kw])%list equity_fundamental_metrics kw
    = Raise e ->
  isinstance_Exception e = true ->
  Adapter.run w (Adapter.GetFundamentals ticker curr_date) st
    = (Return (Adapter.comment_block
                 ["Company Fundamentals for " ++ Str.upper ticker;
                  "Source: OpenBB"; "Data retrieved on: " ++ now w] ++
               Str.join Str.LF (openbb_provider.field_lines openbb_provider.field_map row)),
       Behaviour.extend st [EvCall equity_profile kw; EvCall equity_fundamental_metrics kw]).
Proof.
  intros Hc kw Hp Hemp Hrow Hm He. enter_adapter Hc. fold kw.
  rewrite Hp, Hemp, Hrow. cbn [trace]. rewrite Hm, He. f_equal.
  - f_equal. rewrite app_nil_r.
    unfold Adapter.comment_block, openbb_provider.retrieved_on.
    cbn [map String.concat]. rewrite !StrFacts.app_assoc. reflexivity.
  - unfold Behaviour.extend. cbn [trace _obb]. rewrite <- app_assoc. reflexivity.
Qed.

(** C1 (as amended).  With the singleton in place:
    (1) for each of the ten request adapters, when the request the
    adapter makes (for get_fundamentals the profile request; for
    get_global_news the one it makes once its window is computed) raises
    an exception, then, if the exception belongs to the [Exception]
    hierarchy, the adapter does not propagate it: it logs one warning and
    returns a string that contains "Error" and the message of the
    exception; if it does not (KeyboardInterrupt, SystemExit), the
    exception leaves the adapter and nothing is logged;
    (2) an [Exception] raised by the second request of get_fundamentals
    (the metrics), after a profile with data, is swallowed: the adapter
    returns its report with the profile lines alone and logs nothing. *)
Theorem sdk_error_message (V : Type) `{PyValue V} (w : World V) (obb : Obb V)
    (st : State V) :
  _obb st = Some obb ->
  (forall c ep kw e,
      Adapter.request w c = Some (ep, kw) ->
      obb_call obb (trace st) ep kw = Raise e ->
      if isinstance_Exception e
      then
        Adapter.run w c st
          = (Return (Adapter.error_string c e),
             Behaviour.extend st
               [EvCall ep kw; EvLog WARNING (Adapter.warning_logged c e)]) /\
        Str.occurs "Error" (Adapter.error_string c e) /\
        Str.occurs (exc_msg e) (Adapter.error_string c e) /\
        Str.occurs (exc_msg e) (Adapter.warning_logged c e)
      else
        Adapter.run w c st = (Raise e, Behaviour.extend st [EvCall ep kw])) /\
  (forall ticker curr_date df e,
      let kw := [("symbol", AStr (Str.upper ticker)); ("provider", AStr "yfinance")] in
      obb_call obb (trace st) equity_profile kw = Return df ->
      Pandas.empty df = false ->
      obb_call obb (trace st ++ [EvCall equity_profile kw])%list
        equity_fundamental_metrics kw = Raise e ->
      isinstance_Exception e = true ->
      exists row,
        Pandas.iloc_first df = Return row /\
        Adapter.run w (Adapter.GetFundamentals ticker curr_date) st
          = (Return (Adapter.comment_block
                       ["Company Fundamentals for " ++ Str.upper ticker;
                        "Source: OpenBB"; "Data retrieved on: " ++ now w] ++
                     Str.join Str.LF
                       (openbb_provider.field_lines openbb_provider.field_map row)),
             Behaviour.extend st
               [EvCall equity_profile kw; EvCall equity_fundamental_metrics kw])).
Proof.
  intros Hc. split.
  - intros c ep kw e Hreq Hans.
    pose proof (@run_on_failure _ _ w c ep kw obb st e Hreq Hc Hans) as Hrun.
    pose proof (@error_string_form c e (@request_adapter_of_request _ w c _ Hreq)) as Hform.
    destruct (isinstance_Exception e); [split; assumption | exact Hrun].
  - intros ticker curr_date df e kw Hp Hemp Hm He.
    destruct (iloc_first_not_empty df Hemp) as [row Hrow].
    exists row. split; [exact Hrow |].
    exact (@fundamentals_metrics_failure _ _ w ticker curr_date obb st df row e
             Hc Hp Hemp Hrow Hm He).
Qed.

(** The error test of the suite, on an SDK that raises
    Exception("API error") for the prices of AAPL only; the same with an
    interrupt from the keyboard; and the fundamentals test, where the
    metrics endpoint is not available. *)
Lemma sdk_error_message_witness :
  let c := Adapter.GetStockData "AAPL" "2025-01-01" "2025-01-02" in
  let kw := [("symbol", AStr "AAPL"); ("start_date", AStr "2025-01-01");
             ("end_date", AStr "2025-01-02"); ("provider", AStr "yfinance")] in
  (Adapter.run (Fixture.world MoreFixtures.picky_sdk) c (Fixture.ready MoreFixtures.picky_sdk)
     = (Return "Error fetching stock data for AAPL: API error",
        Behaviour.extend (Fixture.ready MoreFixtures.picky_sdk)
          [EvCall equity_price_historical kw;
           EvLog WARNING "OpenBB get_stock_data failed for AAPL: API error"]) /\
   Str.occurs "Error" "Error fetching stock data for AAPL: API error" /\
   Str.occurs "API error" "Error fetching stock data for AAPL: API error" /\
   Str.occurs "API error" "OpenBB get_stock_data failed for AAPL: API error") /\
  Adapter.run (Fixture.world MoreFixtures.picky_interrupted_sdk) c
    (Fixture.ready MoreFixtures.picky_interrupted_sdk)
    = (Raise (Exc KeyboardInterrupt ""),
       Behaviour.extend (Fixture.ready MoreFixtures.picky_interrupted_sdk)
         [EvCall equity_price_historical kw]) /\
  exists row,
    Pandas.iloc_first Fixture.profile_table = Return row /\
    Adapter.run (Fixture.world Fixture.metrics_failing_sdk)
      (Adapter.GetFundamentals "AAPL" None) (Fixture.ready Fixture.metrics_failing_sdk)
      = (Return (Adapter.comment_block
                   ["Company Fundamentals for " ++ Str.upper "AAPL";
                    "Source: OpenBB"; "Data retrieved on: " ++ "2025-01-15 09:30:00"] ++
                 Str.join Str.LF
                   (openbb_provider.field_lines openbb_provider.field_map row)),
         Behaviour.extend (Fixture.ready Fixture.metrics_failing_sdk)
           [EvCall equity_profile [("symbol", AStr "AAPL"); ("provider", AStr "yfinance")];
            EvCall equity_fundamental_metrics
              [("symbol", AStr "AAPL"); ("provider", AStr "yfinance")]]).
Proof.
  intros c kw. split; [| split].
  - exact (proj1 (@sdk_error_message pyval _ (Fixture.world MoreFixtures.picky_sdk)
                    MoreFixtures.picky_sdk (Fixture.ready MoreFixtures.picky_sdk) eq_refl)
             c equity_price_historical kw (Exc Exception "API error") eq_refl eq_refl).
  - exact (proj1 (@sdk_error_message pyval _
                    (Fixture.world MoreFixtures.picky_interrupted_sdk)
                    MoreFixtures.picky_interrupted_sdk
                    (Fixture.ready MoreFixtures.picky_interrupted_sdk) eq_refl)
             c equity_price_historical kw (Exc KeyboardInterrupt "") eq_refl eq_refl).
  - exact (proj2 (@sdk_error_message pyval _ (Fixture.world Fixture.metrics_failing_sdk)
                    Fixture.metrics_failing_sdk
                    (Fixture.ready Fixture.metrics_failing_sdk) eq_refl)
             "AAPL" None Fixture.profile_table (Exc Exception "not available")
             eq_refl eq_refl eq_refl eq_refl).
Defined.

(** C1, where the claim as stated fails: get_fundamentals asks the SDK
    twice, and an exception raised by the second request (the metrics) is
    swallowed.  With the profile served and the metrics request raising
    Exception("not available"), the adapter returns its report, which
    contains neither "Error" nor the message, and logs no warning. *)
Lemma fundamentals_swallows_metrics_error :
  exists out st',
    Adapter.run (Fixture.world Fixture.metrics_failing_sdk)
      (Adapter.GetFundamentals "AAPL" None)
      (Fixture.ready Fixture.metrics_failing_sdk) = (Return out, st') /\
    Adapter.sdk_calls (trace st') =
      [(equity_profile, [("symbol", AStr "AAPL"); ("provider", AStr "yfinance")]);
       (equity_fundamental_metrics,
        [("symbol", AStr "AAPL"); ("provider", AStr "yfinance")])] /\
    obb_call Fixture.metrics_failing_sdk [] equity_fundamental_metrics
      [("symbol", AStr "AAPL"); ("provider", AStr "yfinance")]
      = Raise (Exc Exception "not available") /\
    Str.occurs "Apple Inc." out /\
    ~ Str.occurs "Error" out /\
    ~ Str.occurs "not available" out /\
    Adapter.warnings (trace st') = [].
Proof.
  eexists. eexists. split; [vm_compute; reflexivity |].
  split; [reflexivity |]. split; [reflexivity |].
  split; [apply StrFacts.occursb_iff; vm_compute; reflexivity |].
  split; [apply StrFacts.not_occurs; vm_compute; reflexivity |].
  split; [apply StrFacts.not_occurs; vm_compute; reflexivity | reflexivity].
Qed.

(** An exception outside the [Exception] hierarchy is not caught by
    [except Exception]: it leaves the adapter as it came. *)
Lemma keyboard_interrupt_propagates :
  fst (Adapter.run (Fixture.world Fixture.interrupted_sdk)
         (Adapter.GetStockData "AAPL" "2025-01-01" "2025-01-02")
         (Fixture.ready Fixture.interrupted_sdk))
  = Raise (Exc KeyboardInterrupt "").
Proof. vm_compute. reflexivity. Qed.

(* ===================================================================== *)
(** * The lazy singleton *)
(* ===================================================================== *)

Section Singleton.
Context {V : Type} `{PyValue V}.
Variable w : World V.

(** First use with the package missing or broken: the import is
    attempted, nothing is cached, and an ImportError is replaced by the
    one carrying the installation hint. *)
Lemma get_obb_import_fails (st : State V) (e : exc) :
  _obb st = None ->
  import_openbb w = Raise e ->
  openbb_provider._get_obb w st =
    (Raise (if isinstance_ImportError e
            then Exc ImportError openbb_provider.not_installed else e),
     {| _obb := None; trace := (trace st ++ [EvImport])%list |}).
Proof.
  intros Hn Hi. destruct st as [o t]. simpl in Hn. subst o.
  unfold openbb_provider._get_obb, bind, read_obb, try_except, emit, lift, raise.
  cbn. rewrite Hi. now destruct (isinstance_ImportError e).
Qed.

(** First use with the package present: the import is followed by the
    reading of the credentials, the object is cached and returned. *)
Lemma get_obb_import_succeeds (st : State V) (obb : Obb V) :
  _obb st = None ->
  import_openbb w = Return obb ->
  exists evs,
    openbb_provider._get_obb w st =
      (Return obb,
       {| _obb := Some obb;
          trace := (trace st ++ [EvImport; EvGetenv "FRED_API_KEY"] ++ evs ++
                    [EvLog INFO "OpenBB SDK initialized successfully"])%list |}).
Proof.
  intros Hn Hi. destruct st as [o t]. simpl in Hn. subst o.
  unfold openbb_provider._get_obb, bind, read_obb, try_except, emit, lift, raise,
    os_getenv, write_obb, logger_info, ret.
  cbn. rewrite Hi. cbn.
  destruct (openbb_provider.truthy (environ w "FRED_API_KEY")) eqn:H1; cbn.
  - destruct (environ w "FRED_API_KEY") as [k|] eqn:Hk; [| discriminate H1].
    rewrite H1. cbn. exists [EvSetFredApiKey k].
    now rewrite <- !app_assoc.
  - destruct (environ w "OPENBB_FRED_API_KEY") as [k|] eqn:Hk; cbn.
    + destruct (negb (k =? "")); cbn.
      * exists [EvGetenv "OPENBB_FRED_API_KEY"; EvSetFredApiKey k].
        now rewrite <- !app_assoc.
      * exists [EvGetenv "OPENBB_FRED_API_KEY"]. now rewrite <- !app_assoc.
    + exists [EvGetenv "OPENBB_FRED_API_KEY"]. now rewrite <- !app_assoc.
Qed.

End Singleton.

(** ** Only [_get_obb] writes the global

    Every other step of the module leaves [_obb] as it found it. *)

Section Keeps.
Context {V : Type}.

Lemma keeps_ret (A : Type) (a : A) : keeps_obb (@ret V A a).
Proof. intros st r st' E. now inversion E. Qed.

Lemma keeps_raise (A : Type) (e : exc) : keeps_obb (@raise V A e).
Proof. intros st r st' E. now inversion E. Qed.

Lemma keeps_lift (A : Type) (x : result A) : keeps_obb (@lift V A x).
Proof. intros st r st' E. now inversion E. Qed.

Lemma keeps_emit (ev : event) : keeps_obb (@emit V ev).
Proof. intros st r st' E. now inversion E. Qed.

Lemma keeps_call (obb : Obb V) (ep : endpoint) (kw : kwargs) : keeps_obb (call obb ep kw).
Proof. intros st r st' E. now inversion E. Qed.

Lemma keeps_bind (A B : Type) (c : M V A) (k : A -> M V B) :
  keeps_obb c -> (forall a, keeps_obb (k a)) -> keeps_obb (bind c k).
Proof.
  intros Hc Hk st r st' E. unfold bind in E.
  destruct (c st) as [[a | e] st1] eqn:Ec.
  - rewrite (Hk a _ _ _ E). exact (Hc _ _ _ Ec).
  - inversion E; subst. exact (Hc _ _ _ Ec).
Qed.

Lemma keeps_try_except (A : Type) (body : M V A) (catches : exc -> bool)
    (handler : exc -> M V A) :
  keeps_obb body -> (forall e, keeps_obb (handler e)) ->
  keeps_obb (try_except body catches handler).
Proof.
  intros Hb Hh st r st' E. unfold try_except in E.
  destruct (body st) as [[a | e] st1] eqn:Eb.
  - inversion E; subst. exact (Hb _ _ _ Eb).
  - destruct (catches e).
    + rewrite (Hh e _ _ _ E). exact (Hb _ _ _ Eb).
    + inversion E; subst. exact (Hb _ _ _ Eb).
Qed.

Lemma keeps_for_each (X : Type) (xs : list X) (body : X -> M V (list string)) :
  (forall x, keeps_obb (body x)) -> keeps_obb (for_each xs body).
Proof.
  intros Hb. induction xs as [| x xs IH]; simpl.
  - apply keeps_ret.
  - apply keeps_bind; [apply Hb | intros l].
    apply keeps_bind; [exact IH | intros ls; apply keeps_ret].
Qed.

End Keeps.

(** Walk through the body of an adapter. *)
Ltac keeps_step :=
  first
    [ apply keeps_ret | apply keeps_raise | apply keeps_lift | apply keeps_emit
    | apply keeps_call
    | apply keeps_for_each; intros ?
    | apply keeps_bind; [| intros ?]
    | apply keeps_try_except; [| intros ?]
    | match goal with
      | |- keeps_obb (if ?b then _ else _) => destruct b
      | |- keeps_obb (match ?x with _ => _ end) => destruct x
      end ].

Lemma run_keeps_singleton (V : Type) `{PyValue V} (w : World V) (c : Adapter.call)
    (obb : Obb V) (st st' : State V) (r : result string) :
  _obb st = Some obb -> Adapter.run w c st = (r, st') -> _obb st' = Some obb.
Proof.
  intros Hc E. rewrite <- Hc. revert E.
  destruct c; cbn [Adapter.run];
    unfold openbb_provider.get_stock_data, openbb_provider.get_fundamentals,
      openbb_provider.get_balance_sheet, openbb_provider.get_cashflow,
      openbb_provider.get_income_statement, openbb_provider.get_insider_transactions,
      openbb_provider.get_news, openbb_provider.get_global_news,
      openbb_provider.get_sec_filings, openbb_provider.get_economic_indicators,
      openbb_provider.get_indicators, openbb_provider.get_market_overview,
      openbb_provider.index_section, openbb_provider.fred_section;
    try (unfold bind at 1; rewrite (get_obb_cached _ _ Hc));
    match goal with
    | |- ?m st = _ -> _ => intros E; apply (fun K : keeps_obb m => K _ _ _ E)
    end;
    unfold logger_warning; cbv zeta; repeat keeps_step.
Qed.

(** ** Missing package *)

(** C4.  When the SDK package cannot be imported (the import raises
    ImportError, or its subclass ModuleNotFoundError) on first use,
    [_get_obb] raises an ImportError whose message contains the hint
    "openbb is not installed"; nothing is cached; and every function that
    goes through the singleton lets this very exception reach its caller
    as an exception, instead of returning an error string. *)
Theorem missing_sdk_propagates (V : Type) `{PyValue V} (w : World V) (st : State V)
    (e : exc) :
  _obb st = None ->
  import_openbb w = Raise e ->
  isinstance_ImportError e = true ->
  let err := Exc ImportError openbb_provider.not_installed in
  let st' := {| _obb := None; trace := (trace st ++ [EvImport])%list |} in
  openbb_provider._get_obb w st = (Raise err, st') /\
  Str.occurs "openbb is not installed" (exc_msg err) /\
  isinstance_ImportError err = true /\
  (forall c, Adapter.uses_sdk c = true -> Adapter.run w c st = (Raise err, st')) /\
  (forall c out st'', Adapter.uses_sdk c = true -> Adapter.run w c st <> (Return out, st'')).
Proof.
  intros Hn Hi He err st'.
  assert (Hget : openbb_provider._get_obb w st = (Raise err, st')).
  { rewrite (get_obb_import_fails _ _ Hn Hi), He. reflexivity. }
  assert (Hrun : forall c, Adapter.uses_sdk c = true -> Adapter.run w c st = (Raise err, st')).
  { intros c Hu. destruct c; try discriminate Hu; cbn [Adapter.run];
      unfold openbb_provider.get_stock_data, openbb_provider.get_fundamentals,
        openbb_provider.get_balance_sheet, openbb_provider.get_cashflow,
        openbb_provider.get_income_statement, openbb_provider.get_insider_transactions,
        openbb_provider.get_news, openbb_provider.get_global_news,
        openbb_provider.get_sec_filings, openbb_provider.get_economic_indicators,
        openbb_provider.get_market_overview;
      unfold bind at 1; rewrite Hget; reflexivity. }
  split; [exact Hget |].
  split; [exists "", ". Install with: pip install 'openbb[yfinance,sec,fred]'"; reflexivity |].
  split; [reflexivity |].
  split; [exact Hrun |].
  intros c out st'' Hu E. rewrite (Hrun c Hu) in E. discriminate E.
Qed.

(** The test of the suite: no module named openbb. *)
Lemma missing_sdk_propagates_witness :
  let err := Exc ImportError openbb_provider.not_installed in
  let st' := {| _obb := None; trace := [EvImport] |} in
  openbb_provider._get_obb Fixture.world_without_sdk Fixture.fresh = (Raise err, st') /\
  Str.occurs "openbb is not installed" (exc_msg err) /\
  isinstance_ImportError err = true /\
  (forall c, Adapter.uses_sdk c = true ->
             Adapter.run Fixture.world_without_sdk c Fixture.fresh = (Raise err, st')) /\
  (forall c out st'', Adapter.uses_sdk c = true ->
             Adapter.run Fixture.world_without_sdk c Fixture.fresh <> (Return out, st'')).
Proof.
  apply (@missing_sdk_propagates pyval _ Fixture.world_without_sdk Fixture.fresh
           (Exc ModuleNotFoundError "No module named 'openbb'")).
  - reflexivity.
  - reflexivity.
  - reflexivity.
Defined.

(** Any other failure of the import leaves [_get_obb] unchanged, so the
    ImportError with the hint stands for the missing package alone. *)
Lemma other_import_failure_unchanged (V : Type) `{PyValue V} (w : World V)
    (st : State V) (e : exc) :
  _obb st = None ->
  import_openbb w = Raise e ->
  isinstance_ImportError e = false ->
  fst (openbb_provider._get_obb w st) = Raise e.
Proof.
  intros Hn Hi He. rewrite (get_obb_import_fails _ _ Hn Hi), He. reflexivity.
Qed.

(** ** Reuse and reset *)

(** C5.  After one successful call of [_get_obb] the global [_obb] holds
    the instance returned; from then on, in whatever state the module
    carries that instance (and every adapter call keeps it), [_get_obb]
    returns the same instance and adds nothing to the trace: no import,
    no reading of the environment; and once [_obb] is set back to None,
    the next call imports again and caches what that import gives. *)
Theorem lazy_singleton (V : Type) `{PyValue V} (w : World V) (st st1 : State V)
    (obb : Obb V) :
  openbb_provider._get_obb w st = (Return obb, st1) ->
  _obb st1 = Some obb /\
  (forall w' : World V, openbb_provider._get_obb w' st1 = (Return obb, st1)) /\
  (forall (w' : World V) c r st2,
      Adapter.run w' c st1 = (r, st2) ->
      _obb st2 = Some obb /\
      forall w'' : World V, openbb_provider._get_obb w'' st2 = (Return obb, st2)) /\
  (forall w' : World V,
      let reset := {| _obb := None; trace := trace st1 |} in
      exists r st3 evs,
        openbb_provider._get_obb w' reset = (r, st3) /\
        trace st3 = (trace st1 ++ EvImport :: evs)%list /\
        forall obb', import_openbb w' = Return obb' ->
                     r = Return obb' /\ _obb st3 = Some obb' /\
                     In (EvGetenv "FRED_API_KEY") evs).
Proof.
  intros E.
  assert (Hc : _obb st1 = Some obb).
  { destruct (_obb st) as [o |] eqn:Ho.
    - rewrite (get_obb_cached w _ Ho) in E. inversion E; subst. exact Ho.
    - destruct (import_openbb w) as [o | e] eqn:Hi.
      + destruct (get_obb_import_succeeds w _ Ho Hi) as [evs Hs].
        rewrite Hs in E. inversion E; subst. reflexivity.
      + rewrite (get_obb_import_fails w _ Ho Hi) in E. discriminate E. }
  split; [exact Hc |].
  split; [intros w'; apply get_obb_cached, Hc |].
  split.
  - intros w' c r st2 Hrun.
    assert (Hc2 : _obb st2 = Some obb)
      by (eapply run_keeps_singleton; [exact Hc | exact Hrun]).
    split; [exact Hc2 | intros w''; apply get_obb_cached, Hc2].
  - intros w' reset.
    destruct (import_openbb w') as [o | e] eqn:Hi.
    + destruct (get_obb_import_succeeds w' reset eq_refl Hi) as [evs Hs].
      eexists. eexists. eexists. split; [exact Hs |].
      split; [reflexivity |].
      intros obb' Ho. inversion Ho; subst. repeat split. now left.
    + eexists. eexists. exists []. split; [apply (get_obb_import_fails w' reset eq_refl Hi) |].
      split; [reflexivity |]. intros obb' Ho. discriminate Ho.
Qed.

(** Two calls in a row, then a reset, in a world where a later import
    gives another instance. *)
Lemma lazy_singleton_witness :
  let obb := Fixture.balance_sdk in
  let st1 : State pyval :=
    {| _obb := Some obb;
       trace := [EvImport; EvGetenv "FRED_API_KEY"; EvSetFredApiKey "abc123";
                 EvLog INFO "OpenBB SDK initialized successfully"] |} in
  _obb st1 = Some obb /\
  (forall w' : World pyval, openbb_provider._get_obb w' st1 = (Return obb, st1)) /\
  (forall (w' : World pyval) c r st2,
      Adapter.run w' c st1 = (r, st2) ->
      _obb st2 = Some obb /\
      forall w'' : World pyval, openbb_provider._get_obb w'' st2 = (Return obb, st2)) /\
  (forall w' : World pyval,
      let reset := {| _obb := None; trace := trace st1 |} in
      exists r st3 evs,
        openbb_provider._get_obb w' reset = (r, st3) /\
        trace st3 = (trace st1 ++ EvImport :: evs)%list /\
        forall obb', import_openbb w' = Return obb' ->
                     r = Return obb' /\ _obb st3 = Some obb' /\
                     In (EvGetenv "FRED_API_KEY") evs).
Proof.
  intros obb st1.
  apply (@lazy_singleton pyval _ (Fixture.world_with_key Fixture.balance_sdk)
           Fixture.fresh st1 obb).
  vm_compute. reflexivity.
Defined.

(* ===================================================================== *)
(** * What the adapters ask of the SDK *)
(* ===================================================================== *)

(** Follow an adapter through every answer the SDK can give. *)
Ltac any_answer :=
  match goal with
  | |- context [obb_call ?o ?t ?p ?k] =>
      let df := fresh "df" in
      let err := fresh "err" in
      destruct (obb_call o t p k) as [df | err];
      [destruct (Pandas.empty df) | destruct (isinstance_Exception err)]
  end.

Lemma period_of_cases (freq : string) :
  (Str.lower freq = "quarterly" -> openbb_provider.period_of freq = "quarter") /\
  (Str.lower freq <> "quarterly" -> openbb_provider.period_of freq = "annual") /\
  (openbb_provider.period_of freq = "quarter" -> Str.lower freq = "quarterly").
Proof.
  unfold openbb_provider.period_of.
  destruct (String.eqb_spec (Str.lower freq) "quarterly") as [E | N];
    repeat split; intros K; try reflexivity; try contradiction; try discriminate K.
  exact E.
Qed.

(** C9.  get_balance_sheet, get_cashflow and get_income_statement send
    period="quarter" exactly when the lower-cased frequency is
    "quarterly" and period="annual" for every other string, "monthly" and
    the empty string included; whatever the frequency, the request is
    made (once, with symbol, period, provider="yfinance" and limit=8), so
    no frequency is rejected. *)
Theorem period_from_frequency (V : Type) `{PyValue V} (w : World V) (c : Adapter.call)
    (ep : endpoint) (ticker freq : string) (obb : Obb V) (st : State V) :
  Adapter.statement_call c = Some (ep, ticker, freq) ->
  _obb st = Some obb ->
  exists period r st' evs,
    (Str.lower freq = "quarterly" -> period = "quarter") /\
    (Str.lower freq <> "quarterly" -> period = "annual") /\
    (period = "quarter" -> Str.lower freq = "quarterly") /\
    Adapter.run w c st = (r, st') /\
    trace st' =
      (trace st ++
       EvCall ep [("symbol", AStr (Str.upper ticker)); ("period", AStr period);
                  ("provider", AStr "yfinance"); ("limit", AInt 8)] :: evs)%list /\
    Adapter.sdk_calls evs = [].
Proof.
  intros Hs Hc. exists (openbb_provider.period_of freq).
  destruct (period_of_cases freq) as [Hq [Ha Ho]].
  destruct c; simpl in Hs; try discriminate; injection Hs as <- <- <-;
    enter_adapter Hc; any_answer;
    eexists; eexists; eexists;
    (split; [exact Hq |]); (split; [exact Ha |]); (split; [exact Ho |]);
    (split; [reflexivity |]);
    cbn [trace]; rewrite <- ?app_assoc;
    (split; [reflexivity | reflexivity]).
Qed.

(** An invalid frequency on a live SDK. *)
Lemma period_from_frequency_witness :
  exists period r st' evs,
    (Str.lower "monthly" = "quarterly" -> period = "quarter") /\
    (Str.lower "monthly" <> "quarterly" -> period = "annual") /\
    (period = "quarter" -> Str.lower "monthly" = "quarterly") /\
    Adapter.run (Fixture.world Fixture.balance_sdk)
      (Adapter.GetCashflow "aapl" "monthly" None) (Fixture.ready Fixture.balance_sdk)
      = (r, st') /\
    trace st' =
      ([] ++
       EvCall equity_fundamental_cash
         [("symbol", AStr (Str.upper "aapl")); ("period", AStr period);
          ("provider", AStr "yfinance"); ("limit", AInt 8)] :: evs)%list /\
    Adapter.sdk_calls evs = [].
Proof.
  apply (@period_from_frequency pyval _ (Fixture.world Fixture.balance_sdk)
           (Adapter.GetCashflow "aapl" "monthly" None) equity_fundamental_cash
           "aapl" "monthly" Fixture.balance_sdk (Fixture.ready Fixture.balance_sdk)).
  - reflexivity.
  - reflexivity.
Defined.

(** The frequencies the claim names, and the letter case. *)
Lemma period_of_examples :
  openbb_provider.period_of "quarterly" = "quarter" /\
  openbb_provider.period_of "QUARTERLY" = "quarter" /\
  openbb_provider.period_of "Quarterly" = "quarter" /\
  openbb_provider.period_of "annual" = "annual" /\
  openbb_provider.period_of "monthly" = "annual" /\
  openbb_provider.period_of "" = "annual" /\
  openbb_provider.period_of "quarter" = "annual".
Proof. repeat split. Qed.

(** C7.  get_economic_indicators asks the FRED endpoint exactly once,
    whatever the answer, with the keywords symbol (the indicator as
    given), provider="fred", and each date that is given; for
    ("UNRATE", "2024-01-01", "2024-12-31") these are exactly
    symbol="UNRATE", provider="fred", start_date="2024-01-01",
    end_date="2024-12-31"; a date that is None is left out. *)
Theorem fred_request (V : Type) `{PyValue V} (w : World V) (indicator : string)
    (start_date end_date : option string) (obb : Obb V) (st : State V) :
  _obb st = Some obb ->
  let kw := openbb_provider.fred_kwargs indicator start_date end_date in
  (exists r st',
      Adapter.run w (Adapter.GetEconomicIndicators indicator start_date end_date) st
        = (r, st') /\
      Adapter.sdk_calls (trace st') =
        (Adapter.sdk_calls (trace st) ++ [(economy_fred_series, kw)])%list) /\
  (indicator = "UNRATE" -> start_date = Some "2024-01-01" ->
   end_date = Some "2024-12-31" ->
   kw = [("symbol", AStr "UNRATE"); ("provider", AStr "fred");
         ("start_date", AStr "2024-01-01"); ("end_date", AStr "2024-12-31")]) /\
  (start_date = None -> ~ In "start_date" (map fst kw)) /\
  (end_date = None -> ~ In "end_date" (map fst kw)) /\
  (start_date = None -> end_date = None ->
   kw = [("symbol", AStr indicator); ("provider", AStr "fred")]).
Proof.
  intros Hc kw. split.
  - enter_adapter Hc; any_answer; eexists; eexists; (split; [reflexivity |]);
      cbn [trace];
      rewrite ?sdk_calls_after_log, sdk_calls_after_call; reflexivity.
  - split; [intros -> -> ->; reflexivity |].
    unfold kw, openbb_provider.fred_kwargs.
    split; [| split].
    + intros ->. destruct end_date as [d |]; [destruct (openbb_provider.truthy (Some d)) |];
        simpl; intros [K | [K | K]]; try discriminate K;
        try (destruct K as [K | K]; [discriminate K | exact K]); exact K.
    + intros ->. destruct start_date as [d |]; [destruct (openbb_provider.truthy (Some d)) |];
        simpl; intros [K | [K | K]]; try discriminate K;
        try (destruct K as [K | K]; [discriminate K | exact K]); exact K.
    + intros -> ->. reflexivity.
Qed.

(** The scenario of the specification, on an SDK that serves a table. *)
Lemma fred_request_witness :
  let kw := openbb_provider.fred_kwargs "UNRATE" (Some "2024-01-01") (Some "2024-12-31") in
  (exists r st',
      Adapter.run (Fixture.world Fixture.balance_sdk)
        (Adapter.GetEconomicIndicators "UNRATE" (Some "2024-01-01") (Some "2024-12-31"))
        (Fixture.ready Fixture.balance_sdk) = (r, st') /\
      Adapter.sdk_calls (trace st') = ([] ++ [(economy_fred_series, kw)])%list) /\
  kw = [("symbol", AStr "UNRATE"); ("provider", AStr "fred");
        ("start_date", AStr "2024-01-01"); ("end_date", AStr "2024-12-31")].
Proof.
  intros kw.
  destruct (@fred_request pyval _ (Fixture.world Fixture.balance_sdk) "UNRATE"
              (Some "2024-01-01") (Some "2024-12-31") Fixture.balance_sdk
              (Fixture.ready Fixture.balance_sdk) eq_refl) as [Hrun [Hkw _]].
  split; [exact Hrun | exact (Hkw eq_refl eq_refl eq_refl)].
Defined.

(** Without dates only the symbol and the provider are sent; an empty
    string counts as no date. *)
Lemma fred_kwargs_examples :
  openbb_provider.fred_kwargs "FEDFUNDS" None None
    = [("symbol", AStr "FEDFUNDS"); ("provider", AStr "fred")] /\
  openbb_provider.fred_kwargs "GDP" None (Some "2024-12-31")
    = [("symbol", AStr "GDP"); ("provider", AStr "fred");
       ("end_date", AStr "2024-12-31")] /\
  openbb_provider.fred_kwargs "GDP" (Some "") None
    = [("symbol", AStr "GDP"); ("provider", AStr "fred")].
Proof. repeat split. Qed.

(* ===================================================================== *)
(** * The shape of the answers *)
(* ===================================================================== *)

Section Tables.
Context {V : Type} `{PyValue V}.

Lemma tail_rows (n : nat) (df : Pandas.DataFrame V) :
  Pandas.rows (Pandas.tail n df)
  = skipn (Pandas.len df - Nat.min (Pandas.len df) n) (Pandas.rows df).
Proof.
  unfold Pandas.tail, Pandas.len. cbn [Pandas.rows]. f_equal. lia.
Qed.

Lemma tail_len (n : nat) (df : Pandas.DataFrame V) :
  Pandas.len (Pandas.tail n df) = Nat.min (Pandas.len df) n.
Proof.
  unfold Pandas.tail, Pandas.len. cbn [Pandas.rows]. rewrite length_skipn. lia.
Qed.





End Tables.

(** C10.  On a non-empty FRED table of n rows, get_economic_indicators
    returns its header followed by the CSV of the last min(n, 20) rows
    only; the rows before them are left out without a warning, and the
    header holds the line "# Showing last min(n, 20) data points". *)
Theorem fred_last_twenty (V : Type) `{PyValue V} (w : World V) (indicator : string)
    (start_date end_date : option string) (obb : Obb V) (st : State V)
    (df : Pandas.DataFrame V) :
  _obb st = Some obb ->
  obb_call obb (trace st) economy_fred_series
    (openbb_provider.fred_kwargs indicator start_date end_date) = Return df ->
  Pandas.empty df = false ->
  let n := Pandas.len df in
  let k := Nat.min n 20 in
  let shown := skipn (n - k) (Pandas.rows df) in
  let lines :=
    ["FRED Economic Data: " ++ indicator;
     "Source: OpenBB (FRED)";
     "Showing last " ++ Str.of_nat k ++ " data points";
     "Data retrieved on: " ++ now w] in
  exists st',
    Adapter.run w (Adapter.GetEconomicIndicators indicator start_date end_date) st
      = (Return (Adapter.comment_block lines ++
                 Pandas.csv_line (Pandas.index_name df :: Pandas.columns df) ++
                 String.concat "" (map Pandas.csv_row shown)),
         st') /\
    List.length shown = k /\
    Pandas.rows df = (firstn (n - k) (Pandas.rows df) ++ shown)%list /\
    Str.occurs ("# Showing last " ++ Str.of_nat k ++ " data points" ++ Str.LF)
      (Adapter.comment_block lines) /\
    Adapter.warnings (trace st') = Adapter.warnings (trace st).
Proof.
  intros Hc Hans Hne n k shown lines.
  enter_adapter Hc. rewrite Hans, Hne.
  unfold Pandas.to_csv. rewrite tail_rows, tail_len.
  cbn [Pandas.tail Pandas.index_name Pandas.columns].
  fold n. fold k. fold shown.
  eexists. split.
  - do 2 f_equal. unfold lines, Adapter.comment_block, openbb_provider.retrieved_on.
    cbn [map String.concat]. rewrite !StrFacts.app_assoc. reflexivity.
  - split; [unfold shown; rewrite length_skipn; unfold k, n, Pandas.len; lia |].
    split; [symmetry; apply firstn_skipn |].
    split; [| apply warnings_after_call].
    unfold lines, Adapter.comment_block. cbn [map String.concat].
    exists ("# " ++ ("FRED Economic Data: " ++ indicator) ++ Str.LF ++
            "# " ++ "Source: OpenBB (FRED)" ++ Str.LF),
      ("# " ++ ("Data retrieved on: " ++ now w) ++ Str.LF ++ Str.LF).
    rewrite !StrFacts.app_assoc. reflexivity.
Qed.

(** A series of 22 observations: the first two are left out. *)
Lemma fred_last_twenty_witness :
  let df := Fixture.series_table 22 in
  let shown := skipn 2 (Pandas.rows df) in
  let lines :=
    ["FRED Economic Data: UNRATE"; "Source: OpenBB (FRED)";
     "Showing last 20 data points"; "Data retrieved on: 2025-01-15 09:30:00"] in
  exists st',
    Adapter.run (Fixture.world (Fixture.series_sdk 22))
      (Adapter.GetEconomicIndicators "UNRATE" None None)
      (Fixture.ready (Fixture.series_sdk 22))
      = (Return (Adapter.comment_block lines ++
                 Pandas.csv_line (Pandas.index_name df :: Pandas.columns df) ++
                 String.concat "" (map Pandas.csv_row shown)),
         st') /\
    List.length shown = 20 /\
    Pandas.rows df = (firstn 2 (Pandas.rows df) ++ shown)%list /\
    Str.occurs ("# Showing last 20 data points" ++ Str.LF) (Adapter.comment_block lines) /\
    Adapter.warnings (trace st') = [].
Proof.
  exact (@fred_last_twenty pyval _ (Fixture.world (Fixture.series_sdk 22)) "UNRATE"
           None None (Fixture.series_sdk 22) (Fixture.ready (Fixture.series_sdk 22))
           (Fixture.series_table 22) eq_refl eq_refl eq_refl).
Defined.




Section RoundingShape.
Context {V : Type} `{PyValue V}.

Lemma round2_rows_length (col : string) (cols : list string) (rs rs' : list (V * list V)) :
  Pandas.round2_rows col cols rs = Some rs' -> List.length rs' = List.length rs.
Proof.
  revert rs'. induction rs as [| r rs IH]; intros rs' E; simpl in E.
  - injection E as <-. reflexivity.
  - destruct (Pandas.round2_cells col cols (snd r)) as [cells |]; [| discriminate E].
    destruct (Pandas.round2_rows col cols rs) as [rest |]; [| discriminate E].
    injection E as <-. simpl. now rewrite (IH rest).
Qed.

(** Rounding a column changes neither the index, nor the columns, nor
    the number of rows. *)
Lemma round2_column_shape (col : string) (df df' : Pandas.DataFrame V) :
  Pandas.round2_column col df = Return df' ->
  Pandas.index_name df' = Pandas.index_name df /\
  Pandas.columns df' = Pandas.columns df /\
  Pandas.len df' = Pandas.len df.
Proof.
  unfold Pandas.round2_column.
  destruct (Pandas.round2_rows col (Pandas.columns df) (Pandas.rows df)) as [rs |] eqn:E;
    [| discriminate].
  intros E'. injection E' as <-. unfold Pandas.len. cbn.
  repeat split. exact (round2_rows_length _ _ _ E).
Qed.

Lemma round2_columns_shape (cols : list string) (df df' : Pandas.DataFrame V) :
  Pandas.round2_columns cols df = Return df' ->
  Pandas.index_name df' = Pandas.index_name df /\
  Pandas.columns df' = Pandas.columns df /\
  Pandas.len df' = Pandas.len df.
Proof.
  revert df. induction cols as [| col cols IH]; intros df E; simpl in E.
  - injection E as <-. repeat split.
  - destruct (Pandas.round2_column col df) as [df1 | e] eqn:E1; [| discriminate E].
    destruct (round2_column_shape _ _ E1) as [I1 [C1 L1]].
    destruct (IH _ E) as [I2 [C2 L2]].
    repeat split; congruence.
Qed.

(** The only error rounding can raise is the TypeError of pandas. *)
Lemma round2_columns_error (cols : list string) (df : Pandas.DataFrame V) (e : exc) :
  Pandas.round2_columns cols df = Raise e -> e = Pandas.not_numeric.
Proof.
  revert df. induction cols as [| col cols IH]; intros df E; simpl in E; [discriminate E |].
  unfold Pandas.round2_column in E.
  destruct (Pandas.round2_rows col (Pandas.columns df) (Pandas.rows df)) as [rs |].
  - exact (IH _ E).
  - now injection E as <-.
Qed.

Lemma shown_table_len (c : Adapter.call) (df table : Pandas.DataFrame V) :
  Adapter.shown_table c df = Return table ->
  Pandas.len table =
    match c with
    | Adapter.GetEconomicIndicators _ _ _ => Nat.min (Pandas.len df) 20
    | _ => Pandas.len df
    end.
Proof.
  destruct c; cbn [Adapter.shown_table]; intros E;
    try (injection E as <-; reflexivity).
  - now destruct (round2_columns_shape _ _ E) as [_ [_ L]].
  - injection E as <-. apply tail_len.
Qed.

Lemma shown_table_error (c : Adapter.call) (df : Pandas.DataFrame V) (e : exc) :
  Adapter.shown_table c df = Raise e ->
  e = Pandas.not_numeric /\
  exists symbol start_date end_date, c = Adapter.GetStockData symbol start_date end_date.
Proof.
  destruct c; cbn [Adapter.shown_table]; intros E; try discriminate E.
  split; [exact (round2_columns_error _ _ E) |]. now eexists; eexists; eexists.
Qed.

Variable w : World V.

(** A tabular adapter on an answer with data: the comment block and the
    CSV of the table shown; or, when get_stock_data cannot round a price
    column, the error string and a warning. *)
Lemma run_on_table (c : Adapter.call) (ep : endpoint) (kw : kwargs) (obb : Obb V)
    (st : State V) (df : Pandas.DataFrame V) :
  Adapter.tabular c = true ->
  Adapter.request w c = Some (ep, kw) ->
  _obb st = Some obb ->
  obb_call obb (trace st) ep kw = Return df ->
  Pandas.empty df = false ->
  Adapter.run w c st =
    match Adapter.shown_table c df with
    | Return table =>
        (Return (Adapter.comment_block (Adapter.header_lines w c (Pandas.len table)) ++
                 Pandas.to_csv table),
         Behaviour.extend st [EvCall ep kw])
    | Raise e =>
        (Return (Adapter.error_string c e),
         Behaviour.extend st [EvCall ep kw; EvLog WARNING (Adapter.warning_logged c e)])
    end.
Proof.
  intros Ht Hreq Hc Hans Hne.
  destruct c; try discriminate Ht; enter_request Hreq Hc; rewrite Hans, Hne;
    cbv zeta; cbn [Adapter.shown_table Adapter.header_lines];
    unfold openbb_provider.retrieved_on, Adapter.comment_block, Behaviour.extend;
    cbn [map String.concat trace _obb].
  2-6: (f_equal; f_equal; rewrite !StrFacts.app_assoc; reflexivity).
  destruct (Pandas.round2_columns openbb_provider.numeric_cols
              (Pandas.rename openbb_provider.col_map df)) as [table | e] eqn:E.
  - f_equal. f_equal. rewrite !StrFacts.app_assoc. reflexivity.
  - rewrite (round2_columns_error _ _ E). cbn [isinstance_Exception exc_cls Pandas.not_numeric].
    cbn [trace _obb Adapter.error_string Adapter.warning_logged].
    rewrite <- app_assoc. reflexivity.
Qed.

End RoundingShape.

(** C8 (as amended).  For each of the six tabular adapters, with the
    singleton in place, when the request the adapter makes is answered
    with a table that is not empty:
    - the returned string is a block of comment lines closed by an empty
      line, followed by the CSV of the table (for get_stock_data with the
      price columns renamed and rounded, for get_economic_indicators cut
      to its last 20 rows);
    - the comment lines are a title, the source ("Source: OpenBB ...")
      and the retrieval timestamp; get_stock_data adds
      "Total records: n" and get_economic_indicators
      "Showing last n data points", n being the number of CSV rows; the
      headers of the other four are three lines that are the same
      whatever the number of rows, so they state no record count;
    - the one exception: when a price column of get_stock_data holds a
      value that cannot be rounded, pandas raises a TypeError, and the
      adapter returns its error string and logs a warning instead. *)
Theorem commented_csv_block (V : Type) `{PyValue V} (w : World V) (c : Adapter.call)
    (ep : endpoint) (kw : kwargs) (obb : Obb V) (st : State V) (df : Pandas.DataFrame V) :
  Adapter.tabular c = true ->
  Adapter.request w c = Some (ep, kw) ->
  _obb st = Some obb ->
  obb_call obb (trace st) ep kw = Return df ->
  Pandas.empty df = false ->
  match Adapter.shown_table c df with
  | Return table =>
      let lines := Adapter.header_lines w c (Pandas.len table) in
      Adapter.run w c st
        = (Return (Adapter.comment_block lines ++ Pandas.to_csv table),
           Behaviour.extend st [EvCall ep kw]) /\
      In (Adapter.source_line c) lines /\
      Str.startswith "Source: OpenBB" (Adapter.source_line c) = true /\
      In ("Data retrieved on: " ++ now w) lines /\
      Pandas.len table =
        match c with
        | Adapter.GetEconomicIndicators _ _ _ => Nat.min (Pandas.len df) 20
        | _ => Pandas.len df
        end /\
      match Adapter.count_line c (Pandas.len table) with
      | Some counted => In counted lines /\ List.length lines = 4
      | None => List.length lines = 3 /\ forall n, Adapter.header_lines w c n = lines
      end
  | Raise e =>
      (exists symbol start_date end_date,
          c = Adapter.GetStockData symbol start_date end_date) /\
      e = Pandas.not_numeric /\
      Adapter.run w c st
        = (Return (Adapter.error_string c e),
           Behaviour.extend st [EvCall ep kw; EvLog WARNING (Adapter.warning_logged c e)])
  end.
Proof.
  intros Ht Hreq Hc Hans Hne.
  pose proof (@run_on_table _ _ w c ep kw obb st df Ht Hreq Hc Hans Hne) as Hrun.
  destruct (Adapter.shown_table c df) as [table | e] eqn:Hshown.
  - cbv zeta. split; [exact Hrun |].
    pose proof (shown_table_len c df Hshown) as Hlen.
    destruct c; try discriminate Ht;
      cbn [Adapter.header_lines Adapter.source_line Adapter.count_line];
      (split; [simpl; tauto |]); (split; [reflexivity |]);
      (split; [simpl; tauto |]); (split; [exact Hlen |]);
      split; first [reflexivity | simpl; tauto].
  - destruct (shown_table_error c df Hshown) as [He Hstock].
    split; [exact Hstock |]. split; [exact He | exact Hrun].
Qed.

(** The stock-data test: two records, counted in the header; and the
    same request answered with a text among the closing prices. *)
Lemma commented_csv_block_witness :
  let c := Adapter.GetStockData "AAPL" "2025-01-01" "2025-01-02" in
  let kw := [("symbol", AStr "AAPL"); ("start_date", AStr "2025-01-01");
             ("end_date", AStr "2025-01-02"); ("provider", AStr "yfinance")] in
  (let table : Pandas.DataFrame pyval :=
     {| Pandas.index_name := "date";
        Pandas.columns := ["Open"; "High"; "Low"; "Close"; "Volume"];
        Pandas.rows := Pandas.rows Fixture.price_table |} in
   let lines := ["Stock data for AAPL from 2025-01-01 to 2025-01-02";
                 "Total records: 2";
                 "Source: OpenBB (yfinance provider)";
                 "Data retrieved on: 2025-01-15 09:30:00"] in
   Adapter.run (Fixture.world Fixture.price_sdk) c (Fixture.ready Fixture.price_sdk)
     = (Return (Adapter.comment_block lines ++ Pandas.to_csv table),
        Behaviour.extend (Fixture.ready Fixture.price_sdk) [EvCall equity_price_historical kw]) /\
   In "Source: OpenBB (yfinance provider)" lines /\
   Str.startswith "Source: OpenBB" "Source: OpenBB (yfinance provider)" = true /\
   In "Data retrieved on: 2025-01-15 09:30:00" lines /\
   2 = 2 /\
   In "Total records: 2" lines /\ List.length lines = 4) /\
  ((exists symbol start_date end_date, c = Adapter.GetStockData symbol start_date end_date) /\
   Pandas.not_numeric = Pandas.not_numeric /\
   Adapter.run (Fixture.world MoreFixtures.text_price_sdk) c
     (Fixture.ready MoreFixtures.text_price_sdk)
     = (Return "Error fetching stock data for AAPL: Expected numeric dtype, got object instead.",
        Behaviour.extend (Fixture.ready MoreFixtures.text_price_sdk)
          [EvCall equity_price_historical kw;
           EvLog WARNING
             "OpenBB get_stock_data failed for AAPL: Expected numeric dtype, got object instead."])).
Proof.
  intros c kw. split.
  - exact (@commented_csv_block pyval _ (Fixture.world Fixture.price_sdk) c
             equity_price_historical kw Fixture.price_sdk (Fixture.ready Fixture.price_sdk)
             Fixture.price_table eq_refl eq_refl eq_refl eq_refl eq_refl).
  - exact (@commented_csv_block pyval _ (Fixture.world MoreFixtures.text_price_sdk) c
             equity_price_historical kw MoreFixtures.text_price_sdk
             (Fixture.ready MoreFixtures.text_price_sdk)
             MoreFixtures.text_price_table eq_refl eq_refl eq_refl eq_refl eq_refl).
Defined.

(** What the first call returns, character for character. *)
Lemma stock_data_example :
  fst (Adapter.run (Fixture.world Fixture.price_sdk)
         (Adapter.GetStockData "aapl" "2025-01-01" "2025-01-02")
         (Fixture.ready Fixture.price_sdk))
  = Return (Adapter.comment_block
              ["Stock data for AAPL from 2025-01-01 to 2025-01-02";
               "Total records: 2";
               "Source: OpenBB (yfinance provider)";
               "Data retrieved on: 2025-01-15 09:30:00"] ++
            "date,Open,High,Low,Close,Volume" ++ Str.LF ++
            "2025-01-01,150,155,149,154,1000000" ++ Str.LF ++
            "2025-01-02,151,156,150,155,1100000" ++ Str.LF).
Proof. vm_compute. reflexivity. Qed.

(** C8, where the claim as stated fails.
    (1) The header of get_balance_sheet (as of get_cashflow,
    get_income_statement and get_insider_transactions) states no record
    count: on a table of 7 records the header is the three lines below,
    and the number 7 occurs nowhere in it.
    (2) A result that is not empty does not always give a CSV block: on
    a table whose close column holds a text, get_stock_data returns an
    error string, which is no comment block. *)
Lemma tabular_block_counterexamples :
  (let header :=
     Adapter.comment_block
       ["Balance Sheet data for AAPL (quarterly)"; "Source: OpenBB";
        "Data retrieved on: 2025-01-15 09:30:00"] in
   Adapter.tabular (Adapter.GetBalanceSheet "AAPL" "quarterly" None) = true /\
   Pandas.empty (Fixture.series_table 7) = false /\
   Pandas.len (Fixture.series_table 7) = 7 /\
   fst (Adapter.run (Fixture.world (Fixture.series_sdk 7))
          (Adapter.GetBalanceSheet "AAPL" "quarterly" None)
          (Fixture.ready (Fixture.series_sdk 7)))
     = Return (header ++ Pandas.to_csv (Fixture.series_table 7)) /\
   ~ Str.occurs (Str.of_nat 7) header) /\
  (Adapter.tabular (Adapter.GetStockData "AAPL" "2025-01-01" "2025-01-02") = true /\
   Pandas.empty MoreFixtures.text_price_table = false /\
   exists out,
     fst (Adapter.run (Fixture.world MoreFixtures.text_price_sdk)
            (Adapter.GetStockData "AAPL" "2025-01-01" "2025-01-02")
            (Fixture.ready MoreFixtures.text_price_sdk)) = Return out /\
     Str.startswith "Error fetching stock data for AAPL" out = true /\
     Str.startswith "#" out = false).
Proof.
  split.
  - intros header.
    split; [reflexivity |]. split; [reflexivity |]. split; [reflexivity |].
    split; [vm_compute; reflexivity |].
    apply StrFacts.not_occurs. vm_compute. reflexivity.
  - split; [reflexivity |]. split; [reflexivity |].
    eexists. split; [vm_compute; reflexivity |]. split; reflexivity.
Qed.

(* ===================================================================== *)
(** * The vendor router *)
(* ===================================================================== *)

Section Candidates.

Lemma existsb_eqb_In (v : string) (l : list string) :
  existsb (String.eqb v) l = true <-> In v l.
Proof.
  rewrite existsb_exists. split.
  - intros [x [Hx Hv]]. apply String.eqb_eq in Hv. now subst.
  - intros Hin. exists v. split; [exact Hin | apply String.eqb_refl].
Qed.

Lemma filter_others_absent (v : string) (l : list string) :
  ~ In v l -> filter (fun x => negb (String.eqb x v)) l = l.
Proof.
  induction l as [| y l IH]; simpl; [reflexivity |].
  intros Hn. destruct (String.eqb_spec y v) as [-> | Hne]; simpl.
  - exfalso. apply Hn. now left.
  - rewrite IH; [reflexivity | tauto].
Qed.

Lemma filter_others_length (v : string) (l : list string) :
  NoDup l -> In v l ->
  S (List.length (filter (fun x => negb (String.eqb x v)) l)) = List.length l.
Proof.
  induction l as [| y l IH]; simpl; [contradiction |].
  intros Hnd Hin. inversion Hnd as [| ? ? Hy Hl]; subst.
  destruct (String.eqb_spec y v) as [-> | Hne]; simpl.
  - now rewrite (filter_others_absent _ _ Hy).
  - destruct Hin as [-> | Hin]; [contradiction |]. now rewrite (IH Hl Hin).
Qed.

Lemma candidate_list_In (configured : option string) (registered : list string) (v : string) :
  In v (interface.candidate_list configured registered) <-> In v registered.
Proof.
  destruct configured as [c |]; simpl; [| tauto].
  rewrite in_app_iff, filter_In.
  destruct (existsb (String.eqb c) registered) eqn:Hc.
  - apply existsb_eqb_In in Hc. split.
    + intros [[<- | []] | [Hin _]]; assumption.
    + intros Hin. destruct (String.eqb_spec v c) as [-> | Hne].
      * left. now left.
      * right. split; [exact Hin | reflexivity].
  - split.
    + intros [[] | [Hin _]]. exact Hin.
    + intros Hin. right. split; [exact Hin |].
      destruct (String.eqb_spec v c) as [-> | Hne]; [| reflexivity].
      apply existsb_eqb_In in Hin. congruence.
Qed.

Lemma candidate_list_length (configured : option string) (registered : list string) :
  NoDup registered ->
  List.length (interface.candidate_list configured registered) = List.length registered.
Proof.
  intros Hnd. destruct configured as [c |]; simpl; [| reflexivity].
  destruct (existsb (String.eqb c) registered) eqn:Hc.
  - apply existsb_eqb_In in Hc. simpl. now apply filter_others_length.
  - simpl. rewrite filter_others_absent; [reflexivity |].
    intros Hin. apply existsb_eqb_In in Hin. congruence.
Qed.

End Candidates.

Section Routing.
Context {V : Type}.

Lemma assoc_registered (A : Type) (v : string) (m : list (string * A)) :
  In v (map fst m) -> exists a, interface.assoc v m = Some a.
Proof.
  induction m as [| [k a] m IH]; simpl; [contradiction |].
  intros [-> | Hin].
  - rewrite String.eqb_refl. now exists a.
  - destruct (String.eqb k v); [now exists a | exact (IH Hin)].
Qed.

Lemma invoked_after (t : list event) (ev : event) :
  interface.invoked (t ++ [ev]) =
    (interface.invoked t ++
     match ev with EvInvoke _ v => [v] | _ => [] end)%list.
Proof.
  unfold interface.invoked. now rewrite flat_map_app; simpl; rewrite app_nil_r.
Qed.

(** When every implementation fails, the router goes through the whole
    candidate list, in order, before it gives up. *)
Lemma invoke_in_order_exhausts (method : string) (impls : list (string * interface.impl V))
    (args : list pyarg) (cands : list string) :
  (forall v, In v cands -> In v (map fst impls)) ->
  (forall v f, interface.assoc v impls = Some f -> interface.fails args f) ->
  forall last st, exists e st',
    interface.invoke_in_order method impls cands args last st = (Raise e, st') /\
    interface.invoked (trace st') = (interface.invoked (trace st) ++ cands)%list.
Proof.
  intros Hreg Hfail. induction cands as [| v cands IH]; intros last st; simpl.
  - exists last, st. split; [reflexivity | now rewrite app_nil_r].
  - destruct (assoc_registered v impls (Hreg v (or_introl eq_refl))) as [f Hf].
    rewrite Hf. unfold bind, emit, try_except, logger_warning.
    set (s1 := {| _obb := _obb st; trace := (trace st ++ [EvInvoke method v])%list |}).
    destruct (Hfail v f Hf s1) as [e [s2 [Hrun [He Hinv]]]].
    rewrite Hrun, He.
    set (s3 := {| _obb := _obb s2;
                  trace := (trace s2 ++
                            [EvLog WARNING
                               (v ++ " failed for " ++ method ++ ": " ++ exc_msg e)])%list |}).
    destruct (IH (fun x Hx => Hreg x (or_intror Hx)) e s3) as [e' [st' [Hrest Htr]]].
    exists e', st'. split; [exact Hrest |].
    rewrite Htr. unfold s3. cbn [trace]. rewrite invoked_after, app_nil_r, Hinv.
    unfold s1. cbn [trace]. rewrite invoked_after. now rewrite <- app_assoc.
Qed.

End Routing.

(** C3.  With the vendors of a capability registered under distinct
    names and a vendor configured for it: the candidate list holds
    exactly the registered vendors, each once; when more than one vendor
    is registered and the configured one is among them, it comes first
    and the others follow in registration order; when every
    implementation fails, route_to_vendor has invoked every candidate, in
    that order, before it raises; and a capability with exactly one
    registered vendor has exactly one candidate. *)
Theorem vendor_candidates (V : Type) (cats : interface.categories)
    (reg : interface.registry V) (cfg : interface.config)
    (method category configured : string) (args : list pyarg) :
  interface.get_category_for_method cats method = Return category ->
  interface.get_vendor cfg category method = Some configured ->
  let impls := interface.vendors_of reg method in
  let registered := map fst impls in
  let cands := interface.candidate_list (Some configured) registered in
  NoDup registered ->
  (1 < List.length registered -> In configured registered ->
   cands = configured :: filter (fun v => negb (String.eqb v configured)) registered) /\
  (forall v, In v cands <-> In v registered) /\
  List.length cands = List.length registered /\
  (List.length registered = 1 -> List.length cands = 1) /\
  ((forall v f, interface.assoc v impls = Some f -> interface.fails args f) ->
   forall st, exists e st',
     interface.route_to_vendor cats reg cfg method args st = (Raise e, st') /\
     interface.invoked (trace st') = (interface.invoked (trace st) ++ cands)%list).
Proof.
  intros Hcat Hven impls registered cands Hnd.
  split.
  { intros _ Hin. unfold cands, interface.candidate_list.
    apply existsb_eqb_In in Hin. now rewrite Hin. }
  split; [intros v; apply candidate_list_In |].
  split; [apply candidate_list_length, Hnd |].
  split; [intros H1; unfold cands; rewrite candidate_list_length; assumption |].
  intros Hfail st.
  unfold interface.route_to_vendor, bind, lift. rewrite Hcat, Hven.
  apply invoke_in_order_exhausts; [| exact Hfail].
  intros v Hv. apply candidate_list_In in Hv. exact Hv.
Qed.

(** Stock data with OpenBB configured: OpenBB first, then yfinance and
    alpha_vantage as registered; all three are invoked when all fail. *)
Lemma vendor_candidates_witness :
  let registered := ["yfinance"; "alpha_vantage"; "openbb"] in
  let cands := interface.candidate_list (Some "openbb") registered in
  (1 < List.length registered -> In "openbb" registered ->
   cands = "openbb" :: filter (fun v => negb (String.eqb v "openbb")) registered) /\
  (forall v, In v cands <-> In v registered) /\
  List.length cands = List.length registered /\
  (List.length registered = 1 -> List.length cands = 1) /\
  ((forall v f,
       interface.assoc v (interface.vendors_of Fixture.vendor_methods "get_stock_data")
         = Some f ->
       interface.fails [AStr "AAPL"; AStr "2025-01-01"; AStr "2025-01-02"] f) ->
   forall st, exists e st',
     interface.route_to_vendor Fixture.tools_categories Fixture.vendor_methods
       Fixture.openbb_first "get_stock_data"
       [AStr "AAPL"; AStr "2025-01-01"; AStr "2025-01-02"] st = (Raise e, st') /\
     interface.invoked (trace st') = (interface.invoked (trace st) ++ cands)%list).
Proof.
  apply (@vendor_candidates pyval Fixture.tools_categories Fixture.vendor_methods
           Fixture.openbb_first "get_stock_data" "core_stock_apis" "openbb"
           [AStr "AAPL"; AStr "2025-01-01"; AStr "2025-01-02"]).
  - reflexivity.
  - reflexivity.
  - repeat constructor; simpl; intuition discriminate.
Defined.

(** The same routes, run: the order of the attempts, and the single
    attempt of a capability that only OpenBB serves. *)
Lemma routing_examples :
  interface.candidate_list (Some "openbb") ["yfinance"; "alpha_vantage"; "openbb"]
    = ["openbb"; "yfinance"; "alpha_vantage"] /\
  interface.invoked
    (trace (snd (interface.route_to_vendor Fixture.tools_categories Fixture.vendor_methods
                   Fixture.openbb_first "get_stock_data"
                   [AStr "AAPL"; AStr "2025-01-01"; AStr "2025-01-02"] Fixture.fresh)))
    = ["openbb"; "yfinance"; "alpha_vantage"] /\
  interface.invoked
    (trace (snd (interface.route_to_vendor Fixture.tools_categories Fixture.vendor_methods
                   Fixture.openbb_first "get_economic_indicators"
                   [AStr "UNRATE"; ANone; ANone] Fixture.fresh)))
    = ["openbb"] /\
  interface.get_category_for_method Fixture.tools_categories "get_economic_indicators"
    = Return "macro_data" /\
  (exists e,
      interface.get_category_for_method Fixture.tools_categories "nonexistent_method"
        = Raise e /\ Str.occurs "not found" (exc_msg e)).
Proof.
  repeat (split; [vm_compute; reflexivity |]).
  eexists. split; [reflexivity |]. apply StrFacts.occursb_iff. vm_compute. reflexivity.
Qed.

(* ===================================================================== *)
(** * Beyond the claims: what never leaves an adapter *)
(* ===================================================================== *)

Section OnlyBase.
Context {V : Type}.

Lemma only_base_ret (A : Type) (a : A) : Behaviour.raises_only_base (@ret V A a).
Proof. intros st e st' E. discriminate E. Qed.

Lemma only_base_emit (ev : event) : Behaviour.raises_only_base (@emit V ev).
Proof. intros st e st' E. discriminate E. Qed.

Lemma only_base_bind (A B : Type) (c : M V A) (k : A -> M V B) :
  Behaviour.raises_only_base c -> (forall a, Behaviour.raises_only_base (k a)) ->
  Behaviour.raises_only_base (bind c k).
Proof.
  intros Hc Hk st e st' E. unfold bind in E.
  destruct (c st) as [[a | e0] st1] eqn:Ec.
  - exact (Hk a _ _ _ E).
  - inversion E; subst. exact (Hc _ _ _ Ec).
Qed.

(** Whatever the body does, [try ... except Exception] lets through only
    what the clause does not match, as long as the handler is as tame. *)
Lemma only_base_try (A : Type) (body : M V A) (handler : exc -> M V A) :
  (forall e, Behaviour.raises_only_base (handler e)) ->
  Behaviour.raises_only_base (try_except body isinstance_Exception handler).
Proof.
  intros Hh st e st' E. unfold try_except in E.
  destruct (body st) as [[a | e0] st1] eqn:Eb; [discriminate E |].
  destruct (isinstance_Exception e0) eqn:He0.
  - exact (Hh e0 _ _ _ E).
  - inversion E; subst. exact He0.
Qed.

Lemma only_base_for_each (X : Type) (xs : list X) (body : X -> M V (list string)) :
  (forall x, Behaviour.raises_only_base (body x)) ->
  Behaviour.raises_only_base (for_each xs body).
Proof.
  intros Hb. induction xs as [| x xs IH]; simpl.
  - apply only_base_ret.
  - apply only_base_bind; [apply Hb | intros l].
    apply only_base_bind; [exact IH | intros ls; apply only_base_ret].
Qed.

End OnlyBase.

(** X1.  With the singleton in place, none of the eleven functions that
    use the SDK lets an exception of the [Exception] hierarchy out,
    whatever goes wrong inside (the request, [to_dataframe], an index out
    of range, the date arithmetic): an exception that leaves one of them
    is one that [except Exception] does not catch. *)
Theorem adapters_raise_only_base_exceptions (V : Type) `{PyValue V} (w : World V)
    (c : Adapter.call) (obb : Obb V) (st st' : State V) (e : exc) :
  Adapter.uses_sdk c = true ->
  _obb st = Some obb ->
  Adapter.run w c st = (Raise e, st') ->
  isinstance_Exception e = false.
Proof.
  intros Hu Hc.
  destruct c; try discriminate Hu; cbn [Adapter.run];
    unfold openbb_provider.get_stock_data, openbb_provider.get_fundamentals,
      openbb_provider.get_balance_sheet, openbb_provider.get_cashflow,
      openbb_provider.get_income_statement, openbb_provider.get_insider_transactions,
      openbb_provider.get_news, openbb_provider.get_global_news,
      openbb_provider.get_sec_filings, openbb_provider.get_economic_indicators,
      openbb_provider.get_market_overview;
    unfold bind at 1; rewrite (get_obb_cached _ _ Hc);
    match goal with
    | |- ?m st = _ -> _ =>
        intros E; apply (fun K : Behaviour.raises_only_base m => K _ _ _ E)
    end.
  all: try (apply only_base_try; intros e0; unfold logger_warning;
            apply only_base_bind; [apply only_base_emit | intros; apply only_base_ret]).
  (* get_market_overview *)
  apply only_base_bind.
  - apply only_base_for_each. intros idx. unfold openbb_provider.index_section.
    apply only_base_try. intros; apply only_base_ret.
  - intros s1. apply only_base_bind.
    + apply only_base_for_each. intros sl. unfold openbb_provider.fred_section.
      apply only_base_try. intros; apply only_base_ret.
    + intros s2. cbv zeta. destruct (s1 ++ s2)%list; apply only_base_ret.
Qed.

(** An interrupt during the request does leave get_stock_data, and it is
    no [Exception]. *)
Lemma adapters_raise_only_base_exceptions_witness :
  isinstance_Exception (Exc KeyboardInterrupt "") = false.
Proof.
  eapply (@adapters_raise_only_base_exceptions pyval _
            (Fixture.world Fixture.interrupted_sdk)
            (Adapter.GetStockData "AAPL" "2025-01-01" "2025-01-02")
            Fixture.interrupted_sdk (Fixture.ready Fixture.interrupted_sdk)).
  - reflexivity.
  - reflexivity.
  - vm_compute. reflexivity.
Defined.

(* ===================================================================== *)
(** * Beyond the claims: telling the answers apart *)
(* ===================================================================== *)

(** Whatever the date arithmetic of get_global_news raises is caught by
    [except Exception]: a ValueError of [strptime], or an OverflowError
    of the subtraction. *)
Lemma days_before_raises_exception (V : Type) (w : World V) (curr_date : string)
    (look_back_days : Z) (e : exc) :
  days_before w curr_date look_back_days = Raise e ->
  isinstance_Exception e = true /\
  (exc_cls e = ValueError \/ exc_cls e = OverflowError).
Proof.
  unfold days_before.
  destruct (Dates.strptime curr_date) as [curr_dt | e0] eqn:Hs.
  - destruct (Dates.minus_relativedelta_days curr_dt look_back_days) as [d | e1] eqn:Hm;
      [discriminate |].
    intros E. injection E as <-.
    unfold Dates.minus_relativedelta_days, Dates.plus_days in Hm.
    repeat match type of Hm with
           | (if ?b then _ else _) = _ => destruct b
           end;
      try discriminate Hm; injection Hm as <-; (split; [reflexivity | now right]).
  - intros E. injection E as <-.
    unfold Dates.strptime in Hs.
    destruct (Dates.regex_match curr_date) as [[[[y m] d] rest] |].
    + destruct rest.
      * unfold Dates.make in Hs.
        repeat match type of Hs with
               | (if ?b then _ else _) = _ => destruct b
               end;
          try discriminate Hs; injection Hs as <-; (split; [reflexivity | now left]).
      * injection Hs as <-. split; [reflexivity | now left].
    + injection Hs as <-. split; [reflexivity | now left].
Qed.

Lemma error_string_starts (c : Adapter.call) (e : exc) :
  Adapter.request_adapter c = true ->
  Str.startswith "Error " (Adapter.error_string c e) = true.
Proof. intros Hc. destruct c; try discriminate Hc; reflexivity. Qed.

Lemma empty_message_starts (c : Adapter.call) :
  Adapter.request_adapter c = true ->
  Str.startswith "No " (Adapter.empty_message c) = true.
Proof. intros Hc. destruct c; try discriminate Hc; reflexivity. Qed.

Lemma warnings_after_failure (t : list event) (ep : endpoint) (kw : kwargs) (m : string) :
  Adapter.warnings (t ++ [EvCall ep kw; EvLog WARNING m]) = (Adapter.warnings t ++ [m])%list.
Proof. unfold Adapter.warnings. now rewrite flat_map_app. Qed.

(** X2.  With the singleton in place and an SDK that raises nothing
    outside the [Exception] hierarchy, each of the ten request adapters
    returns a string, and the first characters of the string tell how
    the call went.  It starts with "Error " and one warning is logged
    when the request raised, when get_global_news could not compute its
    window (no request is made then), and when get_stock_data could not
    round a price column; it starts with "No " and nothing is logged
    when the request was answered with an empty table; it starts with
    "#" and nothing is logged when the request was answered with data. *)
Theorem answers_told_apart (V : Type) `{PyValue V} (w : World V) (c : Adapter.call)
    (obb : Obb V) (st : State V) :
  Adapter.request_adapter c = true ->
  _obb st = Some obb ->
  Behaviour.sdk_well_behaved obb ->
  exists out st',
    Adapter.run w c st = (Return out, st') /\
    let failed :=
      Str.startswith "Error " out = true /\
      exists m, Adapter.warnings (trace st') = (Adapter.warnings (trace st) ++ [m])%list in
    let quiet := Adapter.warnings (trace st') = Adapter.warnings (trace st) in
    match Adapter.request w c with
    | None => failed /\ Adapter.sdk_calls (trace st') = Adapter.sdk_calls (trace st)
    | Some (ep, kw) =>
        match obb_call obb (trace st) ep kw with
        | Raise _ => failed
        | Return df =>
            if Pandas.empty df then Str.startswith "No " out = true /\ quiet
            else
              match Adapter.shown_table c df with
              | Return _ => Str.startswith "#" out = true /\ quiet
              | Raise _ => failed
              end
        end
    end.
Proof.
  intros Hra Hc Hsdk. cbv zeta.
  destruct (Adapter.request w c) as [[ep kw] |] eqn:Hreq.
  - destruct (obb_call obb (trace st) ep kw) as [df | e] eqn:Hans.
    + destruct (Pandas.empty df) eqn:Hemp.
      * (* an empty table *)
        rewrite (@run_on_empty _ _ w c ep kw obb st df Hreq Hc Hans Hemp).
        eexists. eexists. split; [reflexivity |].
        split; [exact (empty_message_starts c Hra) | apply warnings_after_call].
      * (* data *)
        destruct (Adapter.tabular c) eqn:Ht.
        -- rewrite (@run_on_table _ _ w c ep kw obb st df Ht Hreq Hc Hans Hemp).
           destruct (Adapter.shown_table c df) as [table | e] eqn:Hshown.
           ++ eexists. eexists. split; [reflexivity |].
              split; [| apply warnings_after_call].
              destruct c; try discriminate Ht; reflexivity.
           ++ eexists. eexists. split; [reflexivity |].
              split; [exact (error_string_starts c e Hra) |].
              eexists. apply warnings_after_failure.
        -- destruct c; try discriminate Ht; try discriminate Hra;
             cbn [Adapter.shown_table]; enter_request Hreq Hc; rewrite Hans, Hemp.
           ++ (* get_fundamentals *)
              destruct (iloc_first_not_empty df Hemp) as [row Hrow]. rewrite Hrow.
              cbn [trace].
              match goal with
              | |- context [obb_call ?o ?t equity_fundamental_metrics ?k] =>
                  destruct (obb_call o t equity_fundamental_metrics k) as [mdf | e] eqn:Hm
              end.
              ** destruct (Pandas.empty mdf) eqn:Hmemp; cbn [negb].
                 --- eexists; eexists; split; [reflexivity |]. cbn [trace].
                     split; [reflexivity | now rewrite !warnings_after_call].
                 --- destruct (iloc_first_not_empty mdf Hmemp) as [m Hmrow]. rewrite Hmrow.
                     eexists; eexists; split; [reflexivity |]. cbn [trace].
                     split; [reflexivity | now rewrite !warnings_after_call].
              ** rewrite (Hsdk _ _ _ _ Hm).
                 eexists; eexists; split; [reflexivity |]. cbn [trace].
                 split; [reflexivity | now rewrite !warnings_after_call].
           ++ (* get_news *)
              eexists; eexists; split; [reflexivity |]. cbn [trace].
              split; [reflexivity | apply warnings_after_call].
           ++ (* get_global_news *)
              eexists; eexists; split; [reflexivity |]. cbn [trace].
              split; [reflexivity | apply warnings_after_call].
           ++ (* get_sec_filings *)
              eexists; eexists; split; [reflexivity |]. cbn [trace].
              split; [reflexivity | apply warnings_after_call].
    + (* the request raised *)
      rewrite (@run_on_failure _ _ w c ep kw obb st e Hreq Hc Hans), (Hsdk _ _ _ _ Hans).
      eexists. eexists. split; [reflexivity |].
      split; [exact (error_string_starts c e Hra) |].
      eexists. apply warnings_after_failure.
  - (* no window *)
    destruct c; try discriminate Hra; cbn [Adapter.request] in Hreq; try discriminate Hreq.
    destruct (days_before w curr_date look_back_days) as [start | e] eqn:Hd;
      [discriminate Hreq |].
    rewrite (@run_on_bad_date _ _ w curr_date look_back_days limit obb st e Hc Hd).
    destruct (days_before_raises_exception _ _ _ Hd) as [He _]. rewrite He.
    eexists. eexists. split; [reflexivity |]. cbn [Behaviour.extend trace].
    split; [| apply sdk_calls_after_log].
    split; [reflexivity |]. eexists. apply warnings_after_warning.
Qed.

(** The three answers of an SDK that fails for AAPL only, and has data
    for every other symbol; and a date that is none. *)
Lemma answers_told_apart_witness :
  (exists out st',
      Adapter.run (Fixture.world MoreFixtures.picky_sdk)
        (Adapter.GetStockData "AAPL" "2025-01-01" "2025-01-02")
        (Fixture.ready MoreFixtures.picky_sdk) = (Return out, st') /\
      Str.startswith "Error " out = true /\
      exists m, Adapter.warnings (trace st') = ([] ++ [m])%list) /\
  (exists out st',
      Adapter.run (Fixture.world MoreFixtures.picky_empty_sdk)
        (Adapter.GetNews "FAKE" "2025-01-01" "2025-01-02")
        (Fixture.ready MoreFixtures.picky_empty_sdk) = (Return out, st') /\
      Str.startswith "No " out = true /\
      Adapter.warnings (trace st') = []) /\
  (exists out st',
      Adapter.run (Fixture.world MoreFixtures.picky_sdk)
        (Adapter.GetStockData "MSFT" "2025-01-01" "2025-01-02")
        (Fixture.ready MoreFixtures.picky_sdk) = (Return out, st') /\
      Str.startswith "#" out = true /\
      Adapter.warnings (trace st') = []) /\
  (exists out st',
      Adapter.run (Fixture.world MoreFixtures.picky_sdk)
        (Adapter.GetGlobalNews "15/01/2025" 7 10)
        (Fixture.ready MoreFixtures.picky_sdk) = (Return out, st') /\
      (Str.startswith "Error " out = true /\
       exists m, Adapter.warnings (trace st') = ([] ++ [m])%list) /\
      Adapter.sdk_calls (trace st') = []).
Proof.
  assert (Hpicky : Behaviour.sdk_well_behaved MoreFixtures.picky_sdk).
  { intros h ep kw e. unfold MoreFixtures.picky_sdk, Fixture.mock. cbn [obb_call].
    destruct ep; try discriminate;
      destruct (Behaviour.kwarg "symbol" kw) as [[| s | z] |]; try discriminate.
    destruct (String.eqb s "AAPL"); [| discriminate].
    intros E. injection E as <-. reflexivity. }
  assert (Hempty : Behaviour.sdk_well_behaved MoreFixtures.picky_empty_sdk).
  { intros h ep kw e. unfold MoreFixtures.picky_empty_sdk, Fixture.mock. cbn [obb_call].
    destruct (Behaviour.kwarg "symbol" kw) as [[| s | z] |]; try discriminate.
    destruct (String.eqb s "FAKE"); discriminate. }
  split; [| split; [| split]].
  - exact (@answers_told_apart pyval _ (Fixture.world MoreFixtures.picky_sdk)
             (Adapter.GetStockData "AAPL" "2025-01-01" "2025-01-02")
             MoreFixtures.picky_sdk (Fixture.ready MoreFixtures.picky_sdk)
             eq_refl eq_refl Hpicky).
  - exact (@answers_told_apart pyval _ (Fixture.world MoreFixtures.picky_empty_sdk)
             (Adapter.GetNews "FAKE" "2025-01-01" "2025-01-02")
             MoreFixtures.picky_empty_sdk (Fixture.ready MoreFixtures.picky_empty_sdk)
             eq_refl eq_refl Hempty).
  - exact (@answers_told_apart pyval _ (Fixture.world MoreFixtures.picky_sdk)
             (Adapter.GetStockData "MSFT" "2025-01-01" "2025-01-02")
             MoreFixtures.picky_sdk (Fixture.ready MoreFixtures.picky_sdk)
             eq_refl eq_refl Hpicky).
  - exact (@answers_told_apart pyval _ (Fixture.world MoreFixtures.picky_sdk)
             (Adapter.GetGlobalNews "15/01/2025" 7 10)
             MoreFixtures.picky_sdk (Fixture.ready MoreFixtures.picky_sdk)
             eq_refl eq_refl Hpicky).
Defined.

(* ===================================================================== *)
(** * Beyond the claims: what is added to the trace *)
(* ===================================================================== *)

Section Appends.
Context {V : Type}.
Variable P : event -> Prop.

Lemma appends_nothing (A : Type) (m : M V A) :
  (forall st, snd (m st) = st) -> Behaviour.appends P m.
Proof.
  intros Hm st r st' E. exists []. rewrite app_nil_r.
  specialize (Hm st). rewrite E in Hm. simpl in Hm. now subst.
Qed.

Lemma appends_ret (A : Type) (a : A) : Behaviour.appends P (@ret V A a).
Proof. now apply appends_nothing. Qed.

Lemma appends_raise (A : Type) (e : exc) : Behaviour.appends P (@raise V A e).
Proof. now apply appends_nothing. Qed.

Lemma appends_lift (A : Type) (x : result A) : Behaviour.appends P (@lift V A x).
Proof. now apply appends_nothing. Qed.

Lemma appends_read_obb : Behaviour.appends P (@read_obb V).
Proof. now apply appends_nothing. Qed.

Lemma appends_write_obb (o : option (Obb V)) : Behaviour.appends P (write_obb o).
Proof.
  intros st r st' E. inversion E; subst. exists []. now rewrite app_nil_r.
Qed.

Lemma appends_emit (ev : event) : P ev -> Behaviour.appends P (@emit V ev).
Proof.
  intros Hev st r st' E. inversion E; subst. exists [ev]. split; [reflexivity |].
  now constructor.
Qed.

Lemma appends_getenv (w : World V) (name : string) :
  P (EvGetenv name) -> Behaviour.appends P (os_getenv w name).
Proof.
  intros Hev st r st' E. inversion E; subst. exists [EvGetenv name].
  split; [reflexivity |]. now constructor.
Qed.

Lemma appends_call (obb : Obb V) (ep : endpoint) (kw : kwargs) :
  P (EvCall ep kw) -> Behaviour.appends P (call obb ep kw).
Proof.
  intros Hev st r st' E. inversion E; subst. exists [EvCall ep kw].
  split; [reflexivity |]. now constructor.
Qed.

Lemma appends_bind (A B : Type) (c : M V A) (k : A -> M V B) :
  Behaviour.appends P c -> (forall a, Behaviour.appends P (k a)) ->
  Behaviour.appends P (bind c k).
Proof.
  intros Hc Hk st r st' E. unfold bind in E.
  destruct (c st) as [[a | e] st1] eqn:Ec.
  - destruct (Hc _ _ _ Ec) as [evs1 [T1 F1]].
    destruct (Hk a _ _ _ E) as [evs2 [T2 F2]].
    exists (evs1 ++ evs2)%list. split; [| now apply Forall_app].
    now rewrite T2, T1, app_assoc.
  - inversion E; subst. exact (Hc _ _ _ Ec).
Qed.

Lemma appends_try_except (A : Type) (body : M V A) (catches : exc -> bool)
    (handler : exc -> M V A) :
  Behaviour.appends P body -> (forall e, Behaviour.appends P (handler e)) ->
  Behaviour.appends P (try_except body catches handler).
Proof.
  intros Hb Hh st r st' E. unfold try_except in E.
  destruct (body st) as [[a | e] st1] eqn:Eb.
  - inversion E; subst. exact (Hb _ _ _ Eb).
  - destruct (catches e).
    + destruct (Hb _ _ _ Eb) as [evs1 [T1 F1]].
      destruct (Hh e _ _ _ E) as [evs2 [T2 F2]].
      exists (evs1 ++ evs2)%list. split; [| now apply Forall_app].
      now rewrite T2, T1, app_assoc.
    + inversion E; subst. exact (Hb _ _ _ Eb).
Qed.

Lemma appends_for_each (X : Type) (xs : list X) (body : X -> M V (list string)) :
  (forall x, Behaviour.appends P (body x)) -> Behaviour.appends P (for_each xs body).
Proof.
  intros Hb. induction xs as [| x xs IH]; simpl.
  - apply appends_ret.
  - apply appends_bind; [apply Hb | intros l].
    apply appends_bind; [exact IH | intros ls; apply appends_ret].
Qed.

End Appends.

(** Walk through a function of the module, checking each effect. *)
Ltac appends_step :=
  first
    [ apply appends_ret | apply appends_raise | apply appends_lift
    | apply appends_read_obb | apply appends_write_obb
    | apply appends_emit; exact I
    | apply appends_getenv; exact I
    | apply appends_call; reflexivity
    | apply appends_for_each; intros ?
    | apply appends_bind; [| intros ?]
    | apply appends_try_except; [| intros ?]
    | match goal with
      | |- Behaviour.appends _ (if ?b then _ else _) => destruct b
      | |- Behaviour.appends _ (match ?x with _ => _ end) => destruct x
      end ].

(** X3.  Every function of the module, in any state, only adds to the
    trace of effects, and every SDK request it makes names the provider
    the module fixes for the endpoint: "sec" for the filings and the
    insider trades, "fred" for the FRED series, "yfinance" for all the
    others; no other provider is ever asked. *)
Theorem only_free_providers (V : Type) `{PyValue V} (w : World V) (c : Adapter.call)
    (st st' : State V) (r : result string) :
  Adapter.run w c st = (r, st') ->
  exists evs,
    trace st' = (trace st ++ evs)%list /\
    Forall Behaviour.names_free_provider evs /\
    forall ep kw, In (ep, kw) (Adapter.sdk_calls evs) ->
                  In (Behaviour.kwarg "provider" kw)
                     [Some (AStr "yfinance"); Some (AStr "sec"); Some (AStr "fred")].
Proof.
  intros E.
  assert (K : Behaviour.appends Behaviour.names_free_provider (Adapter.run w c)).
  { destruct c; cbn [Adapter.run];
      unfold openbb_provider.get_stock_data, openbb_provider.get_fundamentals,
        openbb_provider.get_balance_sheet, openbb_provider.get_cashflow,
        openbb_provider.get_income_statement, openbb_provider.get_insider_transactions,
        openbb_provider.get_news, openbb_provider.get_global_news,
        openbb_provider.get_sec_filings, openbb_provider.get_economic_indicators,
        openbb_provider.get_indicators, openbb_provider.get_market_overview,
        openbb_provider.index_section, openbb_provider.fred_section,
        openbb_provider._get_obb, openbb_provider.fred_kwargs,
        logger_warning, logger_info;
      cbv zeta; repeat appends_step. }
  destruct (K _ _ _ E) as [evs [T F]]. exists evs. split; [exact T |].
  split; [exact F |].
  intros ep kw Hin. unfold Adapter.sdk_calls in Hin. apply in_flat_map in Hin.
  destruct Hin as [ev [Hev Hin]]. rewrite Forall_forall in F. specialize (F ev Hev).
  destruct ev as [| | | | ep0 kw0 |]; simpl in Hin; try contradiction.
  destruct Hin as [Heq | []].
  injection Heq as -> ->. simpl in F. rewrite F.
  destruct ep; simpl; tauto.
Qed.

(** The market overview from a fresh module: initialisation and seven
    requests, all to free providers. *)
Lemma only_free_providers_witness :
  let run := Adapter.run (Fixture.world Fixture.balance_sdk) Adapter.GetMarketOverview
               Fixture.fresh in
  exists evs,
    trace (snd run) = ([] ++ evs)%list /\
    Forall Behaviour.names_free_provider evs /\
    forall ep kw, In (ep, kw) (Adapter.sdk_calls evs) ->
                  In (Behaviour.kwarg "provider" kw)
                     [Some (AStr "yfinance"); Some (AStr "sec"); Some (AStr "fred")].
Proof.
  intros run.
  apply (@only_free_providers pyval _ (Fixture.world Fixture.balance_sdk)
           Adapter.GetMarketOverview Fixture.fresh (snd run) (fst run)).
  apply surjective_pairing.
Defined.

(* ===================================================================== *)
(** * Beyond the claims: how many requests *)
(* ===================================================================== *)

(** X4.  With the singleton in place, each request adapter other than
    get_fundamentals asks the SDK at most once per call, and what it asks
    does not depend on the answer (no retry, no second source): the one
    request it makes is its own, at its own endpoint, whether the answer
    is an exception, an empty table or data.  The only call that makes no
    request at all is get_global_news with a date from which no window
    can be computed. *)
Theorem one_request_per_call (V : Type) `{PyValue V} (w : World V) (c : Adapter.call)
    (obb : Obb V) (st : State V) :
  Adapter.request_adapter c = true ->
  (forall ticker curr_date, c <> Adapter.GetFundamentals ticker curr_date) ->
  _obb st = Some obb ->
  exists r st',
    Adapter.run w c st = (r, st') /\
    Adapter.sdk_calls (trace st') =
      (Adapter.sdk_calls (trace st) ++
       match Adapter.request w c with
       | Some req => [req]
       | None => []
       end)%list /\
    (Adapter.request w c = None <->
     exists curr_date look_back_days limit e,
       c = Adapter.GetGlobalNews curr_date look_back_days limit /\
       days_before w curr_date look_back_days = Raise e).
Proof.
  intros Hra Hnf Hc.
  assert (Hnone : Adapter.request w c = None <->
                  exists curr_date look_back_days limit e,
                    c = Adapter.GetGlobalNews curr_date look_back_days limit /\
                    days_before w curr_date look_back_days = Raise e).
  { split.
    - destruct c; cbn [Adapter.request]; try discriminate Hra; try discriminate.
      destruct (days_before w curr_date look_back_days) as [start | e] eqn:Hd;
        [discriminate |].
      intros _. now exists curr_date, look_back_days, limit, e.
    - intros [d [n [l [e [-> Hd]]]]]. cbn [Adapter.request]. now rewrite Hd. }
  destruct (Adapter.request w c) as [[ep kw] |] eqn:Hreq.
  - destruct (obb_call obb (trace st) ep kw) as [df | e] eqn:Hans.
    + destruct (Pandas.empty df) eqn:Hemp.
      * rewrite (@run_on_empty _ _ w c ep kw obb st df Hreq Hc Hans Hemp).
        eexists. eexists. split; [reflexivity |].
        split; [apply sdk_calls_after_call | exact Hnone].
      * destruct (Adapter.tabular c) eqn:Ht.
        -- rewrite (@run_on_table _ _ w c ep kw obb st df Ht Hreq Hc Hans Hemp).
           destruct (Adapter.shown_table c df);
             (eexists; eexists; split; [reflexivity |]);
             (split; [| exact Hnone]); cbn [Behaviour.extend trace].
           ++ apply sdk_calls_after_call.
           ++ unfold Adapter.sdk_calls. now rewrite flat_map_app.
        -- destruct c; try discriminate Ht; try discriminate Hra;
             try (exfalso; eapply Hnf; reflexivity);
             enter_request Hreq Hc; rewrite Hans, Hemp;
             (eexists; eexists; split; [reflexivity |]);
             (split; [apply sdk_calls_after_call | exact Hnone]).
    + rewrite (@run_on_failure _ _ w c ep kw obb st e Hreq Hc Hans).
      destruct (isinstance_Exception e);
        (eexists; eexists; split; [reflexivity |]);
        (split; [| exact Hnone]); cbn [Behaviour.extend trace].
      * unfold Adapter.sdk_calls. now rewrite flat_map_app.
      * apply sdk_calls_after_call.
  - destruct (proj1 Hnone eq_refl) as [d [n [l [e [-> Hd]]]]].
    rewrite (@run_on_bad_date _ _ w d n l obb st e Hc Hd).
    destruct (isinstance_Exception e);
      (eexists; eexists; split; [reflexivity |]);
      (split; [| exact Hnone]); cbn [Behaviour.extend trace]; rewrite app_nil_r.
    + apply sdk_calls_after_log.
    + reflexivity.
Qed.

(** Insider trades on an SDK that fails: still one request, for AAPL;
    and the world news for a date that is none: no request. *)
Lemma one_request_per_call_witness :
  (exists r st',
      Adapter.run (Fixture.world Fixture.failing_sdk)
        (Adapter.GetInsiderTransactions "aapl") (Fixture.ready Fixture.failing_sdk)
        = (r, st') /\
      Adapter.sdk_calls (trace st') =
        ([] ++ [(equity_ownership_insider_trading,
                 [("symbol", AStr "AAPL"); ("provider", AStr "sec"); ("limit", AInt 50)])])%list /\
      (Adapter.request (Fixture.world Fixture.failing_sdk)
         (Adapter.GetInsiderTransactions "aapl") = None <->
       exists curr_date look_back_days limit e,
         Adapter.GetInsiderTransactions "aapl"
           = Adapter.GetGlobalNews curr_date look_back_days limit /\
         days_before (Fixture.world Fixture.failing_sdk) curr_date look_back_days
           = Raise e)) /\
  (exists r st',
      Adapter.run (Fixture.world Fixture.failing_sdk)
        (Adapter.GetGlobalNews "yesterday" 7 10) (Fixture.ready Fixture.failing_sdk)
        = (r, st') /\
      Adapter.sdk_calls (trace st') = ([] ++ [])%list /\
      (Adapter.request (Fixture.world Fixture.failing_sdk)
         (Adapter.GetGlobalNews "yesterday" 7 10) = None <->
       exists curr_date look_back_days limit e,
         Adapter.GetGlobalNews "yesterday" 7 10
           = Adapter.GetGlobalNews curr_date look_back_days limit /\
         days_before (Fixture.world Fixture.failing_sdk) curr_date look_back_days
           = Raise e)).
Proof.
  split.
  - apply (@one_request_per_call pyval _ (Fixture.world Fixture.failing_sdk)
             (Adapter.GetInsiderTransactions "aapl")
             Fixture.failing_sdk (Fixture.ready Fixture.failing_sdk)).
    + reflexivity.
    + discriminate.
    + reflexivity.
  - apply (@one_request_per_call pyval _ (Fixture.world Fixture.failing_sdk)
             (Adapter.GetGlobalNews "yesterday" 7 10)
             Fixture.failing_sdk (Fixture.ready Fixture.failing_sdk)).
    + reflexivity.
    + discriminate.
    + reflexivity.
Defined.

(** X5.  With the singleton in place, get_fundamentals asks for the
    profile first, always; it asks for the metrics, once and with the
    same keywords, only after a profile that is not empty; an empty or
    failed profile ends the call after one request. *)
Theorem fundamentals_requests (V : Type) `{PyValue V} (w : World V) (ticker : string)
    (curr_date : option string) (obb : Obb V) (st : State V) :
  _obb st = Some obb ->
  let kw := [("symbol", AStr (Str.upper ticker)); ("provider", AStr "yfinance")] in
  exists r st',
    Adapter.run w (Adapter.GetFundamentals ticker curr_date) st = (r, st') /\
    Adapter.sdk_calls (trace st') =
      (Adapter.sdk_calls (trace st) ++
       (equity_profile, kw) ::
       match obb_call obb (trace st) equity_profile kw with
       | Return df => if Pandas.empty df then [] else [(equity_fundamental_metrics, kw)]
       | Raise _ => []
       end)%list.
Proof.
  intros Hc kw. enter_adapter Hc. fold kw.
  destruct (obb_call obb (trace st) equity_profile kw) as [df | e].
  - destruct (Pandas.empty df) eqn:Hemp.
    + eexists; eexists; split; [reflexivity |]. cbn [trace].
      now rewrite sdk_calls_after_call.
    + destruct (iloc_first_not_empty df Hemp) as [row Hrow]. rewrite Hrow. cbn [trace].
      destruct (obb_call obb (trace st ++ [EvCall equity_profile kw])
                  equity_fundamental_metrics kw) as [mdf | e].
      * destruct (Pandas.empty mdf) eqn:Hmemp; cbn [negb].
        -- eexists; eexists; split; [reflexivity |]. cbn [trace].
           rewrite !sdk_calls_after_call. now rewrite <- app_assoc.
        -- destruct (iloc_first_not_empty mdf Hmemp) as [m Hm]. rewrite Hm.
           eexists; eexists; split; [reflexivity |]. cbn [trace].
           rewrite !sdk_calls_after_call. now rewrite <- app_assoc.
      * destruct (isinstance_Exception e) eqn:He; cbv beta iota; rewrite ?He;
          (eexists; eexists; split; [reflexivity |]); cbn [trace];
          rewrite ?sdk_calls_after_log, !sdk_calls_after_call; now rewrite <- app_assoc.
  - destruct (isinstance_Exception e);
      (eexists; eexists; split; [reflexivity |]); cbn [trace];
      rewrite ?sdk_calls_after_log, sdk_calls_after_call; reflexivity.
Qed.

(** On an empty profile the metrics are not asked for. *)
Lemma fundamentals_requests_witness :
  let kw := [("symbol", AStr "FAKE"); ("provider", AStr "yfinance")] in
  exists r st',
    Adapter.run (Fixture.world Fixture.empty_sdk) (Adapter.GetFundamentals "fake" None)
      (Fixture.ready Fixture.empty_sdk) = (r, st') /\
    Adapter.sdk_calls (trace st') = ([] ++ [(equity_profile, kw)])%list.
Proof.
  intros kw.
  exact (@fundamentals_requests pyval _ (Fixture.world Fixture.empty_sdk) "fake" None
           Fixture.empty_sdk (Fixture.ready Fixture.empty_sdk) eq_refl).
Defined.

(** X6.  The metrics are a supplement: when the profile has data and
    the metrics request fails with an [Exception] or yields an empty
    table, get_fundamentals returns its header followed by the profile
    lines alone, and logs no warning. *)
Theorem fundamentals_without_metrics (V : Type) `{PyValue V} (w : World V)
    (ticker : string) (curr_date : option string) (obb : Obb V) (st : State V)
    (df : Pandas.DataFrame V) (row : Pandas.Series V) :
  _obb st = Some obb ->
  let kw := [("symbol", AStr (Str.upper ticker)); ("provider", AStr "yfinance")] in
  obb_call obb (trace st) equity_profile kw = Return df ->
  Pandas.empty df = false ->
  Pandas.iloc_first df = Return row ->
  match obb_call obb (trace st ++ [EvCall equity_profile kw])%list
          equity_fundamental_metrics kw with
  | Return mdf => Pandas.empty mdf = true
  | Raise e => isinstance_Exception e = true
  end ->
  exists st',
    Adapter.run w (Adapter.GetFundamentals ticker curr_date) st
      = (Return (Adapter.comment_block
                   ["Company Fundamentals for " ++ Str.upper ticker;
                    "Source: OpenBB"; "Data retrieved on: " ++ now w] ++
                 Str.join Str.LF (openbb_provider.field_lines openbb_provider.field_map row)),
         st') /\
    Adapter.warnings (trace st') = Adapter.warnings (trace st).
Proof.
  intros Hc kw Hp Hemp Hrow Hm. enter_adapter Hc. fold kw.
  rewrite Hp, Hemp, Hrow. cbn [trace].
  destruct (obb_call obb (trace st ++ [EvCall equity_profile kw])
              equity_fundamental_metrics kw) as [mdf | e].
  - rewrite Hm. cbn [negb]. eexists. split.
    + do 2 f_equal. rewrite app_nil_r.
      unfold Adapter.comment_block, openbb_provider.retrieved_on.
      cbn [map String.concat]. rewrite !StrFacts.app_assoc. reflexivity.
    + cbn [trace]. now rewrite !warnings_after_call.
  - rewrite Hm. eexists. split.
    + do 2 f_equal. rewrite app_nil_r.
      unfold Adapter.comment_block, openbb_provider.retrieved_on.
      cbn [map String.concat]. rewrite !StrFacts.app_assoc. reflexivity.
    + cbn [trace]. now rewrite !warnings_after_call.
Qed.

(** The fundamentals test of the suite, where the metrics endpoint is
    not available. *)
Lemma fundamentals_without_metrics_witness :
  exists st',
    Adapter.run (Fixture.world Fixture.metrics_failing_sdk)
      (Adapter.GetFundamentals "AAPL" None) (Fixture.ready Fixture.metrics_failing_sdk)
      = (Return (Adapter.comment_block
                   ["Company Fundamentals for " ++ Str.upper "AAPL";
                    "Source: OpenBB"; "Data retrieved on: " ++ "2025-01-15 09:30:00"] ++
                 Str.join Str.LF
                   ["Name: Apple Inc."; "Sector: Technology";
                    "Industry: Consumer Electronics"; "Market Cap: 3000000000000"]),
         st') /\
    Adapter.warnings (trace st') = [].
Proof.
  exact (@fundamentals_without_metrics pyval _ (Fixture.world Fixture.metrics_failing_sdk)
           "AAPL" None Fixture.metrics_failing_sdk
           (Fixture.ready Fixture.metrics_failing_sdk) Fixture.profile_table
           (Pandas.series_of Fixture.profile_table
              (PInt 0, [PStr "Apple Inc."; PStr "Technology";
                        PStr "Consumer Electronics"; PInt 3000000000000]))
           eq_refl eq_refl eq_refl eq_refl eq_refl).
Defined.



(* ===================================================================== *)
(** * Beyond the claims: the market overview *)
(* ===================================================================== *)

Section Overview.
Context {V : Type} `{PyValue V}.

Lemma extend_nil (st : State V) : Behaviour.extend st [] = st.
Proof. destruct st. unfold Behaviour.extend. simpl. now rewrite app_nil_r. Qed.

Lemma extend_extend (st : State V) (a b : list event) :
  Behaviour.extend (Behaviour.extend st a) b = Behaviour.extend st (a ++ b).
Proof. unfold Behaviour.extend. simpl. now rewrite app_assoc. Qed.

Lemma iloc_last_not_empty (df : Pandas.DataFrame V) :
  Pandas.empty df = false -> exists row, Pandas.iloc_last df = Return row.
Proof.
  intros Hne. destruct (not_empty_has_row df Hne) as [r [rs Hr]].
  unfold Pandas.iloc_last. rewrite Hr.
  destruct (List.rev (r :: rs)) as [| x xs] eqn:Hrev; [| now eexists].
  apply (f_equal (@List.length _)) in Hrev. rewrite length_rev in Hrev. discriminate.
Qed.

(** One round over an index: one request, at most one line, and no line
    when the answer brings no data. *)
Lemma index_section_run (obb : Obb V) (idx : string) (st : State V) :
  Behaviour.sdk_well_behaved obb ->
  exists l,
    openbb_provider.index_section obb idx st
      = (Return l, Behaviour.extend st [Behaviour.index_request idx]) /\
    List.length l <= 1 /\
    (Behaviour.no_data
       (obb_call obb (trace st) equity_price_historical
          [("symbol", AStr idx); ("provider", AStr "yfinance"); ("limit", AInt 5)]) ->
     l = []).
Proof.
  intros Hsdk. unfold openbb_provider.index_section, try_except, bind, call, lift, ret.
  destruct (obb_call obb (trace st) equity_price_historical _) as [df | e] eqn:Hans.
  - destruct (Pandas.empty df) eqn:Hemp; cbn [negb].
    + exists []. repeat split; auto.
    + destruct (iloc_last_not_empty df Hemp) as [row Hrow]. rewrite Hrow.
      eexists. split; [reflexivity |]. split; [simpl; lia |].
      unfold Behaviour.no_data. congruence.
  - rewrite (Hsdk _ _ _ _ Hans). exists []. repeat split; auto.
Qed.

(** One round over a FRED series, likewise. *)
Lemma fred_section_run (obb : Obb V) (sl : string * string) (st : State V) :
  Behaviour.sdk_well_behaved obb ->
  exists l,
    openbb_provider.fred_section obb sl st
      = (Return l, Behaviour.extend st [Behaviour.series_request sl]) /\
    List.length l <= 1 /\
    (Behaviour.no_data
       (obb_call obb (trace st) economy_fred_series
          [("symbol", AStr (fst sl)); ("provider", AStr "fred")]) ->
     l = []).
Proof.
  intros Hsdk. unfold openbb_provider.fred_section, try_except, bind, call, lift, ret.
  destruct (obb_call obb (trace st) economy_fred_series _) as [df | e] eqn:Hans.
  - destruct (Pandas.empty df) eqn:Hemp; cbn [negb].
    + exists []. repeat split; auto.
    + destruct (filter _ (Pandas.columns df)) as [| c cs].
      * exists []. split; [reflexivity |]. split; [simpl; lia |].
        unfold Behaviour.no_data. congruence.
      * destruct (Pandas.column_last df c) as [v | e] eqn:Hv.
        -- eexists. split; [reflexivity |]. split; [simpl; lia |].
           unfold Behaviour.no_data. congruence.
        -- assert (He : isinstance_Exception e = true).
           { unfold Pandas.column_last in Hv.
             destruct (iloc_last_not_empty df Hemp) as [row Hrow]. rewrite Hrow in Hv.
             destruct (Pandas.get row c); [discriminate Hv |].
             injection Hv as <-. reflexivity. }
           rewrite He. exists []. split; [reflexivity |]. split; [simpl; lia |].
           reflexivity.
  - rewrite (Hsdk _ _ _ _ Hans). exists []. repeat split; auto.
Qed.

(** A loop of such rounds: one effect per round, in order, and at most
    one line per round. *)
Lemma for_each_rounds (X : Type) (body : X -> M V (list string)) (ev : X -> event)
    (xs : list X) :
  (forall x st, exists l,
      body x st = (Return l, Behaviour.extend st [ev x]) /\ List.length l <= 1) ->
  forall st, exists ls,
    for_each xs body st = (Return ls, Behaviour.extend st (map ev xs)) /\
    List.length ls <= List.length xs.
Proof.
  intros Hb. induction xs as [| x xs IH]; intros st; simpl.
  - exists []. rewrite extend_nil. split; [reflexivity | simpl; lia].
  - unfold bind. destruct (Hb x st) as [l [Hl Hlen]]. rewrite Hl.
    destruct (IH (Behaviour.extend st [ev x])) as [ls [Hls Hlens]]. rewrite Hls.
    exists (l ++ ls)%list. unfold ret. rewrite extend_extend. split; [reflexivity |].
    rewrite length_app. simpl. lia.
Qed.

End Overview.

(** X8.  With the singleton in place and an SDK that raises nothing
    outside the [Exception] hierarchy, get_market_overview always returns
    a string and never logs a warning.  It makes the same seven requests
    in the same order whatever the answers: the last 5 prices of ^GSPC,
    ^DJI, ^IXIC and ^VIX from yfinance, then FEDFUNDS, DGS10 and UNRATE
    from FRED.  The string is either "Unable to retrieve market overview
    data" or the three-line header followed by one to seven lines. *)
Theorem market_overview_always_answers (V : Type) `{PyValue V} (w : World V)
    (obb : Obb V) (st : State V) :
  _obb st = Some obb ->
  Behaviour.sdk_well_behaved obb ->
  exists out st',
    Adapter.run w Adapter.GetMarketOverview st = (Return out, st') /\
    trace st' =
      (trace st ++
       map Behaviour.index_request ["^GSPC"; "^DJI"; "^IXIC"; "^VIX"] ++
       map Behaviour.series_request
         [("FEDFUNDS", "Fed Funds Rate"); ("DGS10", "10Y Treasury");
          ("UNRATE", "Unemployment Rate")])%list /\
    Adapter.warnings (trace st') = Adapter.warnings (trace st) /\
    (out = "Unable to retrieve market overview data" \/
     exists sections,
       1 <= List.length sections <= 7 /\
       out = Adapter.comment_block
               ["Market Overview"; "Source: OpenBB"; "Data retrieved on: " ++ now w] ++
             Str.join Str.LF sections).
Proof.
  intros Hc Hsdk. cbn [Adapter.run]. unfold openbb_provider.get_market_overview.
  unfold bind at 1. rewrite (get_obb_cached _ _ Hc). unfold bind.
  assert (Hidx : forall x s, exists l,
             openbb_provider.index_section obb x s
               = (Return l, Behaviour.extend s [Behaviour.index_request x]) /\
             List.length l <= 1).
  { intros x s. destruct (index_section_run x s Hsdk) as [l [E [L _]]]. now exists l. }
  assert (Hser : forall x s, exists l,
             openbb_provider.fred_section obb x s
               = (Return l, Behaviour.extend s [Behaviour.series_request x]) /\
             List.length l <= 1).
  { intros x s. destruct (fred_section_run x s Hsdk) as [l [E [L _]]]. now exists l. }
  destruct (for_each_rounds _ _ openbb_provider.indices Hidx st) as [s1 [E1 L1]].
  rewrite E1.
  destruct (for_each_rounds _ _ openbb_provider.fred_series Hser
              (Behaviour.extend st (map Behaviour.index_request openbb_provider.indices)))
    as [s2 [E2 L2]].
  rewrite E2. rewrite extend_extend.
  assert (Hw : Adapter.warnings
                 (trace (Behaviour.extend st
                           (map Behaviour.index_request openbb_provider.indices ++
                            map Behaviour.series_request openbb_provider.fred_series)))
               = Adapter.warnings (trace st)).
  { unfold Behaviour.extend, Adapter.warnings. cbn [trace]. rewrite flat_map_app.
    simpl. apply app_nil_r. }
  cbv zeta. destruct (s1 ++ s2)%list as [| x xs] eqn:Hs.
  - eexists. eexists. split; [reflexivity |]. split; [reflexivity |].
    split; [exact Hw | now left].
  - eexists. eexists. split; [reflexivity |]. split; [reflexivity |].
    split; [exact Hw |]. right. exists (x :: xs). split.
    + assert (Hlen : List.length (x :: xs) = List.length s1 + List.length s2)
        by (rewrite <- Hs; apply length_app).
      simpl in L1, L2, Hlen. simpl. lia.
    + unfold Adapter.comment_block, openbb_provider.retrieved_on.
      cbn [map String.concat]. rewrite !StrFacts.app_assoc. reflexivity.
Qed.

(** The overview on an SDK that serves the balance table everywhere. *)
Lemma market_overview_always_answers_witness :
  exists out st',
    Adapter.run (Fixture.world Fixture.balance_sdk) Adapter.GetMarketOverview
      (Fixture.ready Fixture.balance_sdk) = (Return out, st') /\
    trace st' =
      ([] ++
       map Behaviour.index_request ["^GSPC"; "^DJI"; "^IXIC"; "^VIX"] ++
       map Behaviour.series_request
         [("FEDFUNDS", "Fed Funds Rate"); ("DGS10", "10Y Treasury");
          ("UNRATE", "Unemployment Rate")])%list /\
    Adapter.warnings (trace st') = [] /\
    (out = "Unable to retrieve market overview data" \/
     exists sections,
       1 <= List.length sections <= 7 /\
       out = Adapter.comment_block
               ["Market Overview"; "Source: OpenBB";
                "Data retrieved on: " ++ "2025-01-15 09:30:00"] ++
             Str.join Str.LF sections).
Proof.
  apply (@market_overview_always_answers pyval _ (Fixture.world Fixture.balance_sdk)
           Fixture.balance_sdk (Fixture.ready Fixture.balance_sdk)).
  - reflexivity.
  - intros h ep kw e E. discriminate E.
Defined.

(** X9.  With the singleton in place, when each of the seven requests
    of get_market_overview, at the moment it is made, fails with an
    [Exception] or yields an empty table, the function still makes all
    seven and returns "Unable to retrieve market overview data": the
    failures are passed over in silence, none is reported in the string
    or in the log.  Nothing is asked of the SDK beyond these seven
    requests, so how it would answer any other request does not matter. *)
Theorem market_overview_without_data (V : Type) `{PyValue V} (w : World V)
    (obb : Obb V) (st : State V) :
  _obb st = Some obb ->
  (forall k ep kw,
      nth_error Behaviour.overview_requests k = Some (EvCall ep kw) ->
      Behaviour.no_data
        (obb_call obb (trace st ++ firstn k Behaviour.overview_requests) ep kw)) ->
  exists st',
    Adapter.run w Adapter.GetMarketOverview st
      = (Return "Unable to retrieve market overview data", st') /\
    trace st' = (trace st ++ Behaviour.overview_requests)%list /\
    Adapter.warnings (trace st') = Adapter.warnings (trace st).
Proof.
  intros Hc Hno. eexists.
  split; [exact (@market_overview_no_data_run _ _ w obb st Hc Hno) |].
  split; [reflexivity |].
  cbn [Behaviour.extend trace]. apply warnings_of_requests. repeat constructor.
Qed.

(** An SDK that is down for the seven requests of the overview and
    serves everything else. *)
Lemma market_overview_without_data_witness :
  exists st',
    Adapter.run (Fixture.world MoreFixtures.overview_down_sdk) Adapter.GetMarketOverview
      (Fixture.ready MoreFixtures.overview_down_sdk)
      = (Return "Unable to retrieve market overview data", st') /\
    trace st' = ([] ++ Behaviour.overview_requests)%list /\
    Adapter.warnings (trace st') = [].
Proof.
  apply (@market_overview_without_data pyval _ (Fixture.world MoreFixtures.overview_down_sdk)
           MoreFixtures.overview_down_sdk (Fixture.ready MoreFixtures.overview_down_sdk)).
  - reflexivity.
  - intros k ep kw Hk.
    do 7 (destruct k as [| k]; [injection Hk as <- <-; reflexivity |]).
    destruct k; discriminate Hk.
Defined.

(* ===================================================================== *)
(** * Beyond the claims: the first use of the SDK *)
(* ===================================================================== *)

(** X10.  On a first use that imports the SDK, the FRED key assigned to
    the SDK is FRED_API_KEY when that variable is set and not empty,
    otherwise OPENBB_FRED_API_KEY when that one is, and no key is
    assigned when neither is; at most one assignment is made, and the
    second variable is not even read when the first holds a key. *)
Theorem fred_key_precedence (V : Type) `{PyValue V} (w : World V) (st : State V)
    (obb : Obb V) :
  _obb st = None ->
  import_openbb w = Return obb ->
  exists st' evs,
    openbb_provider._get_obb w st = (Return obb, st') /\
    trace st' = (trace st ++ evs)%list /\
    Behaviour.keys_assigned evs =
      match Behaviour.fred_key w with Some k => [k] | None => [] end /\
    (openbb_provider.truthy (environ w "FRED_API_KEY") = true ->
     ~ In (EvGetenv "OPENBB_FRED_API_KEY") evs).
Proof.
  intros Hn Hi. destruct st as [o t]. simpl in Hn. subst o.
  unfold openbb_provider._get_obb, bind, read_obb, try_except, emit, lift, raise,
    os_getenv, write_obb, logger_info, ret, Behaviour.fred_key.
  cbn. rewrite Hi. cbn.
  destruct (openbb_provider.truthy (environ w "FRED_API_KEY")) eqn:H1; cbn.
  - destruct (environ w "FRED_API_KEY") as [k |] eqn:Hk; [| discriminate H1].
    rewrite H1. cbn.
    eexists. exists [EvImport; EvGetenv "FRED_API_KEY"; EvSetFredApiKey k;
                     EvLog INFO "OpenBB SDK initialized successfully"].
    split; [reflexivity |]. split; [now rewrite <- !app_assoc |].
    split; [reflexivity |]. intros _ Hin. simpl in Hin.
    repeat (destruct Hin as [Hin | Hin]; [discriminate Hin |]). exact Hin.
  - destruct (environ w "OPENBB_FRED_API_KEY") as [k |] eqn:Hk; cbn.
    + destruct (negb (k =? "")) eqn:Hk2; cbn.
      * eexists. exists [EvImport; EvGetenv "FRED_API_KEY";
                         EvGetenv "OPENBB_FRED_API_KEY"; EvSetFredApiKey k;
                         EvLog INFO "OpenBB SDK initialized successfully"].
        split; [reflexivity |]. split; [now rewrite <- !app_assoc |].
        split; [reflexivity | discriminate].
      * eexists. exists [EvImport; EvGetenv "FRED_API_KEY";
                         EvGetenv "OPENBB_FRED_API_KEY";
                         EvLog INFO "OpenBB SDK initialized successfully"].
        split; [reflexivity |]. split; [now rewrite <- !app_assoc |].
        split; [reflexivity | discriminate].
    + eexists. exists [EvImport; EvGetenv "FRED_API_KEY";
                       EvGetenv "OPENBB_FRED_API_KEY";
                       EvLog INFO "OpenBB SDK initialized successfully"].
      split; [reflexivity |]. split; [now rewrite <- !app_assoc |].
      split; [reflexivity | discriminate].
Qed.

(** FRED_API_KEY set but empty: the key of OPENBB_FRED_API_KEY is taken. *)
Lemma fred_key_precedence_witness :
  exists st' evs,
    openbb_provider._get_obb (MoreFixtures.world_with_second_key Fixture.balance_sdk)
      Fixture.fresh = (Return Fixture.balance_sdk, st') /\
    trace st' = ([] ++ evs)%list /\
    Behaviour.keys_assigned evs = ["xyz789"] /\
    (false = true -> ~ In (EvGetenv "OPENBB_FRED_API_KEY") evs).
Proof.
  exact (@fred_key_precedence pyval _
           (MoreFixtures.world_with_second_key Fixture.balance_sdk) Fixture.fresh
           Fixture.balance_sdk eq_refl eq_refl).
Defined.

(** X11.  A failed first use caches nothing: after [_get_obb] has raised
    because the import failed, the global is still None, and the next
    call imports again and succeeds as soon as the package can be
    imported. *)
Theorem failed_import_is_retried (V : Type) `{PyValue V} (w w' : World V)
    (st : State V) (e : exc) (obb : Obb V) :
  _obb st = None ->
  import_openbb w = Raise e ->
  import_openbb w' = Return obb ->
  exists err st1 st2 evs,
    openbb_provider._get_obb w st = (Raise err, st1) /\
    _obb st1 = None /\
    openbb_provider._get_obb w' st1 = (Return obb, st2) /\
    _obb st2 = Some obb /\
    trace st2 = (trace st ++ EvImport :: EvImport :: evs)%list.
Proof.
  intros Hn Hi Hi'.
  pose proof (get_obb_import_fails w st Hn Hi) as Hfail.
  set (st1 := {| _obb := None; trace := (trace st ++ [EvImport])%list |}) in *.
  destruct (get_obb_import_succeeds w' st1 eq_refl Hi') as [evs Hok].
  eexists. exists st1. eexists. eexists.
  split; [exact Hfail |]. split; [reflexivity |].
  split; [exact Hok |]. split; [reflexivity |].
  unfold st1. cbn [trace]. rewrite <- !app_assoc. reflexivity.
Qed.

(** The package is installed between two calls. *)
Lemma failed_import_is_retried_witness :
  exists err st1 st2 evs,
    openbb_provider._get_obb Fixture.world_without_sdk Fixture.fresh = (Raise err, st1) /\
    _obb st1 = None /\
    openbb_provider._get_obb (Fixture.world Fixture.balance_sdk) st1
      = (Return Fixture.balance_sdk, st2) /\
    _obb st2 = Some Fixture.balance_sdk /\
    trace st2 = ([] ++ EvImport :: EvImport :: evs)%list.
Proof.
  exact (@failed_import_is_retried pyval _ Fixture.world_without_sdk
           (Fixture.world Fixture.balance_sdk) Fixture.fresh
           (Exc ModuleNotFoundError "No module named 'openbb'") Fixture.balance_sdk
           eq_refl eq_refl eq_refl).
Defined.

(** X12.  Only an ImportError is turned into the installation hint: any
    other exception raised by the import on first use comes out of
    [_get_obb] as it is, and out of every function that uses the SDK as
    well; nothing is cached. *)
Theorem broken_import_propagates (V : Type) `{PyValue V} (w : World V) (st : State V)
    (e : exc) :
  _obb st = None ->
  import_openbb w = Raise e ->
  isinstance_ImportError e = false ->
  let st' := {| _obb := None; trace := (trace st ++ [EvImport])%list |} in
  openbb_provider._get_obb w st = (Raise e, st') /\
  forall c, Adapter.uses_sdk c = true -> Adapter.run w c st = (Raise e, st').
Proof.
  intros Hn Hi He st'.
  assert (Hget : openbb_provider._get_obb w st = (Raise e, st')).
  { rewrite (get_obb_import_fails _ _ Hn Hi), He. reflexivity. }
  split; [exact Hget |].
  intros c Hu. destruct c; try discriminate Hu; cbn [Adapter.run];
    unfold openbb_provider.get_stock_data, openbb_provider.get_fundamentals,
      openbb_provider.get_balance_sheet, openbb_provider.get_cashflow,
      openbb_provider.get_income_statement, openbb_provider.get_insider_transactions,
      openbb_provider.get_news, openbb_provider.get_global_news,
      openbb_provider.get_sec_filings, openbb_provider.get_economic_indicators,
      openbb_provider.get_market_overview;
    unfold bind at 1; rewrite Hget; reflexivity.
Qed.

(** A package that breaks while it loads: its own error comes out. *)
Lemma broken_import_propagates_witness :
  let e := Exc RuntimeError "extension failed to load" in
  let st' : State pyval := {| _obb := None; trace := ([] ++ [EvImport])%list |} in
  openbb_provider._get_obb MoreFixtures.world_with_broken_sdk Fixture.fresh
    = (Raise e, st') /\
  forall c, Adapter.uses_sdk c = true ->
            Adapter.run MoreFixtures.world_with_broken_sdk c Fixture.fresh = (Raise e, st').
Proof.
  exact (@broken_import_propagates pyval _ MoreFixtures.world_with_broken_sdk
           Fixture.fresh (Exc RuntimeError "extension failed to load")
           eq_refl eq_refl eq_refl).
Defined.

(** X13.  The first call of any function that uses the SDK, on a module
    not yet initialised and with the package importable, initialises the
    singleton and then does exactly what the same call does with the
    singleton in place; when it is over, the singleton is in place. *)
Theorem first_call_initialises (V : Type) `{PyValue V} (w : World V) (c : Adapter.call)
    (st : State V) (obb : Obb V) :
  Adapter.uses_sdk c = true ->
  _obb st = None ->
  import_openbb w = Return obb ->
  exists st0,
    openbb_provider._get_obb w st = (Return obb, st0) /\
    _obb st0 = Some obb /\
    Adapter.run w c st = Adapter.run w c st0 /\
    _obb (snd (Adapter.run w c st)) = Some obb.
Proof.
  intros Hu Hn Hi.
  destruct (get_obb_import_succeeds w st Hn Hi) as [evs Hok].
  set (st0 := {| _obb := Some obb;
                 trace := (trace st ++ [EvImport; EvGetenv "FRED_API_KEY"] ++ evs ++
                           [EvLog INFO "OpenBB SDK initialized successfully"])%list |}) in *.
  assert (Hc0 : _obb st0 = Some obb) by reflexivity.
  exists st0. split; [exact Hok |]. split; [exact Hc0 |].
  assert (Hsame : Adapter.run w c st = Adapter.run w c st0).
  { destruct c; try discriminate Hu; cbn [Adapter.run];
      unfold openbb_provider.get_stock_data, openbb_provider.get_fundamentals,
        openbb_provider.get_balance_sheet, openbb_provider.get_cashflow,
        openbb_provider.get_income_statement, openbb_provider.get_insider_transactions,
        openbb_provider.get_news, openbb_provider.get_global_news,
        openbb_provider.get_sec_filings, openbb_provider.get_economic_indicators,
        openbb_provider.get_market_overview;
      unfold bind at 1; rewrite Hok;
      symmetry; unfold bind at 1; rewrite (get_obb_cached w st0 Hc0); reflexivity. }
  split; [exact Hsame |].
  rewrite Hsame.
  destruct (Adapter.run w c st0) as [r st'] eqn:Hrun.
  exact (run_keeps_singleton w c st0 Hc0 Hrun).
Qed.

(** The first stock-data call on a fresh module. *)
Lemma first_call_initialises_witness :
  let c := Adapter.GetStockData "AAPL" "2025-01-01" "2025-01-02" in
  let w := Fixture.world Fixture.price_sdk in
  exists st0,
    openbb_provider._get_obb w Fixture.fresh = (Return Fixture.price_sdk, st0) /\
    _obb st0 = Some Fixture.price_sdk /\
    Adapter.run w c Fixture.fresh = Adapter.run w c st0 /\
    _obb (snd (Adapter.run w c Fixture.fresh)) = Some Fixture.price_sdk.
Proof.
  exact (@first_call_initialises pyval _ (Fixture.world Fixture.price_sdk)
           (Adapter.GetStockData "AAPL" "2025-01-01" "2025-01-02") Fixture.fresh
           Fixture.price_sdk eq_refl eq_refl eq_refl).
Defined.

(* ===================================================================== *)
(** * Beyond the claims: the news *)
(* ===================================================================== *)

(** X14.  With the singleton in place, when the date given to
    get_global_news cannot be turned into a window (the date arithmetic
    raises an [Exception], as [strptime] does on a malformed date), the
    adapter returns "Error fetching global news: <message>", logs one
    warning, and makes no request to the SDK at all. *)
Theorem global_news_bad_date (V : Type) `{PyValue V} (w : World V) (curr_date : string)
    (look_back_days limit : Z) (obb : Obb V) (st : State V) (e : exc) :
  _obb st = Some obb ->
  days_before w curr_date look_back_days = Raise e ->
  isinstance_Exception e = true ->
  exists st',
    Adapter.run w (Adapter.GetGlobalNews curr_date look_back_days limit) st
      = (Return ("Error fetching global news: " ++ exc_msg e), st') /\
    Adapter.sdk_calls (trace st') = Adapter.sdk_calls (trace st) /\
    Adapter.warnings (trace st') =
      (Adapter.warnings (trace st) ++
       [("OpenBB get_global_news failed: " ++ exc_msg e)%string])%list.
Proof.
  intros Hc Hd He. enter_adapter Hc. rewrite Hd, He.
  eexists. split; [reflexivity |]. cbn [trace].
  split; [apply sdk_calls_after_log | apply warnings_after_warning].
Qed.

(** A date in the wrong format. *)
Lemma global_news_bad_date_witness :
  exists st',
    Adapter.run (MoreFixtures.world_with_bad_date Fixture.balance_sdk)
      (Adapter.GetGlobalNews "15/01/2025" 7 10) (Fixture.ready Fixture.balance_sdk)
      = (Return ("Error fetching global news: " ++
                 "time data '15/01/2025' does not match format '%Y-%m-%d'"), st') /\
    Adapter.sdk_calls (trace st') = [] /\
    Adapter.warnings (trace st') =
      ([] ++ [("OpenBB get_global_news failed: " ++
               "time data '15/01/2025' does not match format '%Y-%m-%d'")%string])%list.
Proof.
  exact (@global_news_bad_date pyval _ (MoreFixtures.world_with_bad_date Fixture.balance_sdk)
           "15/01/2025" 7 10 Fixture.balance_sdk (Fixture.ready Fixture.balance_sdk)
           (Exc ValueError "time data '15/01/2025' does not match format '%Y-%m-%d'")
           eq_refl eq_refl eq_refl).
Defined.

(** X15.  With the singleton in place, a date that [strptime] accepts
    and a number of days that leads to a day [datetime] can hold (day 1,
    January 1 of year 1, to day 3652059, December 31 of year 9999),
    get_global_news asks the world-news endpoint once, for the window
    that starts exactly [look_back_days] days before the given date (a
    negative number giving a later day) and ends on the given date, as
    given, with provider="yfinance" and the given limit; the start is
    printed as year-month-day. *)
Theorem global_news_window (V : Type) `{PyValue V} (w : World V) (curr_date : string)
    (look_back_days limit : Z) (obb : Obb V) (st : State V) (curr_dt : Dates.date) :
  _obb st = Some obb ->
  Dates.strptime curr_date = Return curr_dt ->
  (1 <= Dates.toordinal curr_dt - look_back_days <= 3652059)%Z ->
  exists start_dt r st',
    Dates.valid start_dt /\
    Dates.toordinal start_dt = (Dates.toordinal curr_dt - look_back_days)%Z /\
    (forall d, Dates.valid d -> Dates.toordinal d = Dates.toordinal start_dt ->
               d = start_dt) /\
    Adapter.run w (Adapter.GetGlobalNews curr_date look_back_days limit) st = (r, st') /\
    Adapter.sdk_calls (trace st') =
      (Adapter.sdk_calls (trace st) ++
       [(news_world,
         [("start_date", AStr (Dates.strftime (strftime_small_year w) start_dt));
          ("end_date", AStr curr_date);
          ("provider", AStr "yfinance"); ("limit", AInt limit)])])%list.
Proof.
  intros Hc Hs Hrange.
  pose proof (DateFacts.strptime_valid _ Hs) as Hv.
  destruct (@DateFacts.plus_days_succeeds curr_dt (- look_back_days) Hv ltac:(lia))
    as [start_dt Hplus].
  destruct Hv as [_ Hw].
  destruct (@DateFacts.plus_days_ordinal curr_dt start_dt (- look_back_days) Hw Hplus)
    as [Hord Hvalid].
  exists start_dt.
  assert (Hd : days_before w curr_date look_back_days
               = Return (Dates.strftime (strftime_small_year w) start_dt)).
  { unfold days_before, Dates.minus_relativedelta_days. now rewrite Hs, Hplus. }
  enter_adapter Hc. rewrite Hd.
  assert (Hunique : forall d, Dates.valid d ->
                               Dates.toordinal d = Dates.toordinal start_dt -> d = start_dt).
  { intros d [_ Hwd] Hsame.
    exact (@DateFacts.toordinal_injective d start_dt Hwd (proj2 Hvalid) Hsame). }
  any_answer; eexists; eexists; (split; [exact Hvalid |]); (split; [lia |]);
    (split; [exact Hunique |]);
    (split; [reflexivity |]); cbn [trace];
    rewrite ?sdk_calls_after_log, sdk_calls_after_call; reflexivity.
Qed.

(** A week of world news: the seven days before January 15 start on
    January 8. *)
Lemma global_news_window_witness :
  exists r st',
    Adapter.run (Fixture.world Fixture.empty_sdk) (Adapter.GetGlobalNews "2025-01-15" 7 10)
      (Fixture.ready Fixture.empty_sdk) = (r, st') /\
    Adapter.sdk_calls (trace st') =
      ([] ++
       [(news_world,
         [("start_date", AStr "2025-01-08"); ("end_date", AStr "2025-01-15");
          ("provider", AStr "yfinance"); ("limit", AInt 10)])])%list.
Proof.
  destruct (@global_news_window pyval _ (Fixture.world Fixture.empty_sdk) "2025-01-15" 7 10
              Fixture.empty_sdk (Fixture.ready Fixture.empty_sdk)
              {| Dates.year := 2025; Dates.month := 1; Dates.day := 15 |}
              eq_refl eq_refl)
    as [start_dt [r [st' [Hvalid [Hord [Hunique [Hrun Hcalls]]]]]]].
  - vm_compute. split; discriminate.
  - assert (E : {| Dates.year := 2025; Dates.month := 1; Dates.day := 8 |} = start_dt).
    { apply Hunique.
      - vm_compute. repeat split; discriminate.
      - rewrite Hord. reflexivity. }
    subst start_dt. exists r, st'. split; [exact Hrun | exact Hcalls].
Defined.

(** The start of the window on some days of the calendar: within a
    month, across the end of a year, after February in a leap year and
    in a common year, and forward for a negative number of days. *)
Lemma days_before_examples :
  let w := Fixture.world Fixture.empty_sdk in
  days_before w "2025-01-15" 7 = Return "2025-01-08" /\
  days_before w "2025-01-03" 7 = Return "2024-12-27" /\
  days_before w "2024-03-01" 1 = Return "2024-02-29" /\
  days_before w "2025-03-01" 1 = Return "2025-02-28" /\
  days_before w "2025-1-5" 0 = Return "2025-01-05" /\
  days_before w "2025-01-15" (-7) = Return "2025-01-22" /\
  days_before w "2025-02-30" 7
    = Raise (Exc ValueError "day is out of range for month") /\
  days_before w "2025-01-15 " 7
    = Raise (Exc ValueError "unconverted data remains:  ") /\
  days_before w "0001-01-03" 3 = Raise (Exc OverflowError "date value out of range").
Proof. vm_compute. repeat split. Qed.

Lemma str_length_app (a b : string) :
  String.length (a ++ b) = String.length a + String.length b.
Proof. induction a as [| c a IH]; simpl; [reflexivity | now rewrite IH]. Qed.

Lemma take_length (n : nat) (s : string) :
  String.length (Str.take n s) = Nat.min n (String.length s).
Proof.
  revert s. induction n as [| n IH]; intros s; [reflexivity |].
  destruct s as [| c s]; simpl; [reflexivity | now rewrite IH].
Qed.

(** X16.  With the singleton in place and a table that is not empty,
    get_news returns a heading followed by one "### <title> (source:
    <source>)" section per row, in the order of the rows.  The heading
    names the ticker as it was given, whereas the request carries it in
    upper case. *)
Theorem news_one_section_per_row (V : Type) `{PyValue V} (w : World V)
    (ticker start_date end_date : string) (obb : Obb V) (st : State V)
    (df : Pandas.DataFrame V) :
  _obb st = Some obb ->
  let kw := [("symbol", AStr (Str.upper ticker)); ("start_date", AStr start_date);
             ("end_date", AStr end_date); ("provider", AStr "yfinance");
             ("limit", AInt 20)] in
  obb_call obb (trace st) news_company kw = Return df ->
  Pandas.empty df = false ->
  exists st',
    Adapter.run w (Adapter.GetNews ticker start_date end_date) st
      = (Return ("## " ++ ticker ++ " News, from " ++ start_date ++ " to " ++ end_date ++
                 ":" ++ Str.LF ++ Str.LF ++
                 String.concat "" (map openbb_provider.news_item (Pandas.iterrows df))),
         st') /\
    List.length (map openbb_provider.news_item (Pandas.iterrows df)) = Pandas.len df /\
    trace st' = (trace st ++ [EvCall news_company kw])%list /\
    forall row, In row (Pandas.iterrows df) ->
      Str.startswith
        ("### " ++ py_str (Pandas.get_default row "title" (py_of_str "No title")) ++
         " (source: ")
        (openbb_provider.news_item row) = true.
Proof.
  intros Hc kw Hans Hne. enter_adapter Hc. fold kw. rewrite Hans, Hne.
  eexists. split; [reflexivity |].
  split; [unfold Pandas.iterrows, Pandas.len; now rewrite !length_map |].
  split; [reflexivity |].
  intros row _. apply StrFacts.startswith_iff. unfold openbb_provider.news_item.
  cbv zeta. eexists. rewrite !StrFacts.app_assoc. reflexivity.
Qed.

(** The news test of the suite, asked for in lower case. *)
Lemma news_one_section_per_row_witness :
  let kw := [("symbol", AStr (Str.upper "aapl")); ("start_date", AStr "2025-01-01");
             ("end_date", AStr "2025-01-07"); ("provider", AStr "yfinance");
             ("limit", AInt 20)] in
  let df := MoreFixtures.news_table in
  exists st',
    Adapter.run (Fixture.world MoreFixtures.news_sdk)
      (Adapter.GetNews "aapl" "2025-01-01" "2025-01-07")
      (Fixture.ready MoreFixtures.news_sdk)
      = (Return ("## " ++ "aapl" ++ " News, from " ++ "2025-01-01" ++ " to " ++
                 "2025-01-07" ++ ":" ++ Str.LF ++ Str.LF ++
                 String.concat "" (map openbb_provider.news_item (Pandas.iterrows df))),
         st') /\
    List.length (map openbb_provider.news_item (Pandas.iterrows df)) = Pandas.len df /\
    trace st' = ([] ++ [EvCall news_company kw])%list /\
    forall row, In row (Pandas.iterrows df) ->
      Str.startswith
        ("### " ++ py_str (Pandas.get_default row "title" (py_of_str "No title")) ++
         " (source: ")
        (openbb_provider.news_item row) = true.
Proof.
  exact (@news_one_section_per_row pyval _ (Fixture.world MoreFixtures.news_sdk)
           "aapl" "2025-01-01" "2025-01-07" MoreFixtures.news_sdk
           (Fixture.ready MoreFixtures.news_sdk) MoreFixtures.news_table
           eq_refl eq_refl eq_refl).
Defined.

(** X17.  A news section never carries more than 500 characters of
    summary: its length is at most that of the title, the source and the
    link it shows plus 500 for the summary and 25 for the fixed text. *)
Theorem news_item_bounded (V : Type) `{PyValue V} (row : Pandas.Series V) :
  let title := Pandas.get_default row "title" (py_of_str "No title") in
  let source :=
    Pandas.get_default row "source"
      (Pandas.get_default row "publisher" (py_of_str "Unknown")) in
  let url := Pandas.get_default row "url" (Pandas.get_default row "link" (py_of_str "")) in
  String.length (openbb_provider.news_item row)
  <= String.length (py_str title) + String.length (py_str source) +
     String.length (py_str url) + 500 + 25.
Proof.
  intros title source url. unfold openbb_provider.news_item. cbv zeta.
  fold title. fold source. fold url.
  unfold Str.LF.
  destruct (py_truthy _); destruct (py_truthy url);
    repeat rewrite str_length_app; rewrite ?take_length;
    cbn [String.length]; lia.
Qed.

(** X18.  A row that has none of the columns the news and filings
    loops look for is still reported, with the defaults: "No title" from
    source "Unknown", without summary or link, in the news; and in the
    filings the date "Unknown" with the filing type as description,
    without URL. *)
Theorem rows_without_columns (V : Type) `{PyValueLaws V} (row : Pandas.Series V)
    (filing_type : string) :
  (forall key, In key ["title"; "source"; "publisher"; "url"; "link"; "text"; "summary";
                       "filing_date"; "date"; "description"] ->
               Pandas.get row key = None) ->
  openbb_provider.news_item row = "### No title (source: Unknown)" ++ Str.LF ++ Str.LF /\
  openbb_provider.global_news_item row
    = "### No title (source: Unknown)" ++ Str.LF ++ Str.LF /\
  openbb_provider.filing_lines filing_type row = ["- [Unknown] " ++ filing_type].
Proof.
  intros Hnone.
  assert (Hd : forall key d, In key ["title"; "source"; "publisher"; "url"; "link"; "text";
                                     "summary"; "filing_date"; "date"; "description"] ->
                             Pandas.get_default row key d = d).
  { intros key d Hk. unfold Pandas.get_default. now rewrite (Hnone key Hk). }
  unfold openbb_provider.news_item, openbb_provider.global_news_item,
    openbb_provider.filing_lines. cbv zeta.
  rewrite !Hd by (simpl; tauto).
  rewrite !str_of_str, !truthy_of_str. cbn [String.eqb negb].
  repeat split; reflexivity.
Qed.

(** A story that only has columns the loops do not know. *)
Lemma rows_without_columns_witness :
  let row : Pandas.Series pyval := [("headline", PStr "Fed holds rates steady")] in
  openbb_provider.news_item row = "### No title (source: Unknown)" ++ Str.LF ++ Str.LF /\
  openbb_provider.global_news_item row
    = "### No title (source: Unknown)" ++ Str.LF ++ Str.LF /\
  openbb_provider.filing_lines "10-K" row = ["- [Unknown] " ++ "10-K"].
Proof.
  intros row.
  apply (@rows_without_columns pyval _ _ row "10-K").
  intros key Hk. simpl in Hk.
  repeat (destruct Hk as [<- | Hk]; [reflexivity |]). contradiction.
Defined.

(* ===================================================================== *)
(** * Beyond the claims: filings and prices *)
(* ===================================================================== *)

Lemma flat_map_between (A B : Type) (f : A -> list B) (l : list A) :
  (forall x, 1 <= List.length (f x) <= 2) ->
  List.length l <= List.length (flat_map f l) <= 2 * List.length l.
Proof.
  intros Hf. induction l as [| x l IH]; [simpl; lia |].
  cbn [flat_map]. rewrite length_app. specialize (Hf x). simpl. lia.
Qed.

(** X19.  With the singleton in place and a table that is not empty,
    get_sec_filings returns its three-line header followed by the
    filings as lines: for each row, in order, one "- [<date>]
    <description>" line and, only when the row has a link, one
    "  URL: <link>" line after it; so between one and two lines per row. *)
Theorem filings_listed (V : Type) `{PyValue V} (w : World V) (ticker filing_type : string)
    (limit : Z) (obb : Obb V) (st : State V) (df : Pandas.DataFrame V) :
  _obb st = Some obb ->
  obb_call obb (trace st) equity_fundamental_filings
    [("symbol", AStr (Str.upper ticker)); ("type", AStr filing_type);
     ("provider", AStr "sec"); ("limit", AInt limit)] = Return df ->
  Pandas.empty df = false ->
  let lines := flat_map (openbb_provider.filing_lines filing_type) (Pandas.iterrows df) in
  exists st',
    Adapter.run w (Adapter.GetSecFilings ticker filing_type limit) st
      = (Return (Adapter.comment_block
                   ["SEC " ++ filing_type ++ " Filings for " ++ Str.upper ticker;
                    "Source: OpenBB (SEC)"; "Data retrieved on: " ++ now w] ++
                 Str.join Str.LF lines),
         st') /\
    Pandas.len df <= List.length lines <= 2 * Pandas.len df /\
    (forall l, In l lines ->
               Str.startswith "- [" l = true \/ Str.startswith "  URL: " l = true) /\
    Adapter.warnings (trace st') = Adapter.warnings (trace st).
Proof.
  intros Hc Hans Hne lines. enter_adapter Hc. rewrite Hans, Hne.
  eexists. split.
  - do 2 f_equal. unfold Adapter.comment_block, openbb_provider.retrieved_on.
    cbn [map String.concat]. rewrite !StrFacts.app_assoc. reflexivity.
  - split.
    + replace (Pandas.len df) with (List.length (Pandas.iterrows df))
        by (unfold Pandas.iterrows, Pandas.len; apply length_map).
      apply flat_map_between. intros row. unfold openbb_provider.filing_lines.
      cbv zeta. destruct (py_truthy _); simpl; lia.
    + split; [| apply warnings_after_call].
      intros l Hl. apply in_flat_map in Hl. destruct Hl as [row [_ Hl]].
      unfold openbb_provider.filing_lines in Hl. cbv zeta in Hl.
      destruct Hl as [<- | Hl]; [left; reflexivity |].
      destruct (py_truthy _); [| contradiction].
      destruct Hl as [<- | []]. right. reflexivity.
Qed.

(** The filings test of the suite; the second filing has no link. *)
Lemma filings_listed_witness :
  let lines := ["- [2025-01-15] Annual Report"; "  URL: https://sec.gov/1";
                "- [2024-10-30] Quarterly Report"] in
  exists st',
    Adapter.run (Fixture.world MoreFixtures.filings_sdk)
      (Adapter.GetSecFilings "AAPL" "10-K" 5) (Fixture.ready MoreFixtures.filings_sdk)
      = (Return (Adapter.comment_block
                   ["SEC " ++ "10-K" ++ " Filings for " ++ Str.upper "AAPL";
                    "Source: OpenBB (SEC)";
                    "Data retrieved on: " ++ "2025-01-15 09:30:00"] ++
                 Str.join Str.LF lines),
         st') /\
    2 <= List.length lines <= 2 * 2 /\
    (forall l, In l lines ->
               Str.startswith "- [" l = true \/ Str.startswith "  URL: " l = true) /\
    Adapter.warnings (trace st') = [].
Proof.
  exact (@filings_listed pyval _ (Fixture.world MoreFixtures.filings_sdk) "AAPL" "10-K" 5
           MoreFixtures.filings_sdk (Fixture.ready MoreFixtures.filings_sdk)
           MoreFixtures.filings_table eq_refl eq_refl eq_refl).
Defined.

Section Rounding.
Context {V : Type} `{PyValue V}.

Lemma round2_cells_nth (col : string) (cols : list string) (cells cells' : list V)
    (j : nat) (c : string) (v : V) :
  Pandas.round2_cells col cols cells = Some cells' ->
  nth_error cols j = Some c -> nth_error cells j = Some v ->
  exists v', nth_error cells' j = Some v' /\ Behaviour.rounded_under col c v v'.
Proof.
  revert cols cells cells'.
  induction j as [| j IH]; intros [| c0 cols] [| v0 cells] cells' E Hc Hv;
    simpl in *; try discriminate.
  - injection Hc as ->. injection Hv as ->.
    unfold Behaviour.rounded_under.
    destruct (String.eqb c col).
    + destruct (py_round2 v) as [v' |]; [| discriminate E].
      destruct (Pandas.round2_cells col cols cells); [| discriminate E].
      injection E as <-. now exists v'.
    + destruct (Pandas.round2_cells col cols cells); [| discriminate E].
      injection E as <-. now exists v.
  - destruct (if String.eqb c0 col then py_round2 v0 else Some v0); [| discriminate E].
    destruct (Pandas.round2_cells col cols cells) as [rest |] eqn:Er; [| discriminate E].
    injection E as <-. simpl. exact (IH _ _ _ Er Hc Hv).
Qed.

Lemma round2_rows_nth (col : string) (cols : list string) (rs rs' : list (V * list V))
    (i : nat) (r : V * list V) :
  Pandas.round2_rows col cols rs = Some rs' ->
  nth_error rs i = Some r ->
  exists r',
    nth_error rs' i = Some r' /\ fst r' = fst r /\
    Pandas.round2_cells col cols (snd r) = Some (snd r').
Proof.
  revert rs rs'. induction i as [| i IH]; intros [| r0 rs] rs' E Hr;
    simpl in *; try discriminate.
  - injection Hr as ->.
    destruct (Pandas.round2_cells col cols (snd r)) as [cells |]; [| discriminate E].
    destruct (Pandas.round2_rows col cols rs); [| discriminate E].
    injection E as <-. eexists. simpl. repeat split.
  - destruct (Pandas.round2_cells col cols (snd r0)); [| discriminate E].
    destruct (Pandas.round2_rows col cols rs) as [rest |] eqn:Er; [| discriminate E].
    injection E as <-. simpl. exact (IH _ _ Er Hr).
Qed.

Lemma round2_column_cell (col : string) (d d' : Pandas.DataFrame V) (i j : nat)
    (r : V * list V) (c : string) (v : V) :
  Pandas.round2_column col d = Return d' ->
  nth_error (Pandas.rows d) i = Some r ->
  nth_error (Pandas.columns d) j = Some c ->
  nth_error (snd r) j = Some v ->
  exists r' v',
    nth_error (Pandas.rows d') i = Some r' /\
    fst r' = fst r /\
    nth_error (snd r') j = Some v' /\
    Behaviour.rounded_under col c v v' /\
    nth_error (Pandas.columns d') j = Some c.
Proof.
  unfold Pandas.round2_column.
  destruct (Pandas.round2_rows col (Pandas.columns d) (Pandas.rows d)) as [rs |] eqn:E;
    [| discriminate].
  intros E' Hr Hc Hv. injection E' as <-. cbn [Pandas.rows Pandas.columns].
  destruct (round2_rows_nth _ _ _ _ E Hr) as [r' [Hr' [Hf Hcells]]].
  destruct (round2_cells_nth _ _ _ _ Hcells Hc Hv) as [v' [Hv' Hround]].
  exists r', v'. repeat split; assumption.
Qed.

(** The four passes of get_stock_data over one cell. *)
Lemma round2_columns_cell (df table : Pandas.DataFrame V) (i j : nat)
    (r : V * list V) (c : string) (v : V) :
  Pandas.round2_columns openbb_provider.numeric_cols df = Return table ->
  nth_error (Pandas.rows df) i = Some r ->
  nth_error (Pandas.columns df) j = Some c ->
  nth_error (snd r) j = Some v ->
  exists r' v',
    nth_error (Pandas.rows table) i = Some r' /\
    fst r' = fst r /\
    nth_error (snd r') j = Some v' /\
    if existsb (String.eqb c) openbb_provider.numeric_cols
    then py_round2 v = Some v' else v' = v.
Proof.
  cbn [Pandas.round2_columns openbb_provider.numeric_cols]. intros E Hr Hc Hv.
  destruct (Pandas.round2_column "Open" df) as [d1 |] eqn:E1; [| discriminate E].
  destruct (Pandas.round2_column "High" d1) as [d2 |] eqn:E2; [| discriminate E].
  destruct (Pandas.round2_column "Low" d2) as [d3 |] eqn:E3; [| discriminate E].
  destruct (Pandas.round2_column "Close" d3) as [d4 |] eqn:E4; [| discriminate E].
  injection E as <-.
  destruct (round2_column_cell _ _ i j E1 Hr Hc Hv) as [r1 [v1 [Hr1 [Hf1 [Hv1 [R1 Hc1]]]]]].
  destruct (round2_column_cell _ _ i j E2 Hr1 Hc1 Hv1) as [r2 [v2 [Hr2 [Hf2 [Hv2 [R2 Hc2]]]]]].
  destruct (round2_column_cell _ _ i j E3 Hr2 Hc2 Hv2) as [r3 [v3 [Hr3 [Hf3 [Hv3 [R3 Hc3]]]]]].
  destruct (round2_column_cell _ _ i j E4 Hr3 Hc3 Hv3) as [r4 [v4 [Hr4 [Hf4 [Hv4 [R4 Hc4]]]]]].
  exists r4, v4. split; [exact Hr4 |]. split; [congruence |]. split; [exact Hv4 |].
  unfold Behaviour.rounded_under in R1, R2, R3, R4.
  unfold openbb_provider.numeric_cols. cbn [existsb].
  destruct (String.eqb c "Open") eqn:Q1;
    destruct (String.eqb c "High") eqn:Q2;
    destruct (String.eqb c "Low") eqn:Q3;
    destruct (String.eqb c "Close") eqn:Q4;
    cbn [orb]; cbv beta iota in R1, R2, R3, R4;
    repeat match goal with
           | Q : String.eqb _ _ = true |- _ => apply String.eqb_eq in Q
           end;
    try congruence.
Qed.

End Rounding.

(** X20.  With the singleton in place and a price table that is not
    empty, get_stock_data goes one of two ways.
    (1) When every price cell can be rounded, it returns its header and
    the CSV of a table with the same index, the same number of rows, the
    columns open, high, low, close and volume under their capitalised
    names and every other column under its own; every row keeps its
    place and its index label; a cell is passed through [round], once,
    exactly when its column is then called Open, High, Low or Close, and
    the volume and any other column are written as they came.
    (2) When some cell of a price column cannot be rounded, it returns
    its error string with the TypeError of pandas, and logs a warning. *)
Theorem stock_table_cells (V : Type) `{PyValue V} (w : World V)
    (symbol start_date end_date : string) (obb : Obb V) (st : State V)
    (df : Pandas.DataFrame V) :
  let c := Adapter.GetStockData symbol start_date end_date in
  let kw := [("symbol", AStr (Str.upper symbol)); ("start_date", AStr start_date);
             ("end_date", AStr end_date); ("provider", AStr "yfinance")] in
  _obb st = Some obb ->
  obb_call obb (trace st) equity_price_historical kw = Return df ->
  Pandas.empty df = false ->
  (forall table,
      Adapter.shown_table c df = Return table ->
      Adapter.run w c st
        = (Return (Adapter.comment_block (Adapter.header_lines w c (Pandas.len table)) ++
                   Pandas.to_csv table),
           Behaviour.extend st [EvCall equity_price_historical kw]) /\
      Pandas.index_name table = Pandas.index_name df /\
      Pandas.columns table = map Behaviour.renamed (Pandas.columns df) /\
      Pandas.len table = Pandas.len df /\
      forall i j r col v,
        nth_error (Pandas.rows df) i = Some r ->
        nth_error (Pandas.columns df) j = Some col ->
        nth_error (snd r) j = Some v ->
        exists r' v',
          nth_error (Pandas.rows table) i = Some r' /\
          fst r' = fst r /\
          nth_error (snd r') j = Some v' /\
          if Behaviour.price_column col then py_round2 v = Some v' else v' = v) /\
  (forall i j r col v,
      nth_error (Pandas.rows df) i = Some r ->
      nth_error (Pandas.columns df) j = Some col ->
      nth_error (snd r) j = Some v ->
      Behaviour.price_column col = true ->
      py_round2 v = None ->
      Adapter.run w c st
        = (Return (Adapter.error_string c Pandas.not_numeric),
           Behaviour.extend st
             [EvCall equity_price_historical kw;
              EvLog WARNING (Adapter.warning_logged c Pandas.not_numeric)])).
Proof.
  intros c kw Hc Hans Hne.
  pose proof (@run_on_table _ _ w c equity_price_historical kw obb st df
                eq_refl eq_refl Hc Hans Hne) as Hrun.
  assert (Hcell : forall table i j r col v,
             Adapter.shown_table c df = Return table ->
             nth_error (Pandas.rows df) i = Some r ->
             nth_error (Pandas.columns df) j = Some col ->
             nth_error (snd r) j = Some v ->
             exists r' v',
               nth_error (Pandas.rows table) i = Some r' /\
               fst r' = fst r /\
               nth_error (snd r') j = Some v' /\
               if Behaviour.price_column col then py_round2 v = Some v' else v' = v).
  { intros table i j r col v Hshown Hr Hcol Hv. cbn [Adapter.shown_table c] in Hshown.
    apply (round2_columns_cell _ i j Hshown (r := r) (c := Behaviour.renamed col)).
    - exact Hr.
    - unfold Pandas.rename. cbn [Pandas.columns]. rewrite nth_error_map, Hcol. reflexivity.
    - exact Hv. }
  split.
  - intros table Hshown. rewrite Hshown in Hrun. split; [exact Hrun |].
    pose proof Hshown as Hshape. cbn [Adapter.shown_table c] in Hshape.
    apply round2_columns_shape in Hshape. destruct Hshape as [Hi [Hcols Hl]].
    split; [exact Hi |]. split; [exact Hcols |]. split; [exact Hl |].
    intros i j r col v. apply Hcell. exact Hshown.
  - intros i j r col v Hr Hcol Hv Hp Hnone.
    destruct (Adapter.shown_table c df) as [table | e] eqn:Hshown.
    + destruct (Hcell table i j r col v eq_refl Hr Hcol Hv) as [r' [v' [_ [_ [_ Hround]]]]].
      rewrite Hp in Hround. congruence.
    + destruct (shown_table_error c df Hshown) as [-> _]. exact Hrun.
Qed.

(** The stock-data test: the first close and the first volume of the
    price table; and a table with a text among the closing prices. *)
Lemma stock_table_cells_witness :
  let c := Adapter.GetStockData "AAPL" "2025-01-01" "2025-01-02" in
  let kw := [("symbol", AStr "AAPL"); ("start_date", AStr "2025-01-01");
             ("end_date", AStr "2025-01-02"); ("provider", AStr "yfinance")] in
  (exists table,
      Adapter.run (Fixture.world Fixture.price_sdk) c (Fixture.ready Fixture.price_sdk)
        = (Return (Adapter.comment_block
                     (Adapter.header_lines (Fixture.world Fixture.price_sdk) c
                        (Pandas.len table)) ++
                   Pandas.to_csv table),
           Behaviour.extend (Fixture.ready Fixture.price_sdk)
             [EvCall equity_price_historical kw]) /\
      Pandas.columns table = ["Open"; "High"; "Low"; "Close"; "Volume"] /\
      Pandas.len table = 2 /\
      (exists r' v',
          nth_error (Pandas.rows table) 0 = Some r' /\
          fst r' = PStr "2025-01-01" /\
          nth_error (snd r') 3 = Some v' /\
          py_round2 (PInt 154) = Some v') /\
      (exists r' v',
          nth_error (Pandas.rows table) 0 = Some r' /\
          fst r' = PStr "2025-01-01" /\
          nth_error (snd r') 4 = Some v' /\
          v' = PInt 1000000)) /\
  Adapter.run (Fixture.world MoreFixtures.text_price_sdk) c
    (Fixture.ready MoreFixtures.text_price_sdk)
    = (Return (Adapter.error_string c Pandas.not_numeric),
       Behaviour.extend (Fixture.ready MoreFixtures.text_price_sdk)
         [EvCall equity_price_historical kw;
          EvLog WARNING (Adapter.warning_logged c Pandas.not_numeric)]).
Proof.
  intros c kw. split.
  - destruct (@stock_table_cells pyval _ (Fixture.world Fixture.price_sdk)
                "AAPL" "2025-01-01" "2025-01-02" Fixture.price_sdk
                (Fixture.ready Fixture.price_sdk) Fixture.price_table
                eq_refl eq_refl eq_refl) as [Hok _].
    destruct (Hok _ eq_refl) as [Hrun [_ [Hcols [Hlen Hcells]]]].
    eexists. split; [exact Hrun |]. split; [exact Hcols |]. split; [exact Hlen |].
    split.
    + exact (Hcells 0 3 _ "close" (PInt 154) eq_refl eq_refl eq_refl).
    + exact (Hcells 0 4 _ "volume" (PInt 1000000) eq_refl eq_refl eq_refl).
  - destruct (@stock_table_cells pyval _ (Fixture.world MoreFixtures.text_price_sdk)
                "AAPL" "2025-01-01" "2025-01-02" MoreFixtures.text_price_sdk
                (Fixture.ready MoreFixtures.text_price_sdk) MoreFixtures.text_price_table
                eq_refl eq_refl eq_refl) as [_ Hbad].
    exact (Hbad 0 1 _ "close" (PStr "n/a") eq_refl eq_refl eq_refl eq_refl eq_refl).
Defined.

(** X21.  With the singleton in place, a date that parses and a table
    that is not empty, get_global_news returns a heading that names the
    window, followed by one section per row, in order; a section of the
    world news is the section get_news would print for the same row once
    its summary is left out. *)
Theorem global_news_sections (V : Type) `{PyValue V} (w : World V) (curr_date : string)
    (look_back_days limit : Z) (obb : Obb V) (st : State V) (start_date : string)
    (df : Pandas.DataFrame V) :
  _obb st = Some obb ->
  days_before w curr_date look_back_days = Return start_date ->
  obb_call obb (trace st) news_world
    [("start_date", AStr start_date); ("end_date", AStr curr_date);
     ("provider", AStr "yfinance"); ("limit", AInt limit)] = Return df ->
  Pandas.empty df = false ->
  exists st',
    Adapter.run w (Adapter.GetGlobalNews curr_date look_back_days limit) st
      = (Return ("## Global Market News, from " ++ start_date ++ " to " ++ curr_date ++
                 ":" ++ Str.LF ++ Str.LF ++
                 String.concat ""
                   (map openbb_provider.global_news_item (Pandas.iterrows df))),
         st') /\
    List.length (map openbb_provider.global_news_item (Pandas.iterrows df))
      = Pandas.len df /\
    forall row,
      py_truthy (Pandas.get_default row "text"
                   (Pandas.get_default row "summary" (py_of_str ""))) = false ->
      openbb_provider.news_item row = openbb_provider.global_news_item row.
Proof.
  intros Hc Hd Hans Hne. enter_adapter Hc. rewrite Hd, Hans, Hne.
  eexists. split; [reflexivity |].
  split; [unfold Pandas.iterrows, Pandas.len; now rewrite !length_map |].
  intros row Hs. unfold openbb_provider.news_item, openbb_provider.global_news_item.
  cbv zeta. rewrite Hs. reflexivity.
Qed.

(** The stories of the news table as world news. *)
Lemma global_news_sections_witness :
  let df := MoreFixtures.news_table in
  exists st',
    Adapter.run (Fixture.world MoreFixtures.news_sdk)
      (Adapter.GetGlobalNews "2025-01-15" 7 10) (Fixture.ready MoreFixtures.news_sdk)
      = (Return ("## Global Market News, from " ++ "2025-01-08" ++ " to " ++ "2025-01-15" ++
                 ":" ++ Str.LF ++ Str.LF ++
                 String.concat ""
                   (map openbb_provider.global_news_item (Pandas.iterrows df))),
         st') /\
    List.length (map openbb_provider.global_news_item (Pandas.iterrows df))
      = Pandas.len df /\
    forall row,
      py_truthy (Pandas.get_default row "text"
                   (Pandas.get_default row "summary" (py_of_str ""))) = false ->
      openbb_provider.news_item row = openbb_provider.global_news_item row.
Proof.
  exact (@global_news_sections pyval _ (Fixture.world MoreFixtures.news_sdk) "2025-01-15"
           7 10 MoreFixtures.news_sdk (Fixture.ready MoreFixtures.news_sdk) "2025-01-08"
           MoreFixtures.news_table eq_refl eq_refl eq_refl eq_refl).
Defined.
